(** * The ColdFire MCF52233 FEC Ethernet driver of the FreeRTOS uIP demo

    A shallow embedding of
    [Demo/ColdFire_MCF52233_Eclipse/RTOSDemo/webserver/FEC.c] and the
    properties its specification states about it.

    Conventions of the embedding.
    - C integers are [Z]; every store into a [w]-bit object truncates with
      [u8], [u16] or [u32].
    - A pointer is the address it holds ([Z], [NULL] is 0).
    - The two descriptor rings are lists of [FECBD.t]; [ring[i].f = v] is
      [alter] at index [i].  The C code performs no bound check: inside the
      model an out-of-range read yields the all-zero descriptor and an
      out-of-range write does nothing; [wf] states that the cursors are in
      range, and [wf_step] shows that every operation preserves it.
    - The module-level variables of FEC.c are the fields of [state].
      [regs] holds, for each device register, what the driver last wrote
      to it, and every register write is also appended to [trace], in
      program order.  What the device does on its own is not part of the
      program: the values it produces (the event register, the MII data
      register) are inputs of the functions that read them, its rewriting
      of descriptors is a step of the environment ([op]), and its reaction
      to a register write, such as the reset bit of [MCF_FEC_ECR], is left
      out.
    - Kernel services are modelled at the driver's side of the interface:
      a binary semaphore is the availability of its token, a critical
      section and a delay are events of [trace]. *)

From Stdlib Require Import ZArith List Lia Bool.
From stdpp Require Import base list.
Import ListNotations.

Local Open Scope Z_scope.

(** ** Machine integers *)

Definition u8 (z : Z) : Z := z mod 2 ^ 8.
Definition u16 (z : Z) : Z := z mod 2 ^ 16.
Definition u32 (z : Z) : Z := z mod 2 ^ 32.

(** The truth value of a C scalar used as a condition. *)
Definition c_true (z : Z) : bool := negb (z =? 0).

(** [for( i = i0; ...; i++ ) body], run for [n] iterations. *)
Fixpoint for_loop {A : Type} (n : nat) (i : Z) (body : Z -> A -> A) (a : A) : A :=
  match n with
  | O => a
  | S n' => for_loop n' (i + 1) body (body i a)
  end.

(** ** Address filter: [fec_hash_address] *)

Module Hash.

(** One pass of the inner loop over [j], on the pair [(crc, byte)]. *)
Definition bit_step (st : Z * Z) : Z * Z :=
  let '(crc, byte) := st in
  let crc' :=
    if c_true (Z.lxor (Z.land byte 0x01) (Z.land crc 0x01))
    then u32 (Z.lxor (u32 (Z.shiftr crc 1)) 0xEDB88320)
    else u32 (Z.shiftr crc 1) in
  (crc', u8 (Z.shiftr byte 1)).

(** One pass of the outer loop over [i]. *)
Definition byte_step (addr : list Z) (i : Z) (crc : Z) : Z :=
  let byte := u8 (nth (Z.to_nat i) addr 0) in
  fst (for_loop 8 0 (fun _ => bit_step) (crc, byte)).

Definition crc_of (addr : list Z) : Z :=
  for_loop 6 0 (byte_step addr) 0xFFFFFFFF.

Definition fec_hash_address (addr : list Z) : Z :=
  u8 (Z.shiftr (crc_of addr) 26).

(** *** The reference the specification words describe

    CRC-32 over the bits of the message, each byte taken least
    significant bit first, polynomial 0xEDB88320, seed 0xFFFFFFFF; the
    hash is bits 31..26 of the final register. *)

Definition crc32_poly : Z := 0xEDB88320.
Definition crc32_seed : Z := 0xFFFFFFFF.

Definition bits_lsb_first (b : Z) : list bool :=
  map (fun k => Z.testbit b (Z.of_nat k)) (seq 0 8).

Definition message_bits (addr : list Z) : list bool :=
  flat_map bits_lsb_first addr.

Definition crc32_shift (crc : Z) (bit : bool) : Z :=
  Z.lxor (Z.shiftr crc 1)
         (if xorb bit (Z.testbit crc 0) then crc32_poly else 0).

Definition crc32_reference (addr : list Z) : Z :=
  fold_left crc32_shift (message_bits addr) crc32_seed.

Definition bits_31_26 (crc : Z) : Z := Z.land (Z.shiftr crc 26) 63.

Definition computeHash_reference (addr : list Z) : Z :=
  bits_31_26 (crc32_reference addr).

End Hash.

(** ** Data model *)

(** A buffer descriptor ([FECBD] of fecbd.h, as FEC.c uses it): a 16-bit
    status mask, a 16-bit length and the address of the buffer. *)
Module FECBD.
Record t : Type := mk { status : Z; length : Z; data : Z }.
Definition set_status (v : Z) (d : t) : t := mk (u16 v) (length d) (data d).
Definition set_length (v : Z) (d : t) : t := mk (status d) (u16 v) (data d).
Definition set_data (v : Z) (d : t) : t := mk (status d) (length d) v.
End FECBD.

#[global] Instance FECBD_inhabited : Inhabited FECBD.t :=
  populate (FECBD.mk 0 0 0).

Definition NULL : Z := 0.

(** The FEC registers FEC.c touches in the functions modelled here. *)
Inductive reg : Type :=
| MCF_FEC_EIR | MCF_FEC_EIMR | MCF_FEC_MMFR | MCF_FEC_ECR
| MCF_FEC_RDAR | MCF_FEC_TDAR | MCF_FEC_RCR | MCF_FEC_TCR
| MCF_FEC_PALR | MCF_FEC_PAUR | MCF_FEC_IALR | MCF_FEC_IAUR
| MCF_FEC_GALR | MCF_FEC_GAUR | MCF_FEC_EMRBR | MCF_FEC_ERDSR | MCF_FEC_ETSDR
| MCF_INTC0_ICR (x : Z) | MCF_INTC0_IMRH | MCF_INTC0_IMRL.

Definition reg_eq_dec (a b : reg) : {a = b} + {a <> b}.
Proof. decide equality. apply Z.eq_dec. Defined.

Arguments reg_eq_dec : simpl never.

(** What the driver does to its environment, in program order: register
    writes, and the kernel calls that leave no trace in the driver's own
    variables. *)
Inductive event : Type :=
| RegWrite (r : reg) (v : Z)
| EnterCritical
| ExitCritical
| TaskDelay (ticks : Z).

Record state : Type := mkState {
  TxRing : list FECBD.t;          (* the descriptors xFECTxDescriptors points to *)
  RxRing : list FECBD.t;          (* the descriptors xFECRxDescriptors points to *)
  xFECTxDescriptors : Z;
  xFECRxDescriptors : Z;
  uxNextRxBuffer : Z;
  uxIndexToBufferOwner : Z;
  uip_buf : Z;
  uip_len : Z;                    (* owned by uIP; read by the driver *)
  xFECSemaphore : bool;           (* token of the binary semaphore is available *)
  xTxSemaphore : bool;
  regs : reg -> Z;
  trace : list event
}.

Definition set_TxRing (l : list FECBD.t) (s : state) : state :=
  mkState l (RxRing s) (xFECTxDescriptors s) (xFECRxDescriptors s)
          (uxNextRxBuffer s) (uxIndexToBufferOwner s) (uip_buf s) (uip_len s)
          (xFECSemaphore s) (xTxSemaphore s) (regs s) (trace s).

Definition set_RxRing (l : list FECBD.t) (s : state) : state :=
  mkState (TxRing s) l (xFECTxDescriptors s) (xFECRxDescriptors s)
          (uxNextRxBuffer s) (uxIndexToBufferOwner s) (uip_buf s) (uip_len s)
          (xFECSemaphore s) (xTxSemaphore s) (regs s) (trace s).

Definition set_xFECTxDescriptors (p : Z) (s : state) : state :=
  mkState (TxRing s) (RxRing s) p (xFECRxDescriptors s)
          (uxNextRxBuffer s) (uxIndexToBufferOwner s) (uip_buf s) (uip_len s)
          (xFECSemaphore s) (xTxSemaphore s) (regs s) (trace s).

Definition set_xFECRxDescriptors (p : Z) (s : state) : state :=
  mkState (TxRing s) (RxRing s) (xFECTxDescriptors s) p
          (uxNextRxBuffer s) (uxIndexToBufferOwner s) (uip_buf s) (uip_len s)
          (xFECSemaphore s) (xTxSemaphore s) (regs s) (trace s).

Definition set_uxNextRxBuffer (v : Z) (s : state) : state :=
  mkState (TxRing s) (RxRing s) (xFECTxDescriptors s) (xFECRxDescriptors s)
          (u32 v) (uxIndexToBufferOwner s) (uip_buf s) (uip_len s)
          (xFECSemaphore s) (xTxSemaphore s) (regs s) (trace s).

Definition set_uxIndexToBufferOwner (v : Z) (s : state) : state :=
  mkState (TxRing s) (RxRing s) (xFECTxDescriptors s) (xFECRxDescriptors s)
          (uxNextRxBuffer s) (u32 v) (uip_buf s) (uip_len s)
          (xFECSemaphore s) (xTxSemaphore s) (regs s) (trace s).

Definition set_uip_buf (p : Z) (s : state) : state :=
  mkState (TxRing s) (RxRing s) (xFECTxDescriptors s) (xFECRxDescriptors s)
          (uxNextRxBuffer s) (uxIndexToBufferOwner s) p (uip_len s)
          (xFECSemaphore s) (xTxSemaphore s) (regs s) (trace s).

Definition set_uip_len (v : Z) (s : state) : state :=
  mkState (TxRing s) (RxRing s) (xFECTxDescriptors s) (xFECRxDescriptors s)
          (uxNextRxBuffer s) (uxIndexToBufferOwner s) (uip_buf s) (u16 v)
          (xFECSemaphore s) (xTxSemaphore s) (regs s) (trace s).

Definition set_xFECSemaphore (b : bool) (s : state) : state :=
  mkState (TxRing s) (RxRing s) (xFECTxDescriptors s) (xFECRxDescriptors s)
          (uxNextRxBuffer s) (uxIndexToBufferOwner s) (uip_buf s) (uip_len s)
          b (xTxSemaphore s) (regs s) (trace s).

Definition set_xTxSemaphore (b : bool) (s : state) : state :=
  mkState (TxRing s) (RxRing s) (xFECTxDescriptors s) (xFECRxDescriptors s)
          (uxNextRxBuffer s) (uxIndexToBufferOwner s) (uip_buf s) (uip_len s)
          (xFECSemaphore s) b (regs s) (trace s).

Definition log (e : event) (s : state) : state :=
  mkState (TxRing s) (RxRing s) (xFECTxDescriptors s) (xFECRxDescriptors s)
          (uxNextRxBuffer s) (uxIndexToBufferOwner s) (uip_buf s) (uip_len s)
          (xFECSemaphore s) (xTxSemaphore s) (regs s) (trace s ++ [e]).

(** [REG = v] on a 32-bit device register. *)
Definition write_reg (r : reg) (v : Z) (s : state) : state :=
  mkState (TxRing s) (RxRing s) (xFECTxDescriptors s) (xFECRxDescriptors s)
          (uxNextRxBuffer s) (uxIndexToBufferOwner s) (uip_buf s) (uip_len s)
          (xFECSemaphore s) (xTxSemaphore s)
          (fun r' => if reg_eq_dec r r' then u32 v else regs s r')
          (trace s ++ [RegWrite r (u32 v)]).

(** [REG = v] on an 8-bit device register. *)
Definition write_reg8 (r : reg) (v : Z) (s : state) : state :=
  mkState (TxRing s) (RxRing s) (xFECTxDescriptors s) (xFECRxDescriptors s)
          (uxNextRxBuffer s) (uxIndexToBufferOwner s) (uip_buf s) (uip_len s)
          (xFECSemaphore s) (xTxSemaphore s)
          (fun r' => if reg_eq_dec r r' then u8 v else regs s r')
          (trace s ++ [RegWrite r (u8 v)]).

(** Descriptor access through the ring pointers. *)
Definition tx_at (s : state) (i : Z) : FECBD.t := TxRing s !!! Z.to_nat i.
Definition rx_at (s : state) (i : Z) : FECBD.t := RxRing s !!! Z.to_nat i.

Definition tx_update (i : Z) (f : FECBD.t -> FECBD.t) (s : state) : state :=
  set_TxRing (alter f (Z.to_nat i) (TxRing s)) s.
Definition rx_update (i : Z) (f : FECBD.t -> FECBD.t) (s : state) : state :=
  set_RxRing (alter f (Z.to_nat i) (RxRing s)) s.

(** [d.status |= m] *)
Definition or_status (m : Z) (d : FECBD.t) : FECBD.t :=
  FECBD.set_status (Z.lor (FECBD.status d) m) d.

(** Modelled from the spec: the kernel's binary semaphore (semphr.h is not
    among the sources) is the binary wake-up primitive of section 6: a give,
    from a task or from the interrupt handler, makes the token available and
    repeated gives coalesce; a take that succeeds consumes the token. *)
Definition xSemaphoreGive (tok : bool) : bool := true.
Definition xSemaphoreGiveFromISR (tok : bool) : bool := true.
Definition token_taken (tok : bool) : bool := false.

(** Kernel calls without effect on the driver's variables. *)
Definition taskENTER_CRITICAL (s : state) : state := log EnterCritical s.
Definition taskEXIT_CRITICAL (s : state) : state := log ExitCritical s.
Definition vTaskDelay (ticks : Z) (s : state) : state := log (TaskDelay ticks) s.
Definition asm_NOP (s : state) : state := s.

Definition pdFALSE : Z := 0.
Definition pdTRUE : Z := 1.

Definition fecMAX_POLLS : Z := 20.
Definition fecNUM_FEC_TX_BUFFERS : Z := 1.
Definition fecTX_BUFFER_TO_USE : Z := 0.
Definition MCF_FEC_RCR_MAX_FL (x : Z) : Z := Z.shiftl (Z.land x 0x7FF) 0x10.

(** The device's side of one MII management frame: what the event register
    shows at each poll of the completion loop (polls are numbered from 0)
    and what the data register holds when it is read back. *)
Record mii_device : Type := { eir_at_poll : Z -> Z; mmfr_value : Z }.

Inductive link_speed : Type := Speed100 | Speed10.
Inductive duplex : Type := Full | Half.

(** A status flag of a descriptor: a non-empty mask inside the 16-bit
    status half-word. *)
Definition flag16 (f : Z) : Prop := 0 < f < 2 ^ 16.

(** [e] is a write to register [r]. *)
Definition writes_to (r : reg) (e : event) : bool :=
  match e with
  | RegWrite r' _ => if reg_eq_dec r r' then true else false
  | _ => false
  end.

(** Constants of headers that are not among the sources (fecbd.h, the
    MCF5223x register header, eth_phy.h, eth.h, FreeRTOSConfig.h) and the link-time
    addresses of the three static arrays.  The driver is modelled over any
    choice of them. *)
Class Constants : Type := {
  TX_BD_R : Z; TX_BD_L : Z; TX_BD_W : Z; TX_BD_TC : Z;
  RX_BD_E : Z; RX_BD_W : Z;
  configNUM_FEC_RX_BUFFERS : Z; configFEC_BUFFER_SIZE : Z;
  xFECTxDescriptors_unaligned : Z;
  xFECRxDescriptors_unaligned : Z;
  ucFECRxBuffers : Z;
  MCF_FEC_EIR_MII : Z; MCF_FEC_EIMR_MII : Z;
  MCF_FEC_EIR_RXB : Z; MCF_FEC_EIR_RXF : Z;
  MCF_FEC_EIR_TXF : Z; MCF_FEC_EIR_TXB : Z;
  MCF_FEC_EIR_UN : Z; MCF_FEC_EIR_RL : Z; MCF_FEC_EIR_LC : Z;
  MCF_FEC_EIR_EBERR : Z; MCF_FEC_EIR_BABT : Z; MCF_FEC_EIR_BABR : Z;
  MCF_FEC_EIR_HBERR : Z;
  MCF_FEC_ECR_RESET : Z; MCF_FEC_ECR_ETHER_EN : Z;
  MCF_FEC_RDAR_R_DES_ACTIVE : Z; MCF_FEC_TDAR_X_DES_ACTIVE : Z;
  MCF_FEC_RCR_DRT : Z; MCF_FEC_TCR_FDEN : Z;
  MCF_FEC_MMFR_ST_01 : Z; MCF_FEC_MMFR_OP_READ : Z;
  MCF_FEC_MMFR_OP_WRITE : Z; MCF_FEC_MMFR_TA_10 : Z;
  MCF_FEC_MMFR_PA : Z -> Z; MCF_FEC_MMFR_RA : Z -> Z;
  MCF_FEC_MMFR_DATA : Z -> Z;
  fecMII_DELAY : Z;
  configPHY_ADDRESS : Z; PHY_ANLPAR : Z;
  PHY_ANLPAR_100BTX_FDX : Z; PHY_ANLPAR_100BTX : Z;
  PHY_ANLPAR_10BTX_FDX : Z;
  ETH_MAX_FRM : Z;
  MCF_FEC_RCR_FCE : Z; MCF_FEC_RCR_MII_MODE : Z; MCF_FEC_RCR_PROM : Z;
  configUSE_PROMISCUOUS_MODE : Z;
  configMAC_0 : Z; configMAC_1 : Z; configMAC_2 : Z;
  configMAC_3 : Z; configMAC_4 : Z; configMAC_5 : Z;
  MCF_INTC_ICR_IL : Z -> Z; configFEC_INTERRUPT_PRIORITY : Z;
  MCF_INTC_IMRH_INT_MASK33 : Z; MCF_INTC_IMRH_INT_MASK34 : Z;
  MCF_INTC_IMRH_INT_MASK35 : Z;
  MCF_INTC_IMRL_INT_MASK23 : Z; MCF_INTC_IMRL_INT_MASK24 : Z;
  MCF_INTC_IMRL_INT_MASK25 : Z; MCF_INTC_IMRL_INT_MASK26 : Z;
  MCF_INTC_IMRL_INT_MASK27 : Z; MCF_INTC_IMRL_INT_MASK28 : Z;
  MCF_INTC_IMRL_INT_MASK29 : Z; MCF_INTC_IMRL_INT_MASK30 : Z;
  MCF_INTC_IMRL_INT_MASK31 : Z; MCF_INTC_IMRL_MASKALL : Z;
  MCF_FEC_EIR_CLEAR_ALL : Z; MCF_FEC_EIMR_UNMASK_ALL : Z
}.

(** An instance of the constants, with the bit assignments of the MCF5223x
    FEC and of the demo's configuration, on which the theorems below are
    exercised. *)
Definition MCF52233 : Constants := {|
  TX_BD_R := 0x8000; TX_BD_L := 0x0800; TX_BD_W := 0x2000; TX_BD_TC := 0x0400;
  RX_BD_E := 0x8000; RX_BD_W := 0x2000;
  configNUM_FEC_RX_BUFFERS := 5; configFEC_BUFFER_SIZE := 1520;
  xFECTxDescriptors_unaligned := 0x20000004;
  xFECRxDescriptors_unaligned := 0x2000001c;
  ucFECRxBuffers := 0x20000054;
  MCF_FEC_EIR_MII := 0x00800000; MCF_FEC_EIMR_MII := 0x00800000;
  MCF_FEC_EIR_RXB := 0x01000000; MCF_FEC_EIR_RXF := 0x02000000;
  MCF_FEC_EIR_TXF := 0x08000000; MCF_FEC_EIR_TXB := 0x04000000;
  MCF_FEC_EIR_UN := 0x00080000; MCF_FEC_EIR_RL := 0x00100000;
  MCF_FEC_EIR_LC := 0x00200000; MCF_FEC_EIR_EBERR := 0x00400000;
  MCF_FEC_EIR_BABT := 0x20000000; MCF_FEC_EIR_BABR := 0x40000000;
  MCF_FEC_EIR_HBERR := 0x80000000;
  MCF_FEC_ECR_RESET := 0x1; MCF_FEC_ECR_ETHER_EN := 0x2;
  MCF_FEC_RDAR_R_DES_ACTIVE := 0x01000000;
  MCF_FEC_TDAR_X_DES_ACTIVE := 0x01000000;
  MCF_FEC_RCR_DRT := 0x2; MCF_FEC_TCR_FDEN := 0x4;
  MCF_FEC_MMFR_ST_01 := 0x40000000; MCF_FEC_MMFR_OP_READ := 0x20000000;
  MCF_FEC_MMFR_OP_WRITE := 0x10000000; MCF_FEC_MMFR_TA_10 := 0x00020000;
  MCF_FEC_MMFR_PA := fun x => Z.shiftl (Z.land x 0x1F) 23;
  MCF_FEC_MMFR_RA := fun x => Z.shiftl (Z.land x 0x1F) 18;
  MCF_FEC_MMFR_DATA := fun x => Z.land x 0xFFFF;
  fecMII_DELAY := 10;
  configPHY_ADDRESS := 1; PHY_ANLPAR := 0x05;
  PHY_ANLPAR_100BTX_FDX := 0x0100; PHY_ANLPAR_100BTX := 0x0080;
  PHY_ANLPAR_10BTX_FDX := 0x0040;
  ETH_MAX_FRM := 1518;
  MCF_FEC_RCR_FCE := 0x20; MCF_FEC_RCR_MII_MODE := 0x4; MCF_FEC_RCR_PROM := 0x8;
  configUSE_PROMISCUOUS_MODE := 0;
  configMAC_0 := 0x00; configMAC_1 := 0x04; configMAC_2 := 0x9F;
  configMAC_3 := 0x00; configMAC_4 := 0xAB; configMAC_5 := 0x2B;
  MCF_INTC_ICR_IL := fun x => Z.shiftl (Z.land x 0x7) 3;
  configFEC_INTERRUPT_PRIORITY := 4;
  MCF_INTC_IMRH_INT_MASK33 := 0x2; MCF_INTC_IMRH_INT_MASK34 := 0x4;
  MCF_INTC_IMRH_INT_MASK35 := 0x8;
  MCF_INTC_IMRL_INT_MASK23 := 0x00800000; MCF_INTC_IMRL_INT_MASK24 := 0x01000000;
  MCF_INTC_IMRL_INT_MASK25 := 0x02000000; MCF_INTC_IMRL_INT_MASK26 := 0x04000000;
  MCF_INTC_IMRL_INT_MASK27 := 0x08000000; MCF_INTC_IMRL_INT_MASK28 := 0x10000000;
  MCF_INTC_IMRL_INT_MASK29 := 0x20000000; MCF_INTC_IMRL_INT_MASK30 := 0x40000000;
  MCF_INTC_IMRL_INT_MASK31 := 0x80000000; MCF_INTC_IMRL_MASKALL := 0x1;
  MCF_FEC_EIR_CLEAR_ALL := 0xFFF80000; MCF_FEC_EIMR_UNMASK_ALL := 0xFFF80000
|}.

(** A descriptor memory as it may be found before the rings are set up,
    and a state around it. *)
Definition stale : FECBD.t := FECBD.mk 0x1234 77 0xdead.
Definition all_unmasked (r : reg) : Z :=
  match r with MCF_FEC_EIMR => 0xFFFFFFFF | _ => 0 end.
Definition power_on : state :=
  mkState [stale] [stale; stale; stale; stale; stale] 0 0 3 2 0 0
          true true all_unmasked [].

(** Rings in service: the device has delivered a 64-byte frame into slot 1,
    which the cursor names; the transmit descriptor is free and uIP has a
    60-byte reply to send. *)
Definition frame_received : state :=
  mkState [FECBD.mk 0x2400 0 0]
          [FECBD.mk 0x8000 1520 0x20000060; FECBD.mk 0x0800 64 0x20000650;
           FECBD.mk 0x8000 1520 0x20000c40; FECBD.mk 0x8000 1520 0x20001230;
           FECBD.mk 0xa000 1520 0x20001820]
          0x20000010 0x20000020 1 0 0 60 false true all_unmasked [].

(** ... and the same with the previous transmit still in flight. *)
Definition transmit_in_flight : state :=
  mkState [FECBD.mk 0xac00 42 0x20000060]
          [FECBD.mk 0x0800 42 0x20000060; FECBD.mk 0x0800 64 0x20000650;
           FECBD.mk 0x8000 1520 0x20000c40; FECBD.mk 0x8000 1520 0x20001230;
           FECBD.mk 0xa000 1520 0x20001820]
          0x20000010 0x20000020 1 0 0x20000650 60 false true all_unmasked [].

(** A PHY that completes a management frame at the third poll and answers
    with the given word, and one that never completes. *)
Definition phy_answers (word : Z) : mii_device :=
  {| eir_at_poll := fun i => if i =? 2 then 0x00800000 else 0;
     mmfr_value := Z.lor 0x60160000 word |}.
Definition phy_silent : mii_device :=
  {| eir_at_poll := fun _ => 0; mmfr_value := 0xffff |}.

(** What happens to the driver's variables over time: calls of its entry
    points, and its two neighbours at work.  uIP stores the length of the
    frame it wants sent; the device may rewrite a descriptor at any moment
    (an over-approximation of its DMA engine, which the sources do not
    describe). *)
Inductive op : Type :=
| Poll                               (* usGetFECRxData, the length dropped *)
| Release                            (* vDiscardRxData *)
| Send (xTaken : bool)               (* vSendBufferToFEC *)
| Interrupt (eir : Z)                (* vFEC_ISR *)
| Stack (len : Z)                    (* uIP assigns uip_len *)
| DeviceRx (i : Z) (d : FECBD.t)     (* the device rewrites a receive descriptor *)
| DeviceTx (d : FECBD.t).            (* the device rewrites the transmit descriptor *)

(** The operations of the receiving side. *)
Definition rx_side (o : op) : bool :=
  match o with
  | Send _ | Interrupt _ => false
  | _ => true
  end.

Definition is_release (o : op) : bool :=
  match o with Release => true | _ => false end.

(** ** Bring-up: the board around the FEC *)

(** Registers that only [vInitFEC] programs: the MII clock divider, the
    pin assignment of the LED and port TA pins, and the two control
    registers of the on-chip PHY.  The first is a 32-bit FEC register, the
    others are byte-wide. *)
Inductive periph_reg : Type :=
| MCF_FEC_MSCR
| MCF_GPIO_PLDPAR | MCF_GPIO_PTAPAR | MCF_GPIO_DDRTA | MCF_GPIO_PORTTA
| MCF_EPHY_EPHYCTL0 | MCF_EPHY_EPHYCTL1.

Definition periph_eq_dec (a b : periph_reg) : {a = b} + {a <> b}.
Proof. decide equality. Defined.

Arguments periph_eq_dec : simpl never.

(** The driver's variables together with what else [vInitFEC] touches: the
    registers above, with the log of the writes to them in program order,
    and the station address it hands to uIP. *)
Record board : Type := mkBoard {
  fec : state;
  periph : periph_reg -> Z;
  periph_trace : list (periph_reg * Z);
  uip_ethaddr : list Z
}.

Definition on_fec (f : state -> state) (b : board) : board :=
  mkBoard (f (fec b)) (periph b) (periph_trace b) (uip_ethaddr b).

Definition set_fec (s : state) (b : board) : board :=
  mkBoard s (periph b) (periph_trace b) (uip_ethaddr b).

Definition uip_setethaddr (eaddr : list Z) (b : board) : board :=
  mkBoard (fec b) (periph b) (periph_trace b) eaddr.

Definition write_periph32 (r : periph_reg) (v : Z) (b : board) : board :=
  mkBoard (fec b)
          (fun r' => if periph_eq_dec r r' then u32 v else periph b r')
          (periph_trace b ++ [(r, u32 v)]) (uip_ethaddr b).

Definition write_periph8 (r : periph_reg) (v : Z) (b : board) : board :=
  mkBoard (fec b)
          (fun r' => if periph_eq_dec r r' then u8 v else periph b r')
          (periph_trace b ++ [(r, u8 v)]) (uip_ethaddr b).

Definition MCF_FEC_MSCR_MII_SPEED (x : Z) : Z := Z.shiftl (Z.land x 0x3F) 0x1.

(** The kernel's macro leaves a binary semaphore with its token available. *)
Definition vSemaphoreCreateBinary : bool := true.

(** Constants of the absent headers that only the first part of [vInitFEC]
    uses (mii.h, eth_phy.h, the GPIO and EPHY register headers,
    FreeRTOSConfig.h, portmacro.h). *)
Class BringUp : Type := {
  portTICK_RATE_MS : Z;
  configCPU_CLOCK_HZ : Z;
  PHY_PHYIDR1 : Z; PHY_BMCR : Z; PHY_BMSR : Z;
  PHY_BMCR_AN_RESTART : Z; PHY_BMCR_AN_ENABLE : Z;
  PHY_BMSR_AN_COMPLETE : Z;
  MCF_GPIO_PLDPAR_ACTLED_ACTLED : Z; MCF_GPIO_PLDPAR_LINKLED_LINKLED : Z;
  MCF_GPIO_PLDPAR_SPDLED_SPDLED : Z; MCF_GPIO_PLDPAR_DUPLED_DUPLED : Z;
  MCF_GPIO_PLDPAR_COLLED_COLLED : Z; MCF_GPIO_PLDPAR_RXLED_RXLED : Z;
  MCF_GPIO_PLDPAR_TXLED_TXLED : Z;
  MCF_EPHY_EPHYCTL1_PHYADD : Z -> Z;
  MCF_EPHY_EPHYCTL0_DIS100 : Z; MCF_EPHY_EPHYCTL0_DIS10 : Z;
  MCF_EPHY_EPHYCTL0_ANDIS : Z; MCF_EPHY_EPHYCTL0_EPHYEN : Z
}.

Definition MCF52233_bringup : BringUp := {|
  portTICK_RATE_MS := 1;
  configCPU_CLOCK_HZ := 60000000;
  PHY_PHYIDR1 := 0x02; PHY_BMCR := 0x00; PHY_BMSR := 0x01;
  PHY_BMCR_AN_RESTART := 0x0200; PHY_BMCR_AN_ENABLE := 0x1000;
  PHY_BMSR_AN_COMPLETE := 0x0020;
  MCF_GPIO_PLDPAR_ACTLED_ACTLED := 0x01; MCF_GPIO_PLDPAR_LINKLED_LINKLED := 0x02;
  MCF_GPIO_PLDPAR_SPDLED_SPDLED := 0x04; MCF_GPIO_PLDPAR_DUPLED_DUPLED := 0x08;
  MCF_GPIO_PLDPAR_COLLED_COLLED := 0x10; MCF_GPIO_PLDPAR_RXLED_RXLED := 0x20;
  MCF_GPIO_PLDPAR_TXLED_TXLED := 0x40;
  MCF_EPHY_EPHYCTL1_PHYADD := fun x => Z.land x 0x1F;
  MCF_EPHY_EPHYCTL0_DIS100 := 0x20; MCF_EPHY_EPHYCTL0_DIS10 := 0x10;
  MCF_EPHY_EPHYCTL0_ANDIS := 0x40; MCF_EPHY_EPHYCTL0_EPHYEN := 0x80
|}.

(** A board before bring-up. *)
Definition cold_board : board :=
  mkBoard power_on (fun _ => 0) [] [].

(** A PHY seen over the successive management frames of a bring-up, frames
    numbered from 0: it reads as absent (0xffff) twice, then identifies
    itself; it takes the restart of autonegotiation; its status shows
    negotiation complete at the second reading; its partner offers every
    ability. *)
Definition phy_script (frame : nat) : mii_device :=
  match frame with
  | 0%nat | 1%nat => phy_answers 0xffff
  | 2%nat => phy_answers 0x0243
  | 3%nat => phy_answers 0
  | 4%nat => phy_answers 0x7809
  | 5%nat => phy_answers 0x782d
  | _ => phy_answers 0x45e1
  end.

(** ** The driver *)

Section Driver.

Context {C : Constants}.

(** *** MII management frames *)

(** The completion poll [for( timeout = 0; timeout < fecMAX_POLLS; timeout++ )],
    with [n] iterations left; it yields the value of [timeout] at exit. *)
Fixpoint mii_poll (dev : mii_device) (n : nat) (timeout : Z) (s : state) : Z * state :=
  match n with
  | O => (timeout, s)
  | S n' =>
      if c_true (Z.land (eir_at_poll dev timeout) MCF_FEC_EIR_MII)
      then (timeout, s)
      else mii_poll dev n' (timeout + 1) (vTaskDelay fecMII_DELAY s)
  end.

Definition fec_mii_write (phy_addr reg_addr data : Z) (dev : mii_device) (s : state)
  : Z * state :=
  let s := write_reg MCF_FEC_EIR MCF_FEC_EIR_MII s in
  let eimr := regs s MCF_FEC_EIMR in
  let s := write_reg MCF_FEC_EIMR
             (Z.land (regs s MCF_FEC_EIMR) (Z.lnot MCF_FEC_EIMR_MII)) s in
  let s := write_reg MCF_FEC_MMFR
             (Z.lor (Z.lor (Z.lor (Z.lor (Z.lor
                MCF_FEC_MMFR_ST_01 MCF_FEC_MMFR_OP_WRITE)
                (MCF_FEC_MMFR_PA phy_addr)) (MCF_FEC_MMFR_RA reg_addr))
                MCF_FEC_MMFR_TA_10) (MCF_FEC_MMFR_DATA data)) s in
  let '(timeout, s) := mii_poll dev (Z.to_nat fecMAX_POLLS) 0 s in
  let iReturn := if timeout =? fecMAX_POLLS then 0 else 1 in
  let s := write_reg MCF_FEC_EIR MCF_FEC_EIR_MII s in
  let s := write_reg MCF_FEC_EIMR eimr s in
  (iReturn, s).

(** The result is [(iReturn, w, s')]: [w] is the store made through the
    [data] pointer, [None] when the function never assigns [*data]. *)
Definition fec_mii_read (phy_addr reg_addr : Z) (dev : mii_device) (s : state)
  : Z * option Z * state :=
  let s := write_reg MCF_FEC_EIR MCF_FEC_EIR_MII s in
  let eimr := regs s MCF_FEC_EIMR in
  let s := write_reg MCF_FEC_EIMR
             (Z.land (regs s MCF_FEC_EIMR) (Z.lnot MCF_FEC_EIMR_MII)) s in
  let s := write_reg MCF_FEC_MMFR
             (Z.lor (Z.lor (Z.lor (Z.lor
                MCF_FEC_MMFR_ST_01 MCF_FEC_MMFR_OP_READ)
                (MCF_FEC_MMFR_PA phy_addr)) (MCF_FEC_MMFR_RA reg_addr))
                MCF_FEC_MMFR_TA_10) s in
  let '(timeout, s) := mii_poll dev (Z.to_nat fecMAX_POLLS) 0 s in
  let '(iReturn, w) :=
    if timeout =? fecMAX_POLLS
    then (0, None)
    else (1, Some (u16 (Z.land (mmfr_value dev) 0x0000FFFF))) in
  let s := write_reg MCF_FEC_EIR MCF_FEC_EIR_MII s in
  let s := write_reg MCF_FEC_EIMR eimr s in
  (iReturn, w, s).

(** The caller's variable after a call that was passed its address. *)
Definition stored (w : option Z) (old : Z) : Z :=
  match w with Some v => v | None => old end.

(** *** Address filter *)

Definition fec_set_address (pa : list Z) (s : state) : state :=
  let byte i := u8 (nth i pa 0) in
  let s := write_reg MCF_FEC_PALR
             (Z.lor (Z.lor (Z.lor (Z.shiftl (byte 0%nat) 24) (Z.shiftl (byte 1%nat) 16))
                           (Z.shiftl (byte 2%nat) 8)) (Z.shiftl (byte 3%nat) 0)) s in
  let s := write_reg MCF_FEC_PAUR
             (Z.lor (Z.shiftl (byte 4%nat) 24) (Z.shiftl (byte 5%nat) 16)) s in
  let crc := Hash.fec_hash_address pa in
  if 32 <=? crc
  then write_reg MCF_FEC_IAUR
         (Z.lor (regs s MCF_FEC_IAUR) (u32 (Z.shiftl 1 (crc - 32)))) s
  else write_reg MCF_FEC_IALR
         (Z.lor (regs s MCF_FEC_IALR) (u32 (Z.shiftl 1 crc))) s.

(** *** Descriptor rings *)

(** [while( ( ( unsigned portLONG ) pcBufPointer & 0x0fUL ) != 0 ) pcBufPointer++;]
    The arrays carry 16 spare bytes, so at most 15 steps are taken. *)
Fixpoint align_loop (n : nat) (pcBufPointer : Z) : Z :=
  match n with
  | O => pcBufPointer
  | S n' =>
      if c_true (Z.land pcBufPointer 0x0f)
      then align_loop n' (pcBufPointer + 1)
      else pcBufPointer
  end.

Definition align16 (p : Z) : Z := align_loop 16 p.

#[local] Arguments align16 : simpl never.

Definition init_tx_descriptor (ux : Z) (s : state) : state :=
  let s := tx_update ux (FECBD.set_status TX_BD_TC) s in
  let s := tx_update ux (FECBD.set_data NULL) s in
  tx_update ux (FECBD.set_length 0) s.

Definition init_rx_descriptor (ux : Z) (sp : state * Z) : state * Z :=
  let '(s, pcBufPointer) := sp in
  let s := rx_update ux (FECBD.set_status RX_BD_E) s in
  let s := rx_update ux (FECBD.set_length configFEC_BUFFER_SIZE) s in
  let s := rx_update ux (FECBD.set_data pcBufPointer) s in
  (s, pcBufPointer + configFEC_BUFFER_SIZE).

Definition prvInitialiseFECBuffers (s : state) : state :=
  let pcBufPointer := align16 xFECTxDescriptors_unaligned in
  let s := set_xFECTxDescriptors pcBufPointer s in
  let pcBufPointer := align16 xFECRxDescriptors_unaligned in
  let s := set_xFECRxDescriptors pcBufPointer s in
  let s := for_loop (Z.to_nat fecNUM_FEC_TX_BUFFERS) 0 init_tx_descriptor s in
  let pcBufPointer := align16 ucFECRxBuffers in
  let '(s, _) := for_loop (Z.to_nat configNUM_FEC_RX_BUFFERS) 0
                          init_rx_descriptor (s, pcBufPointer) in
  let s := tx_update (fecNUM_FEC_TX_BUFFERS - 1) (or_status TX_BD_W) s in
  let s := rx_update (configNUM_FEC_RX_BUFFERS - 1) (or_status RX_BD_W) s in
  set_uxNextRxBuffer 0 s.

(** *** Reset *)

Definition prvResetFEC (xCalledFromISR : Z) (s : state) : state :=
  let s := if xCalledFromISR =? pdFALSE then taskENTER_CRITICAL s else s in
  let s := prvInitialiseFECBuffers s in
  let s := write_reg MCF_FEC_ECR MCF_FEC_ECR_RESET s in
  let s := for_loop 10 0 (fun _ => asm_NOP) s in
  let s := write_reg MCF_FEC_ECR MCF_FEC_ECR_ETHER_EN s in
  let s := write_reg MCF_FEC_RDAR MCF_FEC_RDAR_R_DES_ACTIVE s in
  if xCalledFromISR =? pdFALSE then taskEXIT_CRITICAL s else s.

(** *** Receive path *)

Definition usGetFECRxData (s : state) : Z * state :=
  let usLen := FECBD.length (rx_at s (uxNextRxBuffer s)) in
  if negb (usLen =? 0)
     && (Z.land (FECBD.status (rx_at s (uxNextRxBuffer s))) RX_BD_E =? 0)
  then (usLen, set_uip_buf (FECBD.data (rx_at s (uxNextRxBuffer s))) s)
  else (0, s).

(** [uxNextRxBuffer++; if( uxNextRxBuffer >= configNUM_FEC_RX_BUFFERS ) uxNextRxBuffer = 0;] *)
Definition advance_cursor (s : state) : state :=
  let s := set_uxNextRxBuffer (uxNextRxBuffer s + 1) s in
  if configNUM_FEC_RX_BUFFERS <=? uxNextRxBuffer s
  then set_uxNextRxBuffer 0 s
  else s.

Definition vDiscardRxData (s : state) : state :=
  let s := rx_update (uxNextRxBuffer s) (or_status RX_BD_E) s in
  let s := write_reg MCF_FEC_RDAR MCF_FEC_RDAR_R_DES_ACTIVE s in
  advance_cursor s.

(** *** Transmit path *)

(** [xTaken] is the outcome of
    [xSemaphoreTake( xTxSemaphore, fecTX_BUFFER_WAIT ) == pdPASS], which
    the kernel decides; [s] is the state when that call returns. *)
Definition vSendBufferToFEC (xTaken : bool) (s : state) : state :=
  if xTaken then
    let s := set_xTxSemaphore (token_taken (xTxSemaphore s)) s in
    if c_true (Z.land (FECBD.status (tx_at s fecTX_BUFFER_TO_USE)) TX_BD_R)
    then
      let s := prvResetFEC pdFALSE s in
      set_xTxSemaphore (xSemaphoreGive (xTxSemaphore s)) s
    else
      let s := tx_update fecTX_BUFFER_TO_USE (FECBD.set_length (uip_len s)) s in
      let s := tx_update fecTX_BUFFER_TO_USE (or_status (Z.lor TX_BD_R TX_BD_L)) s in
      let s := tx_update fecTX_BUFFER_TO_USE (FECBD.set_data (uip_buf s)) s in
      let s := set_uxIndexToBufferOwner (uxNextRxBuffer s) s in
      let s := advance_cursor s in
      write_reg MCF_FEC_TDAR MCF_FEC_TDAR_X_DES_ACTIVE s
  else vDiscardRxData s.

(** *** Interrupt handler *)

Definition fatal_events : Z :=
  Z.lor (Z.lor (Z.lor (Z.lor (Z.lor (Z.lor
    MCF_FEC_EIR_UN MCF_FEC_EIR_RL) MCF_FEC_EIR_LC) MCF_FEC_EIR_EBERR)
    MCF_FEC_EIR_BABT) MCF_FEC_EIR_BABR) MCF_FEC_EIR_HBERR.

(** [eir] is the content of the event register when the handler reads it.
    The request for a context switch on exit ([xHighPriorityTaskWoken],
    [portEND_SWITCHING_ISR]) concerns the scheduler only. *)
Definition vFEC_ISR (eir : Z) (s : state) : state :=
  let ulEvent := Z.land (u32 eir) (regs s MCF_FEC_EIMR) in
  let s := write_reg MCF_FEC_EIR ulEvent s in
  let s :=
    if c_true (Z.land ulEvent MCF_FEC_EIR_RXB) || c_true (Z.land ulEvent MCF_FEC_EIR_RXF)
    then set_xFECSemaphore (xSemaphoreGiveFromISR (xFECSemaphore s)) s
    else s in
  let s :=
    if c_true (Z.land ulEvent fatal_events)
    then prvResetFEC pdTRUE s
    else s in
  if c_true (Z.land ulEvent MCF_FEC_EIR_TXF) || c_true (Z.land ulEvent MCF_FEC_EIR_TXB)
  then
    let s := rx_update (uxIndexToBufferOwner s) (or_status RX_BD_E) s in
    let s := write_reg MCF_FEC_RDAR MCF_FEC_RDAR_R_DES_ACTIVE s in
    set_xTxSemaphore (xSemaphoreGiveFromISR (xTxSemaphore s)) s
  else s.

(** *** Bring-up: the negotiated link (vInitFEC, from the read of the
    link partner ability register to the programming of the duplex bits) *)

Definition negotiated_speed (usData : Z) : link_speed :=
  if c_true (Z.land usData PHY_ANLPAR_100BTX_FDX) || c_true (Z.land usData PHY_ANLPAR_100BTX)
  then Speed100   (* Speed is 100. *)
  else Speed10.   (* Speed is 10. *)

Definition advertises_full_duplex (usData : Z) : bool :=
  c_true (Z.land usData PHY_ANLPAR_100BTX_FDX) || c_true (Z.land usData PHY_ANLPAR_10BTX_FDX).

Definition vInitFEC_negotiated (dev : mii_device) (usData : Z) (s : state) : Z * state :=
  let '(_, w, s) := fec_mii_read configPHY_ADDRESS PHY_ANLPAR dev s in
  let usData := stored w usData in
  let s := match negotiated_speed usData with
           | Speed100 => s
           | Speed10 => s
           end in
  if advertises_full_duplex usData
  then
    let s := write_reg MCF_FEC_RCR
               (Z.land (regs s MCF_FEC_RCR) (u32 (Z.lnot MCF_FEC_RCR_DRT))) s in
    let s := write_reg MCF_FEC_TCR
               (Z.lor (regs s MCF_FEC_TCR) MCF_FEC_TCR_FDEN) s in
    (usData, s)
  else
    let s := write_reg MCF_FEC_RCR
               (Z.lor (regs s MCF_FEC_RCR) MCF_FEC_RCR_DRT) s in
    let s := write_reg MCF_FEC_TCR
               (Z.land (regs s MCF_FEC_TCR) (u32 (Z.lnot MCF_FEC_TCR_FDEN))) s in
    (usData, s).

(** *** Bring-up: the rest of vInitFEC, from the clearing of the hash
    registers to the arming of the receive DMA *)

(** The compile-time check of [configFEC_INTERRUPT_PRIORITY] against
    [configMAX_SYSCALL_INTERRUPT_PRIORITY] has no run-time part. *)
Definition prvEnableFECInterrupts (s : state) : state :=
  let uxFirstFECVector := 23 in
  let uxLastFECVector := 35 in
  let s := for_loop (Z.to_nat (uxLastFECVector - uxFirstFECVector + 1)) uxFirstFECVector
             (fun ux s => write_reg8 (MCF_INTC0_ICR ux)
                            (MCF_INTC_ICR_IL configFEC_INTERRUPT_PRIORITY) s) s in
  let s := write_reg MCF_INTC0_IMRH
             (Z.land (regs s MCF_INTC0_IMRH)
                (Z.lnot (Z.lor (Z.lor MCF_INTC_IMRH_INT_MASK33 MCF_INTC_IMRH_INT_MASK34)
                               MCF_INTC_IMRH_INT_MASK35))) s in
  let s := write_reg MCF_INTC0_IMRL
             (Z.land (regs s MCF_INTC0_IMRL)
                (Z.lnot (Z.lor (Z.lor (Z.lor (Z.lor (Z.lor (Z.lor (Z.lor (Z.lor (Z.lor
                   MCF_INTC_IMRL_INT_MASK25 MCF_INTC_IMRL_INT_MASK26)
                   MCF_INTC_IMRL_INT_MASK27) MCF_INTC_IMRL_INT_MASK28)
                   MCF_INTC_IMRL_INT_MASK29) MCF_INTC_IMRL_INT_MASK30)
                   MCF_INTC_IMRL_INT_MASK31) MCF_INTC_IMRL_INT_MASK23)
                   MCF_INTC_IMRL_INT_MASK24) MCF_INTC_IMRL_MASKALL))) s in
  let s := write_reg MCF_FEC_EIR MCF_FEC_EIR_CLEAR_ALL s in
  write_reg MCF_FEC_EIMR MCF_FEC_EIMR_UNMASK_ALL s.

Definition vInitFEC_installed (s : state) : state :=
  let ucMACAddress :=
    [u8 configMAC_0; u8 configMAC_1; u8 configMAC_2;
     u8 configMAC_3; u8 configMAC_4; u8 configMAC_5] in
  let s := write_reg MCF_FEC_IALR 0 s in
  let s := write_reg MCF_FEC_IAUR 0 s in
  let s := write_reg MCF_FEC_GALR 0 s in
  let s := write_reg MCF_FEC_GAUR 0 s in
  let s := fec_set_address ucMACAddress s in
  let s := write_reg MCF_FEC_EMRBR (u16 configFEC_BUFFER_SIZE) s in
  let s := write_reg MCF_FEC_ERDSR (xFECRxDescriptors s) s in
  let s := write_reg MCF_FEC_ETSDR (xFECTxDescriptors s) s in
  let s := write_reg MCF_FEC_EIMR (-1) s in
  let s := write_reg MCF_FEC_EIR (-1) s in
  let s := write_reg MCF_FEC_RCR
             (Z.lor (MCF_FEC_RCR_MAX_FL ETH_MAX_FRM) MCF_FEC_RCR_FCE) s in
  let s := write_reg MCF_FEC_RCR
             (Z.lor (regs s MCF_FEC_RCR) MCF_FEC_RCR_MII_MODE) s in
  let s := if configUSE_PROMISCUOUS_MODE =? 1
           then write_reg MCF_FEC_RCR
                  (Z.lor (regs s MCF_FEC_RCR) MCF_FEC_RCR_PROM) s
           else s in
  let s := prvEnableFECInterrupts s in
  let s := write_reg MCF_FEC_ECR MCF_FEC_ECR_ETHER_EN s in
  write_reg MCF_FEC_RDAR MCF_FEC_RDAR_R_DES_ACTIVE s.

(** *** Predicates the properties are stated with *)

(** Ownership and markers, as the driver tests them. *)
Definition rx_hw_owned (d : FECBD.t) : bool := c_true (Z.land (FECBD.status d) RX_BD_E).
Definition rx_wrap (d : FECBD.t) : bool := c_true (Z.land (FECBD.status d) RX_BD_W).
Definition tx_hw_owned (d : FECBD.t) : bool := c_true (Z.land (FECBD.status d) TX_BD_R).
Definition tx_wrap (d : FECBD.t) : bool := c_true (Z.land (FECBD.status d) TX_BD_W).
Definition tx_last (d : FECBD.t) : bool := c_true (Z.land (FECBD.status d) TX_BD_L).

(** The descriptor arrays have their declared sizes. *)
Definition allocated (s : state) : Prop :=
  length (TxRing s) = Z.to_nat fecNUM_FEC_TX_BUFFERS /\
  length (RxRing s) = Z.to_nat configNUM_FEC_RX_BUFFERS.

(** ... and both indices into the receive ring are in range. *)
Definition wf (s : state) : Prop :=
  allocated s /\
  0 <= uxNextRxBuffer s < configNUM_FEC_RX_BUFFERS /\
  0 <= uxIndexToBufferOwner s < configNUM_FEC_RX_BUFFERS.

(** One receive/release cycle of the consumer task, and the cursor
    positions seen over [k] of them. *)
Definition rx_cycle (s : state) : state := vDiscardRxData (snd (usGetFECRxData s)).

Definition cursor_trail (k : nat) (s : state) : list Z :=
  map (fun i => uxNextRxBuffer (Nat.iter i rx_cycle s)) (seq 0 (S k)).

(** Runs of the driver in its environment. *)
Definition step (s : state) (o : op) : state :=
  match o with
  | Poll => snd (usGetFECRxData s)
  | Release => vDiscardRxData s
  | Send xTaken => vSendBufferToFEC xTaken s
  | Interrupt eir => vFEC_ISR eir s
  | Stack len => set_uip_len len s
  | DeviceRx i d => rx_update i (fun _ => d) s
  | DeviceTx d => tx_update fecTX_BUFFER_TO_USE (fun _ => d) s
  end.

Definition run (ops : list op) (s : state) : state := fold_left step ops s.

(** What a run from [s] to [s'] added to the trace. *)
Definition emitted (s s' : state) : list event :=
  drop (length (trace s)) (trace s').

(** The events the handler acts on, as it computes them. *)
Definition pending (eir : Z) (s : state) : Z :=
  Z.land (u32 eir) (regs s MCF_FEC_EIMR).

Definition tx_complete (ulEvent : Z) : bool :=
  c_true (Z.land ulEvent MCF_FEC_EIR_TXF) || c_true (Z.land ulEvent MCF_FEC_EIR_TXB).

(** The duplex the MAC is programmed for: the full-duplex enable of the
    transmit control register. *)
Definition configured_duplex (s : state) : duplex :=
  if c_true (Z.land (regs s MCF_FEC_TCR) MCF_FEC_TCR_FDEN) then Full else Half.

(** A control bit of a 32-bit register. *)
Definition flag32 (f : Z) : Prop := 0 < f < 2 ^ 32.

(** The interrupt causes the handler resets the device for. *)
Definition fatal_event (e : Z) : Prop :=
  e = MCF_FEC_EIR_UN \/ e = MCF_FEC_EIR_RL \/ e = MCF_FEC_EIR_LC \/
  e = MCF_FEC_EIR_EBERR \/ e = MCF_FEC_EIR_BABT \/ e = MCF_FEC_EIR_BABR \/
  e = MCF_FEC_EIR_HBERR.

(** What the properties need of the absent headers: the status flags are
    non-empty masks inside the 16-bit status, the wrap marker is apart from
    the ownership flag, and the flags the transmit ring is initialised with
    are apart from its ready flag. *)
Definition rx_flags_ok : Prop :=
  flag16 RX_BD_E /\ flag16 RX_BD_W /\ Z.land RX_BD_E RX_BD_W = 0.

Definition tx_flags_ok : Prop :=
  flag16 TX_BD_R /\ flag16 TX_BD_L /\ flag16 TX_BD_W /\ flag16 TX_BD_TC /\
  Z.land TX_BD_TC TX_BD_R = 0 /\ Z.land TX_BD_W TX_BD_R = 0.

(** The receive ring has at least one descriptor, and the buffer size fits
    the 16-bit length field. *)
Definition config_ok : Prop :=
  0 < configNUM_FEC_RX_BUFFERS < 2 ^ 32 /\ 0 < configFEC_BUFFER_SIZE < 2 ^ 16.

(** The descriptors [prvInitialiseFECBuffers] leaves behind, in closed
    form ([init_rings] proves it). *)
Definition tx_after_init : FECBD.t :=
  FECBD.mk (u16 (Z.lor (u16 TX_BD_TC) TX_BD_W)) (u16 0) NULL.

Definition rx_after_init (j : nat) : FECBD.t :=
  FECBD.mk (if decide (Z.of_nat j = configNUM_FEC_RX_BUFFERS - 1)
            then u16 (Z.lor (u16 RX_BD_E) RX_BD_W)
            else u16 RX_BD_E)
           (u16 configFEC_BUFFER_SIZE)
           (align16 ucFECRxBuffers + Z.of_nat j * configFEC_BUFFER_SIZE).

(** *** Bring-up: [vInitFEC] *)

Context {K : BringUp}.

Definition fecLINK_DELAY : Z := Z.quot 500 portTICK_RATE_MS.

Definition ucMACAddress : list Z :=
  [u8 configMAC_0; u8 configMAC_1; u8 configMAC_2;
   u8 configMAC_3; u8 configMAC_4; u8 configMAC_5].

(** From the creation of the semaphores to the delay that lets the PHY
    settle.  [xAddr] is a local of six bytes, each assigned before use. *)
Definition vInitFEC_hardware (b : board) : board :=
  let b := on_fec (set_xFECSemaphore vSemaphoreCreateBinary) b in
  let b := on_fec (set_xTxSemaphore vSemaphoreCreateBinary) b in
  let b := on_fec prvInitialiseFECBuffers b in
  let xAddr :=
    for_loop 6 0
      (fun usData xAddr =>
         <[Z.to_nat usData := nth (Z.to_nat usData) ucMACAddress 0]> xAddr)
      (replicate 6 0) in
  let b := uip_setethaddr xAddr b in
  let b := on_fec (write_reg MCF_FEC_ECR MCF_FEC_ECR_RESET) b in
  let b := for_loop 10 0 (fun _ => on_fec asm_NOP) b in
  let b := write_periph32 MCF_FEC_MSCR
             (MCF_FEC_MSCR_MII_SPEED
                (Z.quot (Z.quot configCPU_CLOCK_HZ 1000000) 5 + 1)) b in
  let b := write_periph8 MCF_GPIO_PLDPAR
             (Z.lor (Z.lor (Z.lor (Z.lor (Z.lor (Z.lor
                MCF_GPIO_PLDPAR_ACTLED_ACTLED MCF_GPIO_PLDPAR_LINKLED_LINKLED)
                MCF_GPIO_PLDPAR_SPDLED_SPDLED) MCF_GPIO_PLDPAR_DUPLED_DUPLED)
                MCF_GPIO_PLDPAR_COLLED_COLLED) MCF_GPIO_PLDPAR_RXLED_RXLED)
                MCF_GPIO_PLDPAR_TXLED_TXLED) b in
  let b := write_periph8 MCF_GPIO_PTAPAR 0x00 b in
  let b := write_periph8 MCF_GPIO_DDRTA 0x0F b in
  let b := write_periph8 MCF_GPIO_PORTTA 0x04 b in
  let b := write_periph8 MCF_EPHY_EPHYCTL1 (MCF_EPHY_EPHYCTL1_PHYADD 0) b in
  let b := write_periph8 MCF_EPHY_EPHYCTL0
             (Z.lor MCF_EPHY_EPHYCTL0_DIS100 MCF_EPHY_EPHYCTL0_DIS10) b in
  let b := write_periph8 MCF_EPHY_EPHYCTL0
             (Z.land (periph b MCF_EPHY_EPHYCTL0) MCF_EPHY_EPHYCTL0_ANDIS) b in
  let b := write_periph8 MCF_EPHY_EPHYCTL0
             (Z.lor MCF_EPHY_EPHYCTL0_EPHYEN (periph b MCF_EPHY_EPHYCTL0)) b in
  let b := write_periph8 MCF_EPHY_EPHYCTL0
             (Z.land (periph b MCF_EPHY_EPHYCTL0)
                (Z.lnot (Z.lor MCF_EPHY_EPHYCTL0_DIS100 MCF_EPHY_EPHYCTL0_DIS10))) b in
  on_fec (vTaskDelay fecLINK_DELAY) b.

(** The loops of [vInitFEC] have no bound of their own: [fuel] bounds the
    number of passes, and [None] is a run that has not left the loop
    within it.  [phy] is the PHY's side of the successive management
    frames and [frame] counts them. *)

(** [do { vTaskDelay; usData = 0; fec_mii_read( PHY_PHYIDR1 ) } while( usData == 0xffff );] *)
Fixpoint phy_present_loop (fuel : nat) (phy : nat -> mii_device) (frame : nat)
  (s : state) : option (Z * nat * state) :=
  match fuel with
  | O => None
  | S fuel' =>
      let s := vTaskDelay fecLINK_DELAY s in
      let usData := 0 in
      let '(_, w, s) := fec_mii_read configPHY_ADDRESS PHY_PHYIDR1 (phy frame) s in
      let usData := stored w usData in
      if usData =? 0xffff
      then phy_present_loop fuel' phy (S frame) s
      else Some (usData, S frame, s)
  end.

(** [do { vTaskDelay; fec_mii_read( PHY_BMSR ) } while( !( usData & PHY_BMSR_AN_COMPLETE ) );] *)
Fixpoint an_complete_loop (fuel : nat) (phy : nat -> mii_device) (frame : nat)
  (usData : Z) (s : state) : option (Z * nat * state) :=
  match fuel with
  | O => None
  | S fuel' =>
      let s := vTaskDelay fecLINK_DELAY s in
      let '(_, w, s) := fec_mii_read configPHY_ADDRESS PHY_BMSR (phy frame) s in
      let usData := stored w usData in
      if negb (c_true (Z.land usData PHY_BMSR_AN_COMPLETE))
      then an_complete_loop fuel' phy (S frame) usData s
      else Some (usData, S frame, s)
  end.

(** The outer [do ... while( 0 )] runs its body once. *)
Definition autonegotiate (fuel : nat) (phy : nat -> mii_device) (frame : nat)
  (usData : Z) (s : state) : option (Z * nat * state) :=
  let '(_, s) := fec_mii_write configPHY_ADDRESS PHY_BMCR
                   (Z.lor PHY_BMCR_AN_RESTART PHY_BMCR_AN_ENABLE) (phy frame) s in
  an_complete_loop fuel phy (S frame) usData s.

Definition vInitFEC (fuel : nat) (phy : nat -> mii_device) (b : board)
  : option board :=
  let b := vInitFEC_hardware b in
  match phy_present_loop fuel phy 0 (fec b) with
  | None => None
  | Some (usData, frame, s) =>
      match autonegotiate fuel phy frame usData s with
      | None => None
      | Some (usData, frame, s) =>
          let '(_, s) := vInitFEC_negotiated (phy frame) usData s in
          Some (set_fec (vInitFEC_installed s) b)
      end
  end.

(** What the PHY does to one management frame: it never raises the
    completion flag within the polls, or it raises it and the data register
    then reads as [w]. *)
Definition silent (dev : mii_device) : Prop :=
  forall i, 0 <= i < fecMAX_POLLS ->
    Z.land (eir_at_poll dev i) MCF_FEC_EIR_MII = 0.

Definition answers (dev : mii_device) (w : Z) : Prop :=
  (exists k, 0 <= k < fecMAX_POLLS /\
             Z.land (eir_at_poll dev k) MCF_FEC_EIR_MII <> 0) /\
  u16 (Z.land (mmfr_value dev) 0x0000FFFF) = w.

(** [s'] differs from [s] in device registers and trace at most. *)
Definition same_vars (s s' : state) : Prop :=
  TxRing s' = TxRing s /\ RxRing s' = RxRing s /\
  xFECTxDescriptors s' = xFECTxDescriptors s /\
  xFECRxDescriptors s' = xFECRxDescriptors s /\
  uxNextRxBuffer s' = uxNextRxBuffer s /\
  uxIndexToBufferOwner s' = uxIndexToBufferOwner s /\
  uip_buf s' = uip_buf s /\ uip_len s' = uip_len s /\
  xFECSemaphore s' = xFECSemaphore s /\ xTxSemaphore s' = xTxSemaphore s.

(** The writes of the bring-up log that go to [MCF_EPHY_EPHYCTL0]. *)
Definition to_EPHYCTL0 (e : periph_reg * Z) : bool :=
  match fst e with MCF_EPHY_EPHYCTL0 => true | _ => false end.

(** The receive events of the handler. *)
Definition rx_event (ulEvent : Z) : bool :=
  c_true (Z.land ulEvent MCF_FEC_EIR_RXB) || c_true (Z.land ulEvent MCF_FEC_EIR_RXF).

(** ** Properties *)

(** Projections of updated states. *)
Ltac st :=
  cbn [TxRing RxRing xFECTxDescriptors xFECRxDescriptors uxNextRxBuffer
       uxIndexToBufferOwner uip_buf uip_len xFECSemaphore xTxSemaphore regs trace
       set_TxRing set_RxRing set_xFECTxDescriptors set_xFECRxDescriptors
       set_uxNextRxBuffer set_uxIndexToBufferOwner set_uip_buf set_uip_len
       set_xFECSemaphore set_xTxSemaphore log write_reg write_reg8
       tx_update rx_update
       taskENTER_CRITICAL taskEXIT_CRITICAL vTaskDelay
       xSemaphoreGive xSemaphoreGiveFromISR token_taken].

(** *** Machine integers and bit masks *)

Lemma u16_range z : 0 <= u16 z < 2 ^ 16.
Proof. unfold u16. apply Z.mod_pos_bound. lia. Qed.

Lemma u32_range z : 0 <= u32 z < 2 ^ 32.
Proof. unfold u32. apply Z.mod_pos_bound. lia. Qed.

Lemma u8_range z : 0 <= u8 z < 2 ^ 8.
Proof. unfold u8. apply Z.mod_pos_bound. lia. Qed.

Lemma u16_small z : 0 <= z < 2 ^ 16 -> u16 z = z.
Proof. intros H. unfold u16. now apply Z.mod_small. Qed.

Lemma u32_small z : 0 <= z < 2 ^ 32 -> u32 z = z.
Proof. intros H. unfold u32. now apply Z.mod_small. Qed.

Lemma c_true_spec z : c_true z = true <-> z <> 0.
Proof. unfold c_true. rewrite negb_true_iff, Z.eqb_neq. tauto. Qed.

Lemma c_true_false z : c_true z = false <-> z = 0.
Proof. unfold c_true. rewrite negb_false_iff, Z.eqb_eq. tauto. Qed.

(** A mask inside the low 16 bits does not see the truncation to 16 bits. *)
Lemma land_u16 x m : 0 <= m < 2 ^ 16 -> Z.land (u16 x) m = Z.land x m.
Proof.
  intros Hm. unfold u16.
  rewrite <- Z.land_ones by lia.
  rewrite <- Z.land_assoc. f_equal.
  rewrite Z.land_comm, Z.land_ones by lia.
  now apply Z.mod_small.
Qed.

Lemma land_u32 x m : 0 <= m < 2 ^ 32 -> Z.land (u32 x) m = Z.land x m.
Proof.
  intros Hm. unfold u32.
  rewrite <- Z.land_ones by lia.
  rewrite <- Z.land_assoc. f_equal.
  rewrite Z.land_comm, Z.land_ones by lia.
  now apply Z.mod_small.
Qed.

Lemma land_lor_same x m : Z.land (Z.lor x m) m = m.
Proof.
  apply Z.bits_inj'. intros n _.
  rewrite Z.land_spec, Z.lor_spec.
  destruct (Z.testbit x n), (Z.testbit m n); reflexivity.
Qed.

Lemma land_lor_keeps x m k : Z.land x k <> 0 -> Z.land (Z.lor x m) k <> 0.
Proof.
  intros Hx Hz. apply Hx.
  rewrite Z.land_lor_distr_l in Hz.
  now apply Z.lor_eq_0_iff in Hz.
Qed.

Lemma land_lor_other x m k : Z.land m k = 0 -> Z.land (Z.lor x m) k = Z.land x k.
Proof.
  intros Hm. rewrite Z.land_lor_distr_l, Hm. apply Z.lor_0_r.
Qed.

(** *** The alignment loop *)

Lemma align_loop_bounds n p :
  Z.land (align_loop n p) 0x0f = 0 \/ align_loop n p = p + Z.of_nat n.
Proof.
  revert p. induction n as [|n IH]; intros p; cbn [align_loop].
  - right. lia.
  - destruct (c_true (Z.land p 15)) eqn:E.
    + destruct (IH (p + 1)) as [H|H]; [now left|right; lia].
    + left. now apply c_true_false.
Qed.

Lemma align_loop_le n p : p <= align_loop n p <= p + Z.of_nat n.
Proof.
  revert p. induction n as [|n IH]; intros p; cbn [align_loop]; [lia|].
  destruct (c_true (Z.land p 15)); [|lia].
  specialize (IH (p + 1)). lia.
Qed.

Lemma align_loop_first n p k :
  (k <= n)%nat -> Z.land (p + Z.of_nat k) 0x0f = 0 ->
  Z.land (align_loop n p) 0x0f = 0 /\ align_loop n p <= p + Z.of_nat k.
Proof.
  revert p k. induction n as [|n IH]; intros p k Hk H0; cbn [align_loop].
  - assert (k = 0%nat) by lia. subst. rewrite Z.add_0_r in H0. split; [easy|lia].
  - destruct (c_true (Z.land p 15)) eqn:E.
    + destruct k as [|k].
      * rewrite Z.add_0_r in H0. apply c_true_spec in E. contradiction.
      * destruct (IH (p + 1) k) as [A B]; [lia| |].
        { rewrite <- H0. f_equal. lia. }
        split; [exact A|lia].
    + apply c_true_false in E. split; [exact E|lia].
Qed.

(** The loop stops within 15 steps on a 16-byte boundary. *)
Lemma align16_spec p :
  Z.land (align16 p) 0x0f = 0 /\ p <= align16 p < p + 16.
Proof.
  unfold align16.
  pose (k := Z.to_nat ((- p) mod 16)).
  assert (Hk : 0 <= (- p) mod 16 < 16) by (apply Z.mod_pos_bound; lia).
  destruct (align_loop_first 16 p k) as [A B].
  - subst k. lia.
  - subst k. rewrite Z2Nat.id by lia.
    change 15 with (Z.ones 4). rewrite Z.land_ones by lia.
    change (2 ^ 4) with 16.
    rewrite Zplus_mod_idemp_r. replace (p + - p) with 0 by lia. reflexivity.
  - split; [exact A|]. pose proof (align_loop_le 16 p). subst k. lia.
Qed.

(** *** Ring initialisation *)

Lemma lookup_alter3 (f g h : FECBD.t -> FECBD.t) (k j : nat) (l : list FECBD.t) :
  alter h k (alter g k (alter f k l)) !! j =
  if decide (k = j) then (fun d => h (g (f d))) <$> l !! j else l !! j.
Proof.
  destruct (decide (k = j)) as [->|Hne].
  - rewrite !list_lookup_alter_eq. now destruct (l !! j).
  - now rewrite !list_lookup_alter_ne.
Qed.

(** The receive loop, started at index [i0] with [n] iterations to go:
    it rewrites the descriptors [i0 .. i0+n-1] and nothing else. *)
Lemma rx_fill_spec n : forall i0 s p,
  0 <= i0 ->
  exists l',
    for_loop n i0 init_rx_descriptor (s, p)
      = (set_RxRing l' s, p + Z.of_nat n * configFEC_BUFFER_SIZE) /\
    length l' = length (RxRing s) /\
    forall j : nat,
      l' !! j =
      if decide (Z.to_nat i0 <= j < Z.to_nat i0 + n)%nat
      then (fun _ => FECBD.mk (u16 RX_BD_E) (u16 configFEC_BUFFER_SIZE)
                       (p + (Z.of_nat j - i0) * configFEC_BUFFER_SIZE))
             <$> RxRing s !! j
      else RxRing s !! j.
Proof.
  induction n as [|n IH]; intros i0 s p Hi0.
  - exists (RxRing s). cbn [for_loop]. split; [|split].
    + destruct s; cbn. f_equal. lia.
    + reflexivity.
    + intros j. destruct (decide _); [lia|reflexivity].
  - cbn [for_loop]. unfold init_rx_descriptor at 2.
    set (s1 := rx_update i0 (FECBD.set_data p)
                (rx_update i0 (FECBD.set_length configFEC_BUFFER_SIZE)
                  (rx_update i0 (FECBD.set_status RX_BD_E) s))).
    destruct (IH (i0 + 1) s1 (p + configFEC_BUFFER_SIZE)) as (l' & Heq & Hlen & Hlk); [lia|].
    exists l'. split; [|split].
    + rewrite Heq. f_equal. lia.
    + rewrite Hlen. subst s1. cbn. now rewrite !length_alter.
    + intros j. rewrite Hlk. subst s1. cbn [RxRing rx_update set_RxRing].
      rewrite lookup_alter3.
      replace (Z.to_nat (i0 + 1)) with (S (Z.to_nat i0)) by lia.
      destruct (decide (Z.to_nat i0 = j)) as [<-|Hne].
      * destruct (decide _); [lia|]. destruct (decide _); [|lia].
        destruct (RxRing s !! Z.to_nat i0); cbn; [|reflexivity].
        unfold FECBD.set_data, FECBD.set_length, FECBD.set_status; cbn.
        do 2 f_equal. rewrite Z2Nat.id by lia. lia.
      * destruct (decide (S (Z.to_nat i0) <= j < S (Z.to_nat i0) + n)%nat);
          destruct (decide (Z.to_nat i0 <= j < Z.to_nat i0 + S n)%nat); try lia.
        -- destruct (RxRing s !! j); cbn; [|reflexivity]. do 2 f_equal. lia.
        -- reflexivity.
Qed.

(** The state [prvInitialiseFECBuffers] builds: both rings in closed form,
    the ring pointers aligned, the cursor at 0, everything else as it was. *)
Lemma init_rings s :
  allocated s -> 0 < configNUM_FEC_RX_BUFFERS ->
  prvInitialiseFECBuffers s =
  mkState [tx_after_init]
          (rx_after_init <$> seq 0 (Z.to_nat configNUM_FEC_RX_BUFFERS))
          (align16 xFECTxDescriptors_unaligned)
          (align16 xFECRxDescriptors_unaligned)
          0 (uxIndexToBufferOwner s) (uip_buf s) (uip_len s)
          (xFECSemaphore s) (xTxSemaphore s) (regs s) (trace s).
Proof.
  intros [Htx Hrx] HN. unfold prvInitialiseFECBuffers.
  change (Z.to_nat fecNUM_FEC_TX_BUFFERS) with 1%nat in *.
  match goal with
  | |- context [for_loop ?n 0 init_rx_descriptor (?s0, ?p0)] =>
      destruct (rx_fill_spec n 0 s0 p0) as (l' & Heq & Hlen & Hlk); [lia|];
      rewrite Heq
  end.
  cbn -[Z.to_nat] in Hlen, Hlk.
  destruct (TxRing s) as [|d [|? ?]] eqn:Etx; cbn in Htx; try discriminate.
  unfold set_uxNextRxBuffer. f_equal; cbn -[Z.to_nat align16 u16 Z.sub]; try reflexivity.
  { now rewrite Etx. }
  apply list_eq. intros j.
  rewrite list_lookup_fmap.
  destruct (decide (j < Z.to_nat configNUM_FEC_RX_BUFFERS)%nat) as [Hj|Hj].
  - rewrite lookup_seq_lt by exact Hj. cbn.
    destruct (lookup_lt_is_Some_2 (RxRing s) j) as [d0 Hd0]; [lia|].
    unfold rx_after_init.
    destruct (decide (Z.to_nat (configNUM_FEC_RX_BUFFERS - 1) = j)) as [Hlast|Hlast].
    + rewrite <- Hlast at 1. rewrite list_lookup_alter_eq, Hlast, Hlk.
      destruct (decide _); [|lia]. rewrite Hd0. cbn.
      destruct (decide _); [|lia]. unfold or_status, FECBD.set_status. cbn.
      do 2 f_equal. lia.
    + rewrite list_lookup_alter_ne by exact Hlast. rewrite Hlk.
      destruct (decide _); [|lia]. rewrite Hd0. cbn.
      destruct (decide _); [lia|]. do 2 f_equal. lia.
  - rewrite lookup_seq_ge by lia. cbn.
    apply lookup_ge_None_2. rewrite length_alter. lia.
Qed.

Lemma init_allocated s :
  allocated s -> 0 < configNUM_FEC_RX_BUFFERS -> allocated (prvInitialiseFECBuffers s).
Proof.
  intros Ha HN. rewrite init_rings by assumption. split; cbn [TxRing RxRing].
  - reflexivity.
  - now rewrite length_fmap, length_seq.
Qed.

Lemma init_rx_at s i :
  allocated s -> 0 <= i < configNUM_FEC_RX_BUFFERS ->
  rx_at (prvInitialiseFECBuffers s) i = rx_after_init (Z.to_nat i).
Proof.
  intros Ha Hi. unfold rx_at. rewrite init_rings by (assumption || lia).
  cbn [RxRing]. apply list_lookup_total_correct.
  rewrite list_lookup_fmap, lookup_seq_lt by lia. reflexivity.
Qed.

Lemma init_tx_at s :
  allocated s -> 0 < configNUM_FEC_RX_BUFFERS ->
  tx_at (prvInitialiseFECBuffers s) 0 = tx_after_init.
Proof.
  intros Ha HN. unfold tx_at. now rewrite init_rings by assumption.
Qed.

Lemma rx_after_init_owned j : rx_flags_ok -> rx_hw_owned (rx_after_init j) = true.
Proof.
  intros ([HE0 HE1] & [HW0 HW1] & Hd). unfold rx_hw_owned, rx_after_init.
  cbn [FECBD.status]. apply c_true_spec.
  destruct (decide _).
  - rewrite land_u16, (u16_small RX_BD_E) by lia.
    rewrite land_lor_other by (rewrite Z.land_comm; exact Hd).
    rewrite Z.land_diag. lia.
  - rewrite land_u16, Z.land_diag by lia. lia.
Qed.

Lemma rx_after_init_wrap j :
  rx_flags_ok ->
  rx_wrap (rx_after_init j) = true <-> Z.of_nat j = configNUM_FEC_RX_BUFFERS - 1.
Proof.
  intros ([HE0 HE1] & [HW0 HW1] & Hd). unfold rx_wrap, rx_after_init.
  cbn [FECBD.status]. rewrite c_true_spec.
  destruct (decide _) as [Hj|Hj].
  - rewrite land_u16, land_lor_same by lia. split; [easy|lia].
  - rewrite land_u16, Hd by lia. split; [lia|easy].
Qed.

Lemma tx_after_init_sw_owned : tx_flags_ok -> tx_hw_owned tx_after_init = false.
Proof.
  intros (HR & HL & HW & HTC & H1 & H2). unfold flag16 in *.
  unfold tx_hw_owned, tx_after_init. cbn [FECBD.status]. apply c_true_false.
  rewrite land_u16, (u16_small TX_BD_TC) by lia.
  rewrite Z.land_lor_distr_l, H1, H2. reflexivity.
Qed.

Lemma tx_after_init_wrap : tx_flags_ok -> tx_wrap tx_after_init = true.
Proof.
  intros (HR & HL & HW & HTC & H1 & H2). unfold flag16 in *.
  unfold tx_wrap, tx_after_init. cbn [FECBD.status]. apply c_true_spec.
  rewrite land_u16, land_lor_same by lia. lia.
Qed.

(** C3.  For every receive ring depth N >= 1 and the transmit ring of depth
    1, after [prvInitialiseFECBuffers]: in each ring exactly the descriptor
    at the last index carries the wrap marker; every transmit descriptor is
    software-owned with null data and zero length; every receive descriptor
    is hardware-owned, has the length [configFEC_BUFFER_SIZE] and is bound to
    its own slice of [ucFECRxBuffers], the slices lying apart inside the
    array; the receive cursor is 0.  The procedure is idempotent, and the
    rings and the cursor it leaves do not depend on the state it starts
    from. *)
Theorem initialise_rings_postcondition (s : state) :
  allocated s -> config_ok -> rx_flags_ok -> tx_flags_ok ->
  let s' := prvInitialiseFECBuffers s in
  (forall i, 0 <= i < configNUM_FEC_RX_BUFFERS ->
     (rx_wrap (rx_at s' i) = true <-> i = configNUM_FEC_RX_BUFFERS - 1)) /\
  (forall i, 0 <= i < fecNUM_FEC_TX_BUFFERS ->
     (tx_wrap (tx_at s' i) = true <-> i = fecNUM_FEC_TX_BUFFERS - 1)) /\
  (forall i, 0 <= i < fecNUM_FEC_TX_BUFFERS ->
     tx_hw_owned (tx_at s' i) = false /\
     FECBD.data (tx_at s' i) = NULL /\ FECBD.length (tx_at s' i) = 0) /\
  (forall i, 0 <= i < configNUM_FEC_RX_BUFFERS ->
     rx_hw_owned (rx_at s' i) = true /\
     FECBD.length (rx_at s' i) = configFEC_BUFFER_SIZE /\
     FECBD.data (rx_at s' i) = align16 ucFECRxBuffers + i * configFEC_BUFFER_SIZE) /\
  (forall i j, 0 <= i < j -> j < configNUM_FEC_RX_BUFFERS ->
     FECBD.data (rx_at s' i) + configFEC_BUFFER_SIZE <= FECBD.data (rx_at s' j)) /\
  (forall i, 0 <= i < configNUM_FEC_RX_BUFFERS ->
     ucFECRxBuffers <= FECBD.data (rx_at s' i) /\
     FECBD.data (rx_at s' i) + configFEC_BUFFER_SIZE
       <= ucFECRxBuffers + (configNUM_FEC_RX_BUFFERS * configFEC_BUFFER_SIZE + 16)) /\
  uxNextRxBuffer s' = 0 /\
  prvInitialiseFECBuffers s' = s' /\
  (forall t, allocated t ->
     TxRing (prvInitialiseFECBuffers t) = TxRing s' /\
     RxRing (prvInitialiseFECBuffers t) = RxRing s' /\
     uxNextRxBuffer (prvInitialiseFECBuffers t) = uxNextRxBuffer s').
Proof.
  intros Ha [HN HB] Hrx Htx s'.
  assert (Hdata : forall i, 0 <= i < configNUM_FEC_RX_BUFFERS ->
            FECBD.data (rx_at s' i)
            = align16 ucFECRxBuffers + i * configFEC_BUFFER_SIZE).
  { intros i Hi. subst s'. rewrite init_rx_at by assumption.
    unfold rx_after_init. cbn [FECBD.data]. rewrite Z2Nat.id by lia. reflexivity. }
  pose proof (align16_spec ucFECRxBuffers) as [_ Hal].
  repeat split.
  - subst s'. rewrite init_rx_at by assumption.
    intros Hw. apply rx_after_init_wrap in Hw; [lia|assumption].
  - intros ->. subst s'. rewrite init_rx_at by assumption.
    apply rx_after_init_wrap; [assumption|lia].
  - unfold fecNUM_FEC_TX_BUFFERS in *. lia.
  - intros ->. subst s'. change (fecNUM_FEC_TX_BUFFERS - 1) with 0.
    rewrite init_tx_at by (assumption || lia). now apply tx_after_init_wrap.
  - unfold fecNUM_FEC_TX_BUFFERS in *. assert (i = 0) as -> by lia.
    subst s'. rewrite init_tx_at by (assumption || lia).
    now apply tx_after_init_sw_owned.
  - unfold fecNUM_FEC_TX_BUFFERS in *. assert (i = 0) as -> by lia.
    subst s'. rewrite init_tx_at by (assumption || lia). reflexivity.
  - unfold fecNUM_FEC_TX_BUFFERS in *. assert (i = 0) as -> by lia.
    subst s'. rewrite init_tx_at by (assumption || lia). reflexivity.
  - subst s'. rewrite init_rx_at by assumption. now apply rx_after_init_owned.
  - subst s'. rewrite init_rx_at by assumption.
    unfold rx_after_init. cbn [FECBD.length]. apply u16_small. lia.
  - now apply Hdata.
  - intros i j Hij Hj. rewrite !Hdata by lia. nia.
  - rewrite Hdata by lia. nia.
  - rewrite Hdata by lia. nia.
  - subst s'. now rewrite init_rings by (assumption || lia).
  - subst s'. rewrite (init_rings (prvInitialiseFECBuffers s)).
    + now rewrite init_rings by (assumption || lia).
    + apply init_allocated; [assumption|lia].
    + lia.
  - subst s'. now rewrite !init_rings by (assumption || lia).
  - subst s'. now rewrite !init_rings by (assumption || lia).
  - subst s'. now rewrite !init_rings by (assumption || lia).
Qed.

(** *** Receive path *)

Lemma or_status_owned d : flag16 RX_BD_E -> rx_hw_owned (or_status RX_BD_E d) = true.
Proof.
  intros [H0 H1]. unfold rx_hw_owned, or_status, FECBD.set_status.
  cbn [FECBD.status]. apply c_true_spec.
  rewrite land_u16, land_lor_same by lia. lia.
Qed.

Lemma usGetFECRxData_cursor s :
  uxNextRxBuffer (snd (usGetFECRxData s)) = uxNextRxBuffer s.
Proof. unfold usGetFECRxData. now destruct (_ && _). Qed.

Lemma advance_cursor_spec s :
  0 < configNUM_FEC_RX_BUFFERS < 2 ^ 32 ->
  0 <= uxNextRxBuffer s < configNUM_FEC_RX_BUFFERS ->
  uxNextRxBuffer (advance_cursor s)
  = (uxNextRxBuffer s + 1) mod configNUM_FEC_RX_BUFFERS.
Proof.
  intros HN Hc. unfold advance_cursor, set_uxNextRxBuffer. cbn [uxNextRxBuffer].
  rewrite (u32_small (uxNextRxBuffer s + 1)) by lia.
  destruct (Z.leb_spec configNUM_FEC_RX_BUFFERS (uxNextRxBuffer s + 1)) as [Hle|Hlt];
    cbn [uxNextRxBuffer].
  - replace (uxNextRxBuffer s + 1) with configNUM_FEC_RX_BUFFERS by lia.
    rewrite Z.mod_same by lia. reflexivity.
  - symmetry. apply Z.mod_small. lia.
Qed.

Lemma vDiscardRxData_cursor s :
  0 < configNUM_FEC_RX_BUFFERS < 2 ^ 32 ->
  0 <= uxNextRxBuffer s < configNUM_FEC_RX_BUFFERS ->
  uxNextRxBuffer (vDiscardRxData s)
  = (uxNextRxBuffer s + 1) mod configNUM_FEC_RX_BUFFERS.
Proof.
  intros HN Hc. unfold vDiscardRxData. now rewrite advance_cursor_spec.
Qed.

Lemma advance_cursor_rings s :
  TxRing (advance_cursor s) = TxRing s /\ RxRing (advance_cursor s) = RxRing s /\
  trace (advance_cursor s) = trace s /\ regs (advance_cursor s) = regs s /\
  uxIndexToBufferOwner (advance_cursor s) = uxIndexToBufferOwner s /\
  xTxSemaphore (advance_cursor s) = xTxSemaphore s.
Proof. unfold advance_cursor. now destruct (_ <=? _). Qed.

Lemma vDiscardRxData_RxRing s :
  RxRing (vDiscardRxData s)
  = alter (or_status RX_BD_E) (Z.to_nat (uxNextRxBuffer s)) (RxRing s).
Proof.
  unfold vDiscardRxData.
  now rewrite (proj1 (proj2 (advance_cursor_rings _))).
Qed.

Lemma rx_cycle_cursor s :
  0 < configNUM_FEC_RX_BUFFERS < 2 ^ 32 ->
  0 <= uxNextRxBuffer s < configNUM_FEC_RX_BUFFERS ->
  uxNextRxBuffer (rx_cycle s)
  = (uxNextRxBuffer s + 1) mod configNUM_FEC_RX_BUFFERS.
Proof.
  intros HN Hc. unfold rx_cycle.
  rewrite vDiscardRxData_cursor by (rewrite ?usGetFECRxData_cursor; assumption).
  now rewrite usGetFECRxData_cursor.
Qed.

Lemma rx_cycles_cursor k s :
  0 < configNUM_FEC_RX_BUFFERS < 2 ^ 32 ->
  0 <= uxNextRxBuffer s < configNUM_FEC_RX_BUFFERS ->
  uxNextRxBuffer (Nat.iter k rx_cycle s)
  = (uxNextRxBuffer s + Z.of_nat k) mod configNUM_FEC_RX_BUFFERS.
Proof.
  intros HN Hc. induction k as [|k IH].
  - cbn. rewrite Z.add_0_r. symmetry. now apply Z.mod_small.
  - rewrite Nat.iter_succ. rewrite rx_cycle_cursor, IH; [| exact HN |].
    + rewrite Z.add_mod_idemp_l by lia. f_equal. lia.
    + rewrite IH. apply Z.mod_pos_bound. lia.
Qed.

(** C4.  [usGetFECRxData] returns a non-zero length exactly when the
    descriptor under the cursor is not hardware-owned and its length is not
    zero; it then returns that length and publishes the descriptor's buffer
    in [uip_buf].  In every other case, and so whenever the descriptor is
    hardware-owned, it returns 0 and changes nothing.  It is a total
    function that touches no descriptor, cursor, register or kernel
    service: only [uip_buf] may change. *)
Theorem poll_reports_only_released_frames (s : state) :
  let d := rx_at s (uxNextRxBuffer s) in
  let usLen := fst (usGetFECRxData s) in
  let s' := snd (usGetFECRxData s) in
  (usLen <> 0 <-> rx_hw_owned d = false /\ FECBD.length d <> 0) /\
  (usLen <> 0 -> usLen = FECBD.length d /\ uip_buf s' = FECBD.data d) /\
  (rx_hw_owned d = true -> usLen = 0) /\
  (usLen = 0 -> s' = s) /\
  s' = set_uip_buf (uip_buf s') s.
Proof.
  cbv zeta. unfold usGetFECRxData, rx_hw_owned, c_true.
  destruct (Z.eqb_spec (FECBD.length (rx_at s (uxNextRxBuffer s))) 0) as [El|El];
    destruct (Z.land (FECBD.status (rx_at s (uxNextRxBuffer s))) RX_BD_E =? 0) eqn:Es;
    cbn [negb andb fst snd uip_buf set_uip_buf];
    repeat split; try congruence; try tauto; try (now destruct s).
  all: intros [? ?]; congruence.
Qed.

(** *** Reset *)

(** What [prvResetFEC] leaves: the rings and the cursor of
    [prvInitialiseFECBuffers], the reset pulse, the enable and the receive
    doorbell on the device, and nothing else. *)
Lemma prvResetFEC_spec x s :
  allocated s -> 0 < configNUM_FEC_RX_BUFFERS ->
  let s' := prvResetFEC x s in
  TxRing s' = [tx_after_init] /\
  RxRing s' = rx_after_init <$> seq 0 (Z.to_nat configNUM_FEC_RX_BUFFERS) /\
  uxNextRxBuffer s' = 0 /\
  uxIndexToBufferOwner s' = uxIndexToBufferOwner s /\
  xTxSemaphore s' = xTxSemaphore s /\
  xFECSemaphore s' = xFECSemaphore s /\
  trace s' = trace s
             ++ (if x =? pdFALSE then [EnterCritical] else [])
             ++ [RegWrite MCF_FEC_ECR (u32 MCF_FEC_ECR_RESET);
                 RegWrite MCF_FEC_ECR (u32 MCF_FEC_ECR_ETHER_EN);
                 RegWrite MCF_FEC_RDAR (u32 MCF_FEC_RDAR_R_DES_ACTIVE)]
             ++ (if x =? pdFALSE then [ExitCritical] else []) /\
  (forall r, r <> MCF_FEC_ECR -> r <> MCF_FEC_RDAR -> regs s' r = regs s r).
Proof.
  intros Ha HN s'. subst s'. unfold prvResetFEC.
  destruct (x =? pdFALSE).
  - rewrite (init_rings (taskENTER_CRITICAL s)) by assumption.
    cbn -[Z.to_nat u32]. repeat split.
    + now rewrite <- !app_assoc.
    + intros r H1 H2. destruct (reg_eq_dec MCF_FEC_RDAR r); [congruence|].
      destruct (reg_eq_dec MCF_FEC_ECR r); [congruence|reflexivity].
  - rewrite (init_rings s) by assumption.
    cbn -[Z.to_nat u32]. repeat split.
    + rewrite ?app_nil_r, <- ?app_assoc. reflexivity.
    + intros r H1 H2. destruct (reg_eq_dec MCF_FEC_RDAR r); [congruence|].
      destruct (reg_eq_dec MCF_FEC_ECR r); [congruence|reflexivity].
Qed.

Lemma prvResetFEC_allocated x s :
  allocated s -> 0 < configNUM_FEC_RX_BUFFERS -> allocated (prvResetFEC x s).
Proof.
  intros Ha HN. destruct (prvResetFEC_spec x s Ha HN) as (Ht & Hr & _).
  split; [now rewrite Ht|]. now rewrite Hr, length_fmap, length_seq.
Qed.

Lemma reset_rx_at x s i :
  allocated s -> 0 <= i < configNUM_FEC_RX_BUFFERS ->
  rx_at (prvResetFEC x s) i = rx_after_init (Z.to_nat i).
Proof.
  intros Ha Hi. destruct (prvResetFEC_spec x s Ha) as (_ & Hr & _); [lia|].
  unfold rx_at. rewrite Hr. apply list_lookup_total_correct.
  rewrite list_lookup_fmap, lookup_seq_lt by lia. reflexivity.
Qed.

Lemma reset_tx_at x s :
  allocated s -> 0 < configNUM_FEC_RX_BUFFERS ->
  tx_at (prvResetFEC x s) 0 = tx_after_init.
Proof.
  intros Ha HN. destruct (prvResetFEC_spec x s Ha HN) as (Ht & _).
  unfold tx_at. now rewrite Ht.
Qed.

(** *** Transmit path *)

Lemma events_without_transmit_doorbell :
  forallb (fun e => negb (writes_to MCF_FEC_TDAR e))
    [EnterCritical;
     RegWrite MCF_FEC_ECR (u32 MCF_FEC_ECR_RESET);
     RegWrite MCF_FEC_ECR (u32 MCF_FEC_ECR_ETHER_EN);
     RegWrite MCF_FEC_RDAR (u32 MCF_FEC_RDAR_R_DES_ACTIVE);
     ExitCritical] = true.
Proof. reflexivity. Qed.

(** C1.  When [vSendBufferToFEC] has taken the transmit semaphore and finds
    the transmit descriptor still hardware-owned, it runs the full device
    reset from task context and gives the semaphore back: what it adds to
    the trace is the reset inside a critical section, without any write to
    the transmit doorbell; the descriptor ends software-owned with null
    data and zero length, whatever [uip_buf] and [uip_len] hold; the receive
    ring is hardware-owned again, the cursor is 0 and the transmit gate is
    open. *)
Theorem busy_transmit_descriptor_resets (s : state) :
  allocated s -> config_ok -> rx_flags_ok -> tx_flags_ok ->
  tx_hw_owned (tx_at s fecTX_BUFFER_TO_USE) = true ->
  let s' := vSendBufferToFEC true s in
  s' = set_xTxSemaphore true (prvResetFEC pdFALSE (set_xTxSemaphore false s)) /\
  trace s' = trace s ++
    [EnterCritical;
     RegWrite MCF_FEC_ECR (u32 MCF_FEC_ECR_RESET);
     RegWrite MCF_FEC_ECR (u32 MCF_FEC_ECR_ETHER_EN);
     RegWrite MCF_FEC_RDAR (u32 MCF_FEC_RDAR_R_DES_ACTIVE);
     ExitCritical] /\
  (forall e, In e (emitted s s') -> writes_to MCF_FEC_TDAR e = false) /\
  FECBD.data (tx_at s' fecTX_BUFFER_TO_USE) = NULL /\
  FECBD.length (tx_at s' fecTX_BUFFER_TO_USE) = 0 /\
  tx_hw_owned (tx_at s' fecTX_BUFFER_TO_USE) = false /\
  (forall i, 0 <= i < configNUM_FEC_RX_BUFFERS -> rx_hw_owned (rx_at s' i) = true) /\
  uxNextRxBuffer s' = 0 /\
  xTxSemaphore s' = true.
Proof.
  intros Ha [[HN _] _] Hrx Htx Hbusy s'.
  assert (Hs' : s' = set_xTxSemaphore true
                       (prvResetFEC pdFALSE (set_xTxSemaphore false s))).
  { subst s'. unfold vSendBufferToFEC. unfold tx_hw_owned in Hbusy.
    st. unfold tx_at in *. st. now rewrite Hbusy. }
  assert (Ha' : allocated (set_xTxSemaphore false s)) by exact Ha.
  destruct (prvResetFEC_spec pdFALSE _ Ha' HN) as (Ht & Hr & Hc & _ & _ & _ & Htr & _).
  assert (Htrace : trace s' = trace s ++
            [EnterCritical;
             RegWrite MCF_FEC_ECR (u32 MCF_FEC_ECR_RESET);
             RegWrite MCF_FEC_ECR (u32 MCF_FEC_ECR_ETHER_EN);
             RegWrite MCF_FEC_RDAR (u32 MCF_FEC_RDAR_R_DES_ACTIVE);
             ExitCritical]).
  { rewrite Hs'. st. rewrite Htr. reflexivity. }
  split; [exact Hs'|]. split; [exact Htrace|].
  rewrite Hs'. unfold tx_at, rx_at. st. rewrite Ht, Hr, Hc.
  repeat split.
  - intros e. unfold emitted. st. rewrite Hs' in Htrace.
    cbn [trace set_xTxSemaphore] in Htrace. rewrite Htrace.
    rewrite drop_app_length. intros He.
    pose proof events_without_transmit_doorbell as Hall.
    rewrite forallb_forall in Hall. specialize (Hall e He).
    now apply negb_true_iff in Hall.
  - now apply tx_after_init_sw_owned.
  - intros i Hi. erewrite list_lookup_total_correct.
    + now apply (rx_after_init_owned (Z.to_nat i)).
    + rewrite list_lookup_fmap, lookup_seq_lt by lia. reflexivity.
Qed.

(** C9.  When the transmit semaphore cannot be taken within its bound,
    [vSendBufferToFEC] does exactly what [vDiscardRxData] does: the
    transmit ring is left alone and the only register written is the
    receive doorbell; the receive descriptor under the cursor goes back to
    the hardware and the cursor moves on.  The function has no result and
    records nothing else. *)
Theorem transmit_timeout_drops_frame (s : state) :
  allocated s -> config_ok -> flag16 RX_BD_E ->
  0 <= uxNextRxBuffer s < configNUM_FEC_RX_BUFFERS ->
  let s' := vSendBufferToFEC false s in
  s' = vDiscardRxData s /\
  TxRing s' = TxRing s /\
  trace s' = trace s ++ [RegWrite MCF_FEC_RDAR (u32 MCF_FEC_RDAR_R_DES_ACTIVE)] /\
  rx_hw_owned (rx_at s' (uxNextRxBuffer s)) = true /\
  (forall i, i <> uxNextRxBuffer s -> 0 <= i -> rx_at s' i = rx_at s i) /\
  uxNextRxBuffer s' = (uxNextRxBuffer s + 1) mod configNUM_FEC_RX_BUFFERS /\
  uxIndexToBufferOwner s' = uxIndexToBufferOwner s /\
  xTxSemaphore s' = xTxSemaphore s /\
  uip_buf s' = uip_buf s.
Proof.
  intros [_ Hlen] [HN _] HE Hc s'. subst s'.
  change (vSendBufferToFEC false s) with (vDiscardRxData s).
  split; [reflexivity|].
  assert (Hrx := vDiscardRxData_RxRing s).
  repeat split.
  - unfold vDiscardRxData, advance_cursor. now destruct (_ <=? _).
  - unfold vDiscardRxData, advance_cursor. now destruct (_ <=? _).
  - unfold rx_at. rewrite Hrx, list_lookup_total_alter_eq by lia.
    now apply or_status_owned.
  - intros i Hne Hi. unfold rx_at. rewrite Hrx.
    apply list_lookup_total_alter_ne. lia.
  - now apply vDiscardRxData_cursor.
  - unfold vDiscardRxData, advance_cursor. now destruct (_ <=? _).
  - unfold vDiscardRxData, advance_cursor. now destruct (_ <=? _).
  - unfold vDiscardRxData, advance_cursor. now destruct (_ <=? _).
Qed.

(** *** Interrupt handler *)

Lemma fatal_events_hit x e :
  fatal_event e -> Z.land x e <> 0 -> c_true (Z.land x fatal_events) = true.
Proof.
  intros He Hx. apply c_true_spec. unfold fatal_events.
  rewrite !Z.land_lor_distr_r. intros Hz.
  repeat (apply Z.lor_eq_0_iff in Hz; destruct Hz as [Hz ?]).
  unfold fatal_event in He.
  repeat (destruct He as [He|He]; [subst e; contradiction|]).
  subst e; contradiction.
Qed.

Lemma rx_owned_after_or (l : list FECBD.t) (k i : nat) :
  rx_hw_owned (l !!! i) = true -> flag16 RX_BD_E ->
  rx_hw_owned (alter (or_status RX_BD_E) k l !!! i) = true.
Proof.
  intros Hi HE. rewrite list_lookup_total_alter.
  destruct (decide _) as [[-> _]|_]; [now apply or_status_owned|exact Hi].
Qed.

(** The handler on a transmit-complete event without a fatal cause. *)
Lemma vFEC_ISR_tx_complete eir t :
  c_true (Z.land (pending eir t) fatal_events) = false ->
  tx_complete (pending eir t) = true ->
  let t' := vFEC_ISR eir t in
  RxRing t' = alter (or_status RX_BD_E) (Z.to_nat (uxIndexToBufferOwner t)) (RxRing t) /\
  TxRing t' = TxRing t /\
  uxNextRxBuffer t' = uxNextRxBuffer t /\
  uxIndexToBufferOwner t' = uxIndexToBufferOwner t /\
  xTxSemaphore t' = true /\
  trace t' = trace t ++ [RegWrite MCF_FEC_EIR (u32 (pending eir t));
                         RegWrite MCF_FEC_RDAR (u32 MCF_FEC_RDAR_R_DES_ACTIVE)].
Proof.
  intros Hf Htx t'. subst t'. unfold tx_complete, pending in *. unfold vFEC_ISR.
  cbv zeta. rewrite Hf, Htx.
  destruct (c_true (Z.land (Z.land (u32 eir) (regs t MCF_FEC_EIMR)) MCF_FEC_EIR_RXB)
            || c_true (Z.land (Z.land (u32 eir) (regs t MCF_FEC_EIMR)) MCF_FEC_EIR_RXF));
    st; rewrite <- ?app_assoc; repeat split.
Qed.

(** The handler on an event that carries a fatal cause. *)
Lemma vFEC_ISR_fatal eir s :
  allocated s -> 0 < configNUM_FEC_RX_BUFFERS ->
  c_true (Z.land (pending eir s) fatal_events) = true ->
  let s' := vFEC_ISR eir s in
  TxRing s' = [tx_after_init] /\
  RxRing s' =
    (if tx_complete (pending eir s)
     then alter (or_status RX_BD_E) (Z.to_nat (uxIndexToBufferOwner s))
     else id) (rx_after_init <$> seq 0 (Z.to_nat configNUM_FEC_RX_BUFFERS)) /\
  uxNextRxBuffer s' = 0 /\
  trace s' = trace s ++
    [RegWrite MCF_FEC_EIR (u32 (pending eir s));
     RegWrite MCF_FEC_ECR (u32 MCF_FEC_ECR_RESET);
     RegWrite MCF_FEC_ECR (u32 MCF_FEC_ECR_ETHER_EN);
     RegWrite MCF_FEC_RDAR (u32 MCF_FEC_RDAR_R_DES_ACTIVE)]
    ++ (if tx_complete (pending eir s)
        then [RegWrite MCF_FEC_RDAR (u32 MCF_FEC_RDAR_R_DES_ACTIVE)] else []) /\
  (forall r, r <> MCF_FEC_EIR -> r <> MCF_FEC_ECR -> r <> MCF_FEC_RDAR ->
     regs s' r = regs s r).
Proof.
  intros Ha HN Hf s'. subst s'. unfold tx_complete, pending in *. unfold vFEC_ISR.
  cbv zeta. rewrite Hf.
  set (ulEvent := Z.land (u32 eir) (regs s MCF_FEC_EIMR)).
  set (t := if c_true (Z.land ulEvent MCF_FEC_EIR_RXB)
               || c_true (Z.land ulEvent MCF_FEC_EIR_RXF)
            then _ else _).
  assert (Hat : allocated t) by (subst t; destruct (_ || _); exact Ha).
  assert (Htt : trace t = trace s ++ [RegWrite MCF_FEC_EIR (u32 ulEvent)])
    by (subst t; destruct (_ || _); reflexivity).
  assert (Htr : forall r, r <> MCF_FEC_EIR -> regs t r = regs s r).
  { intros r Hr. subst t; destruct (_ || _); st;
      (destruct (reg_eq_dec MCF_FEC_EIR r); [congruence|reflexivity]). }
  assert (Hto : uxIndexToBufferOwner t = uxIndexToBufferOwner s)
    by (subst t; destruct (_ || _); reflexivity).
  destruct (prvResetFEC_spec pdTRUE t Hat HN)
    as (Ht & Hr & Hc & Ho & _ & _ & Htrace & Hregs).
  change (pdTRUE =? pdFALSE) with false in Htrace. cbn [app] in Htrace.
  destruct (c_true (Z.land ulEvent MCF_FEC_EIR_TXF)
            || c_true (Z.land ulEvent MCF_FEC_EIR_TXB)); st.
  - rewrite Ht, Hr, Hc, Ho, Hto, Htrace, Htt, <- !app_assoc. repeat split.
    intros r H1 H2 H3. destruct (reg_eq_dec MCF_FEC_RDAR r); [congruence|].
    rewrite Hregs, Htr by congruence. reflexivity.
  - rewrite Ht, Hr, Hc, Htrace, Htt, <- !app_assoc. repeat split.
    intros r H1 H2 H3. rewrite Hregs, Htr by congruence. reflexivity.
Qed.


Lemma reset_events_spare_link_registers ulEvent post :
  post = [] \/ post = [RegWrite MCF_FEC_RDAR (u32 MCF_FEC_RDAR_R_DES_ACTIVE)] ->
  forall ev,
    In ev ([RegWrite MCF_FEC_EIR ulEvent;
            RegWrite MCF_FEC_ECR (u32 MCF_FEC_ECR_RESET);
            RegWrite MCF_FEC_ECR (u32 MCF_FEC_ECR_ETHER_EN);
            RegWrite MCF_FEC_RDAR (u32 MCF_FEC_RDAR_R_DES_ACTIVE)] ++ post) ->
    writes_to MCF_FEC_RCR ev = false /\ writes_to MCF_FEC_TCR ev = false /\
    writes_to MCF_FEC_MMFR ev = false.
Proof.
  intros [->| ->] ev Hin; cbn in Hin;
    repeat (destruct Hin as [<-|Hin]; [repeat split|]); contradiction.
Qed.

(** C6.  Whenever one of the fatal causes (underflow, retry limit, late
    collision, bus error, babbling transmit or receive, heartbeat error) is
    among the events the handler reads, [vFEC_ISR] runs the device reset:
    afterwards every receive descriptor is hardware-owned, the transmit
    descriptor is software-owned, the cursor is 0, and the device has been
    pulsed through reset, enabled and its receive doorbell rung, the
    doorbell being the last register written.  The handler writes neither
    duplex register nor the MII frame register, so no negotiation is
    started and [MCF_FEC_RCR] and [MCF_FEC_TCR] hold what they held. *)
Theorem fatal_event_resets_device (s : state) (eir e : Z) :
  allocated s -> config_ok -> rx_flags_ok -> tx_flags_ok ->
  fatal_event e -> Z.land (pending eir s) e <> 0 ->
  let s' := vFEC_ISR eir s in
  (forall i, 0 <= i < configNUM_FEC_RX_BUFFERS -> rx_hw_owned (rx_at s' i) = true) /\
  (forall i, 0 <= i < fecNUM_FEC_TX_BUFFERS -> tx_hw_owned (tx_at s' i) = false) /\
  uxNextRxBuffer s' = 0 /\
  emitted s s' =
    [RegWrite MCF_FEC_EIR (u32 (pending eir s));
     RegWrite MCF_FEC_ECR (u32 MCF_FEC_ECR_RESET);
     RegWrite MCF_FEC_ECR (u32 MCF_FEC_ECR_ETHER_EN);
     RegWrite MCF_FEC_RDAR (u32 MCF_FEC_RDAR_R_DES_ACTIVE)]
    ++ (if tx_complete (pending eir s)
        then [RegWrite MCF_FEC_RDAR (u32 MCF_FEC_RDAR_R_DES_ACTIVE)] else []) /\
  List.last (emitted s s') EnterCritical
    = RegWrite MCF_FEC_RDAR (u32 MCF_FEC_RDAR_R_DES_ACTIVE) /\
  regs s' MCF_FEC_RCR = regs s MCF_FEC_RCR /\
  regs s' MCF_FEC_TCR = regs s MCF_FEC_TCR /\
  (forall ev, In ev (emitted s s') ->
     writes_to MCF_FEC_RCR ev = false /\ writes_to MCF_FEC_TCR ev = false /\
     writes_to MCF_FEC_MMFR ev = false).
Proof.
  intros Ha [[HN _] _] Hrx Htx He Hpend s'.
  pose proof (fatal_events_hit _ _ He Hpend) as Hf.
  destruct (vFEC_ISR_fatal eir s Ha HN Hf) as (Ht & Hr & Hc & Htr & Hregs).
  fold s' in Ht, Hr, Hc, Htr, Hregs.
  assert (Hem : emitted s s' =
    [RegWrite MCF_FEC_EIR (u32 (pending eir s));
     RegWrite MCF_FEC_ECR (u32 MCF_FEC_ECR_RESET);
     RegWrite MCF_FEC_ECR (u32 MCF_FEC_ECR_ETHER_EN);
     RegWrite MCF_FEC_RDAR (u32 MCF_FEC_RDAR_R_DES_ACTIVE)]
    ++ (if tx_complete (pending eir s)
        then [RegWrite MCF_FEC_RDAR (u32 MCF_FEC_RDAR_R_DES_ACTIVE)] else [])).
  { unfold emitted. rewrite Htr. apply drop_app_length. }
  split; [|split; [|split; [|split; [|split; [|split; [|split]]]]]].
  - intros i Hi. unfold rx_at. rewrite Hr.
    assert (Hi0 : rx_hw_owned
              ((rx_after_init <$> seq 0 (Z.to_nat configNUM_FEC_RX_BUFFERS))
                 !!! Z.to_nat i) = true).
    { erewrite list_lookup_total_correct.
      - now apply (rx_after_init_owned (Z.to_nat i)).
      - rewrite list_lookup_fmap, lookup_seq_lt by lia. reflexivity. }
    destruct (tx_complete _); [|exact Hi0].
    apply rx_owned_after_or; [exact Hi0|apply Hrx].
  - intros i Hi. unfold fecNUM_FEC_TX_BUFFERS in Hi. assert (i = 0) as -> by lia.
    unfold tx_at. rewrite Ht. now apply tx_after_init_sw_owned.
  - exact Hc.
  - exact Hem.
  - rewrite Hem. now destruct (tx_complete _).
  - now apply Hregs.
  - now apply Hregs.
  - rewrite Hem. apply reset_events_spare_link_registers.
    destruct (tx_complete _); auto.
Qed.

(** The accepting branch of [vSendBufferToFEC]. *)
Lemma vSendBufferToFEC_accept t :
  allocated t -> 0 < configNUM_FEC_RX_BUFFERS < 2 ^ 32 ->
  0 <= uxNextRxBuffer t < configNUM_FEC_RX_BUFFERS ->
  tx_hw_owned (tx_at t fecTX_BUFFER_TO_USE) = false ->
  let t' := vSendBufferToFEC true t in
  tx_at t' fecTX_BUFFER_TO_USE
    = FECBD.mk (u16 (Z.lor (FECBD.status (tx_at t fecTX_BUFFER_TO_USE))
                           (Z.lor TX_BD_R TX_BD_L)))
               (u16 (uip_len t)) (uip_buf t) /\
  RxRing t' = RxRing t /\
  uxIndexToBufferOwner t' = uxNextRxBuffer t /\
  uxNextRxBuffer t' = (uxNextRxBuffer t + 1) mod configNUM_FEC_RX_BUFFERS /\
  trace t' = trace t ++ [RegWrite MCF_FEC_TDAR (u32 MCF_FEC_TDAR_X_DES_ACTIVE)] /\
  xTxSemaphore t' = false /\
  regs t' MCF_FEC_EIMR = regs t MCF_FEC_EIMR /\
  allocated t'.
Proof.
  intros [Htx Hrx] HN Hc Hfree t'. subst t'.
  unfold vSendBufferToFEC. unfold tx_hw_owned in Hfree.
  unfold tx_at in *. st. rewrite Hfree.
  destruct (TxRing t) as [|d [|? ?]] eqn:Et; cbn in Htx; try discriminate.
  set (t1 := set_uxIndexToBufferOwner _ _).
  assert (Hc1 : uxNextRxBuffer t1 = uxNextRxBuffer t) by reflexivity.
  pose proof (advance_cursor_spec t1 HN) as Hadv. rewrite Hc1 in Hadv.
  specialize (Hadv Hc).
  destruct (advance_cursor_rings t1) as (A1 & A2 & A3 & A4 & A5 & A6).
  st. rewrite A1, A2, A3, A4, A5, A6, Hadv.
  assert (Hal : allocated (write_reg MCF_FEC_TDAR MCF_FEC_TDAR_X_DES_ACTIVE
                             (advance_cursor t1))).
  { unfold allocated. st. rewrite A1, A2. subst t1. st. rewrite Et.
    split; [reflexivity|exact Hrx]. }
  subst t1. st. rewrite Et.
  split; [reflexivity|]. split; [reflexivity|].
  split; [apply u32_small; lia|].
  split; [reflexivity|]. split; [reflexivity|]. split; [reflexivity|].
  split; [|exact Hal].
  destruct (reg_eq_dec MCF_FEC_TDAR MCF_FEC_EIMR); [discriminate|reflexivity].
Qed.

Lemma sent_descriptor_flags st :
  tx_flags_ok ->
  Z.land (u16 (Z.lor st (Z.lor TX_BD_R TX_BD_L))) TX_BD_R <> 0 /\
  Z.land (u16 (Z.lor st (Z.lor TX_BD_R TX_BD_L))) TX_BD_L <> 0.
Proof.
  intros ([HR0 HR1] & [HL0 HL1] & _). split.
  - rewrite land_u16 by lia. rewrite Z.lor_assoc.
    apply land_lor_keeps. rewrite land_lor_same. lia.
  - rewrite land_u16 by lia. rewrite Z.lor_assoc, land_lor_same. lia.
Qed.


Lemma usGetFECRxData_frame s :
  fst (usGetFECRxData s) <> 0 ->
  snd (usGetFECRxData s)
    = set_uip_buf (FECBD.data (rx_at s (uxNextRxBuffer s))) s /\
  rx_hw_owned (rx_at s (uxNextRxBuffer s)) = false.
Proof.
  unfold usGetFECRxData, rx_hw_owned, c_true.
  destruct (negb _) ; cbn [andb fst snd]; [|congruence].
  destruct (_ =? 0); cbn [fst snd negb]; [auto|congruence].
Qed.

(** C2.  A frame returned by [usGetFECRxData] and handed to
    [vSendBufferToFEC] while the transmit descriptor is free: the descriptor
    is bound to that buffer and to [uip_len], gets the ready and
    last-in-frame flags, and the transmit doorbell is the one register
    written; the donating receive slot is recorded and the cursor moves past
    it while the receive ring stays as it was, the slot still not
    hardware-owned.  On the transmit-complete interrupt that follows, the
    recorded slot, and no other, is marked hardware-owned, the receive
    doorbell is rung and the transmit semaphore is given. *)
Theorem zero_copy_handoff (s : state) (eir : Z) :
  wf s -> config_ok -> rx_flags_ok -> tx_flags_ok ->
  fst (usGetFECRxData s) <> 0 ->
  tx_hw_owned (tx_at s fecTX_BUFFER_TO_USE) = false ->
  tx_complete (pending eir s) = true ->
  c_true (Z.land (pending eir s) fatal_events) = false ->
  let slot := uxNextRxBuffer s in
  let s1 := snd (usGetFECRxData s) in
  let s2 := vSendBufferToFEC true s1 in
  let s3 := vFEC_ISR eir s2 in
  uip_buf s1 = FECBD.data (rx_at s slot) /\
  FECBD.data (tx_at s2 fecTX_BUFFER_TO_USE) = FECBD.data (rx_at s slot) /\
  FECBD.length (tx_at s2 fecTX_BUFFER_TO_USE) = u16 (uip_len s) /\
  tx_hw_owned (tx_at s2 fecTX_BUFFER_TO_USE) = true /\
  tx_last (tx_at s2 fecTX_BUFFER_TO_USE) = true /\
  emitted s s2 = [RegWrite MCF_FEC_TDAR (u32 MCF_FEC_TDAR_X_DES_ACTIVE)] /\
  uxIndexToBufferOwner s2 = slot /\
  uxNextRxBuffer s2 = (slot + 1) mod configNUM_FEC_RX_BUFFERS /\
  RxRing s2 = RxRing s /\
  rx_hw_owned (rx_at s2 slot) = false /\
  rx_hw_owned (rx_at s3 slot) = true /\
  (forall i, 0 <= i -> i <> slot -> rx_at s3 i = rx_at s i) /\
  emitted s2 s3 = [RegWrite MCF_FEC_EIR (u32 (pending eir s));
                   RegWrite MCF_FEC_RDAR (u32 MCF_FEC_RDAR_R_DES_ACTIVE)] /\
  xTxSemaphore s3 = true.
Proof.
  intros [Ha [Hc Ho]] [HN _] [HE _] Htx Hpoll Hfree Hcomp Hnf slot s1 s2 s3.
  destruct (usGetFECRxData_frame s Hpoll) as [Hs1 Hsw]. fold s1 slot in Hs1, Hsw.
  assert (Ha1 : allocated s1) by (rewrite Hs1; exact Ha).
  assert (Hc1 : 0 <= uxNextRxBuffer s1 < configNUM_FEC_RX_BUFFERS)
    by (rewrite Hs1; exact Hc).
  assert (Hfree1 : tx_hw_owned (tx_at s1 fecTX_BUFFER_TO_USE) = false)
    by (rewrite Hs1; exact Hfree).
  destruct (vSendBufferToFEC_accept s1 Ha1 HN Hc1 Hfree1)
    as (Hd & Hring & Hown & Hcur & Htr & _ & Hmask & Ha2).
  fold s2 in Hd, Hring, Hown, Hcur, Htr, Hmask, Ha2.
  assert (Hp2 : pending eir s2 = pending eir s).
  { unfold pending. rewrite Hmask, Hs1. reflexivity. }
  rewrite <- Hp2 in Hcomp, Hnf.
  destruct (vFEC_ISR_tx_complete eir s2 Hnf Hcomp)
    as (Hr3 & _ & _ & _ & Hsem & Htr3).
  fold s3 in Hr3, Hsem, Htr3.
  destruct (sent_descriptor_flags (FECBD.status (tx_at s1 fecTX_BUFFER_TO_USE)) Htx)
    as [HfR HfL].
  assert (Hslot1 : uxNextRxBuffer s1 = slot) by (rewrite Hs1; reflexivity).
  assert (Hring1 : RxRing s1 = RxRing s) by (rewrite Hs1; reflexivity).
  rewrite Hslot1 in Hown, Hcur. rewrite Hring1 in Hring.
  split; [rewrite Hs1; reflexivity|].
  split; [rewrite Hd, Hs1; reflexivity|].
  split; [rewrite Hd, Hs1; reflexivity|].
  split; [unfold tx_hw_owned; rewrite Hd; now apply c_true_spec|].
  split; [unfold tx_last; rewrite Hd; now apply c_true_spec|].
  split.
  { unfold emitted. rewrite Htr, Hs1. st. apply drop_app_length. }
  split; [exact Hown|]. split; [exact Hcur|]. split; [exact Hring|].
  split; [unfold rx_at; rewrite Hring; exact Hsw|].
  split.
  { unfold rx_at. rewrite Hr3, Hown, Hring.
    rewrite list_lookup_total_alter_eq by (destruct Ha as [_ Hl]; lia).
    now apply or_status_owned. }
  split.
  { intros i Hi Hne. unfold rx_at. rewrite Hr3, Hown, Hring.
    apply list_lookup_total_alter_ne. lia. }
  split; [|exact Hsem].
  unfold emitted. rewrite Htr3, Hp2. apply drop_app_length.
Qed.


(** *** MII management frames *)

Lemma regs_write_same r v s : regs (write_reg r v s) r = u32 v.
Proof. st. destruct (reg_eq_dec r r); [reflexivity|congruence]. Qed.

Lemma regs_write_other r r' v s : r <> r' -> regs (write_reg r v s) r' = regs s r'.
Proof. intros H. st. destruct (reg_eq_dec r r'); [congruence|reflexivity]. Qed.

Lemma mii_poll_range dev n : forall timeout s,
  timeout <= fst (mii_poll dev n timeout s) <= timeout + Z.of_nat n.
Proof.
  induction n as [|n IH]; intros timeout s; cbn [mii_poll]; [cbn; lia|].
  destruct (c_true _); [cbn; lia|].
  specialize (IH (timeout + 1) (vTaskDelay fecMII_DELAY s)). lia.
Qed.

Lemma mii_poll_timeout dev n : forall timeout s,
  (forall i, timeout <= i < timeout + Z.of_nat n ->
     Z.land (eir_at_poll dev i) MCF_FEC_EIR_MII = 0) ->
  fst (mii_poll dev n timeout s) = timeout + Z.of_nat n.
Proof.
  induction n as [|n IH]; intros timeout s Hq; cbn [mii_poll]; [cbn; lia|].
  rewrite (proj2 (c_true_false _)) by (apply Hq; lia).
  rewrite IH; [lia|]. intros i Hi. apply Hq. lia.
Qed.

Lemma mii_poll_completed dev n : forall timeout s k,
  timeout <= k < timeout + Z.of_nat n ->
  Z.land (eir_at_poll dev k) MCF_FEC_EIR_MII <> 0 ->
  fst (mii_poll dev n timeout s) < timeout + Z.of_nat n.
Proof.
  induction n as [|n IH]; intros timeout s k Hk Hflag; cbn [mii_poll]; [lia|].
  destruct (c_true _) eqn:E; [cbn; lia|].
  destruct (Z.eq_dec k timeout) as [->|Hne].
  - apply c_true_false in E. contradiction.
  - specialize (IH (timeout + 1) (vTaskDelay fecMII_DELAY s) k). lia.
Qed.

(** Both MII functions leave the interrupt mask as they found it. *)
Lemma mii_poll_regs dev n : forall timeout s,
  regs (snd (mii_poll dev n timeout s)) = regs s.
Proof.
  induction n as [|n IH]; intros timeout s; cbn [mii_poll]; [reflexivity|].
  destruct (c_true _); [reflexivity|]. now rewrite IH.
Qed.

Lemma fec_mii_read_restores_mask phy_addr reg_addr dev s :
  regs (snd (fec_mii_read phy_addr reg_addr dev s)) MCF_FEC_EIMR
  = u32 (regs s MCF_FEC_EIMR).
Proof.
  unfold fec_mii_read.
  destruct (mii_poll dev _ 0 _) as [timeout t].
  destruct (timeout =? fecMAX_POLLS); cbn [snd];
    rewrite regs_write_same, regs_write_other by discriminate; reflexivity.
Qed.

Lemma fec_mii_write_restores_mask phy_addr reg_addr data dev s :
  regs (snd (fec_mii_write phy_addr reg_addr data dev s)) MCF_FEC_EIMR
  = u32 (regs s MCF_FEC_EIMR).
Proof.
  unfold fec_mii_write.
  destruct (mii_poll dev _ 0 _) as [timeout t]. cbn [snd].
  rewrite regs_write_same, regs_write_other by discriminate. reflexivity.
Qed.

Lemma fec_mii_write_result phy_addr reg_addr data dev s :
  fst (fec_mii_write phy_addr reg_addr data dev s) = 0 <->
  (forall i, 0 <= i < fecMAX_POLLS ->
     Z.land (eir_at_poll dev i) MCF_FEC_EIR_MII = 0).
Proof.
  unfold fec_mii_write.
  match goal with
  | |- context [mii_poll dev ?n 0 ?t] =>
      pose proof (mii_poll_timeout dev n 0 t) as Hto;
      pose proof (fun k => mii_poll_completed dev n 0 t k) as Hdone;
      destruct (mii_poll dev n 0 t) as [timeout t']
  end.
  cbn [fst] in *. change (Z.of_nat (Z.to_nat fecMAX_POLLS)) with fecMAX_POLLS in *.
  destruct (Z.eqb_spec timeout fecMAX_POLLS) as [->|Hne]; split; intros H;
    try reflexivity; try discriminate.
  - intros i Hi.
    destruct (Z.eq_dec (Z.land (eir_at_poll dev i) MCF_FEC_EIR_MII) 0) as [E|E];
      [exact E|].
    specialize (Hdone i ltac:(lia) E). lia.
  - exfalso. apply Hne. rewrite Hto; [reflexivity|]. intros i Hi. apply H. lia.
Qed.

(** C10.  When none of the [fecMAX_POLLS] polls of the completion loop sees
    the MII flag, [fec_mii_read] returns 0 and makes no store through
    [data]: the caller's variable keeps the value it had.  For every run,
    a store through [data] is made exactly when 1 is returned, and a run in
    which some poll sees the flag returns 1 and stores the low 16 bits of
    the data register. *)
Theorem mii_read_timeout_keeps_output (phy_addr reg_addr : Z) (dev : mii_device)
  (s : state) (old : Z) :
  (forall i, 0 <= i < fecMAX_POLLS ->
     Z.land (eir_at_poll dev i) MCF_FEC_EIR_MII = 0) ->
  fst (fst (fec_mii_read phy_addr reg_addr dev s)) = 0 /\
  snd (fst (fec_mii_read phy_addr reg_addr dev s)) = None /\
  stored (snd (fst (fec_mii_read phy_addr reg_addr dev s))) old = old /\
  (forall dev' s',
     snd (fst (fec_mii_read phy_addr reg_addr dev' s')) <> None <->
     fst (fst (fec_mii_read phy_addr reg_addr dev' s')) = 1) /\
  (forall dev' s' k,
     0 <= k < fecMAX_POLLS ->
     Z.land (eir_at_poll dev' k) MCF_FEC_EIR_MII <> 0 ->
     fst (fec_mii_read phy_addr reg_addr dev' s')
       = (1, Some (u16 (Z.land (mmfr_value dev') 0x0000FFFF)))).
Proof.
  intros Hq.
  assert (Hto : forall t, fst (mii_poll dev (Z.to_nat fecMAX_POLLS) 0 t) = fecMAX_POLLS).
  { intros t. rewrite mii_poll_timeout; [reflexivity|].
    intros i Hi. apply Hq. unfold fecMAX_POLLS in *. lia. }
  assert (Hres : fst (fec_mii_read phy_addr reg_addr dev s) = (0, None)).
  { unfold fec_mii_read.
    match goal with
    | |- context [mii_poll dev ?n 0 ?t] =>
        specialize (Hto t); destruct (mii_poll dev n 0 t) as [timeout t']
    end.
    cbn [fst] in Hto. subst timeout. reflexivity. }
  rewrite Hres. cbn [fst snd stored].
  split; [reflexivity|]. split; [reflexivity|]. split; [reflexivity|]. split.
  - intros dev' s'. unfold fec_mii_read.
    destruct (mii_poll dev' _ 0 _) as [timeout t'].
    destruct (timeout =? fecMAX_POLLS); cbn [fst snd]; split; congruence.
  - intros dev' s' k Hk Hflag. unfold fec_mii_read.
    match goal with
    | |- context [mii_poll dev' ?n 0 ?t] =>
        pose proof (mii_poll_completed dev' n 0 t k) as Hdone;
        destruct (mii_poll dev' n 0 t) as [timeout t']
    end.
    cbn [fst] in Hdone.
    destruct (Z.eqb_spec timeout fecMAX_POLLS) as [->|Hne]; [|reflexivity].
    unfold fecMAX_POLLS in *. lia.
Qed.

(** *** Bring-up: decoding the negotiated link *)


Lemma land_lnot_same x m : Z.land (Z.land x (u32 (Z.lnot m))) m = 0.
Proof.
  apply Z.bits_inj'. intros n Hn.
  rewrite !Z.land_spec, Z.bits_0. unfold u32.
  destruct (Z.ltb_spec n 32).
  - rewrite Z.mod_pow2_bits_low, Z.lnot_spec by lia.
    destruct (Z.testbit x n), (Z.testbit m n); reflexivity.
  - rewrite Z.mod_pow2_bits_high by lia.
    destruct (Z.testbit x n), (Z.testbit m n); reflexivity.
Qed.

Lemma vInitFEC_negotiated_word dev usData0 s :
  fst (vInitFEC_negotiated dev usData0 s)
  = stored (snd (fst (fec_mii_read configPHY_ADDRESS PHY_ANLPAR dev s))) usData0.
Proof.
  unfold vInitFEC_negotiated.
  destruct (fec_mii_read configPHY_ADDRESS PHY_ANLPAR dev s) as [[r w] t].
  cbn [fst snd]. now destruct (advertises_full_duplex (stored w usData0)).
Qed.

Lemma regs_write8_other r r' v s : r <> r' -> regs (write_reg8 r v s) r' = regs s r'.
Proof. intros H. st. destruct (reg_eq_dec r r'); [congruence|reflexivity]. Qed.

Lemma icr_loop_keeps v r n : forall i0 s,
  (forall x, MCF_INTC0_ICR x <> r) ->
  regs (for_loop n i0 (fun ux s => write_reg8 (MCF_INTC0_ICR ux) v s) s) r = regs s r.
Proof.
  induction n as [|n IH]; intros i0 s Hr; cbn [for_loop]; [reflexivity|].
  rewrite IH by exact Hr. now apply regs_write8_other.
Qed.

Lemma prvEnableFECInterrupts_keeps s r :
  r = MCF_FEC_RCR \/ r = MCF_FEC_TCR ->
  regs (prvEnableFECInterrupts s) r = regs s r.
Proof.
  intros Hr. unfold prvEnableFECInterrupts. cbv zeta.
  rewrite !regs_write_other by (destruct Hr; subst r; discriminate).
  apply icr_loop_keeps. intros x. destruct Hr; subst r; discriminate.
Qed.

Lemma fec_set_address_keeps pa s r :
  r = MCF_FEC_RCR \/ r = MCF_FEC_TCR ->
  regs (fec_set_address pa s) r = regs s r.
Proof.
  intros Hr. unfold fec_set_address. cbv zeta.
  destruct (32 <=? _);
    rewrite !regs_write_other by (destruct Hr; subst r; discriminate); reflexivity.
Qed.

(** The rest of bring-up leaves the transmit control register alone ... *)
Lemma vInitFEC_installed_TCR s :
  regs (vInitFEC_installed s) MCF_FEC_TCR = regs s MCF_FEC_TCR.
Proof.
  unfold vInitFEC_installed. cbv zeta.
  rewrite !regs_write_other by discriminate.
  rewrite prvEnableFECInterrupts_keeps by auto.
  destruct (configUSE_PROMISCUOUS_MODE =? 1);
    rewrite !regs_write_other by discriminate;
    rewrite fec_set_address_keeps by auto;
    rewrite !regs_write_other by discriminate; reflexivity.
Qed.

(** ... and assigns the receive control register anew, so that what it
    holds when bring-up ends does not depend on what the decoding of the
    link had put there. *)
Lemma vInitFEC_installed_RCR s :
  regs (vInitFEC_installed s) MCF_FEC_RCR =
  let rcr := u32 (Z.lor (u32 (Z.lor (MCF_FEC_RCR_MAX_FL ETH_MAX_FRM) MCF_FEC_RCR_FCE))
                        MCF_FEC_RCR_MII_MODE) in
  if configUSE_PROMISCUOUS_MODE =? 1 then u32 (Z.lor rcr MCF_FEC_RCR_PROM) else rcr.
Proof.
  unfold vInitFEC_installed. cbv zeta.
  rewrite !regs_write_other by discriminate.
  rewrite prvEnableFECInterrupts_keeps by auto.
  destruct (configUSE_PROMISCUOUS_MODE =? 1);
    rewrite !regs_write_same; reflexivity.
Qed.

(** A management frame leaves the same state whatever the data register
    holds: only the polls at which the flag is seen matter. *)
Lemma mii_poll_ext dev dev' n : forall timeout s,
  (forall i, timeout <= i < timeout + Z.of_nat n ->
     eir_at_poll dev' i = eir_at_poll dev i) ->
  mii_poll dev' n timeout s = mii_poll dev n timeout s.
Proof.
  induction n as [|n IH]; intros timeout s Hq; cbn [mii_poll]; [reflexivity|].
  rewrite (Hq timeout) by lia.
  destruct (c_true _); [reflexivity|]. apply IH. intros i Hi. apply Hq. lia.
Qed.

Lemma fec_mii_read_state_ext phy_addr reg_addr dev dev' s :
  (forall i, 0 <= i < fecMAX_POLLS -> eir_at_poll dev' i = eir_at_poll dev i) ->
  snd (fec_mii_read phy_addr reg_addr dev' s) = snd (fec_mii_read phy_addr reg_addr dev s).
Proof.
  intros Hq. unfold fec_mii_read.
  rewrite (mii_poll_ext dev dev') by exact Hq.
  destruct (mii_poll dev _ 0 _) as [timeout t].
  destruct (timeout =? fecMAX_POLLS); reflexivity.
Qed.

(** C7, as amended.  The word [vInitFEC] decodes after autonegotiation
    (the one the read of the link partner ability register stored, or what
    [usData] held if that read timed out) decides the duplex and nothing
    else.  The MAC is programmed for full duplex exactly when 100BASE-TX
    full duplex or 10BASE-T full duplex is advertised, which is still so
    when the rest of bring-up has run: 100BASE-TX full duplex gives full
    duplex, and a word with none of the three abilities gives half duplex.
    When the decoding ends, [MCF_FEC_RCR_DRT] is set exactly in the
    half-duplex case.  No speed is programmed: the test on the two
    100BASE-TX abilities guards two empty branches, and a PHY that answers
    at the same polls with any other word of the same duplex, whatever
    speeds that word advertises, leaves the driver in the very same
    state. *)
Theorem link_decoding (dev : mii_device) (usData0 : Z) (s : state) :
  flag32 MCF_FEC_TCR_FDEN -> flag32 MCF_FEC_RCR_DRT ->
  let usData := fst (vInitFEC_negotiated dev usData0 s) in
  let s' := snd (vInitFEC_negotiated dev usData0 s) in
  usData = stored (snd (fst (fec_mii_read configPHY_ADDRESS PHY_ANLPAR dev s))) usData0 /\
  (configured_duplex s' = Full <->
     Z.land usData PHY_ANLPAR_100BTX_FDX <> 0 \/ Z.land usData PHY_ANLPAR_10BTX_FDX <> 0) /\
  (Z.land (regs s' MCF_FEC_RCR) MCF_FEC_RCR_DRT <> 0 <-> configured_duplex s' = Half) /\
  (Z.land usData PHY_ANLPAR_100BTX_FDX <> 0 -> configured_duplex s' = Full) /\
  (Z.land usData PHY_ANLPAR_100BTX_FDX = 0 -> Z.land usData PHY_ANLPAR_100BTX = 0 ->
   Z.land usData PHY_ANLPAR_10BTX_FDX = 0 -> configured_duplex s' = Half) /\
  configured_duplex (vInitFEC_installed s') = configured_duplex s' /\
  (forall dev' usData0',
     (forall i, 0 <= i < fecMAX_POLLS -> eir_at_poll dev' i = eir_at_poll dev i) ->
     let usData' := fst (vInitFEC_negotiated dev' usData0' s) in
     ((Z.land usData' PHY_ANLPAR_100BTX_FDX <> 0 \/ Z.land usData' PHY_ANLPAR_10BTX_FDX <> 0)
      <-> (Z.land usData PHY_ANLPAR_100BTX_FDX <> 0 \/
           Z.land usData PHY_ANLPAR_10BTX_FDX <> 0)) ->
     snd (vInitFEC_negotiated dev' usData0' s) = s').
Proof.
  intros [HF0 HF1] [HD0 HD1] usData s'.
  assert (Hadv : forall u, advertises_full_duplex u = true <->
     Z.land u PHY_ANLPAR_100BTX_FDX <> 0 \/ Z.land u PHY_ANLPAR_10BTX_FDX <> 0).
  { intros u. unfold advertises_full_duplex. rewrite orb_true_iff, !c_true_spec. tauto. }
  assert (Hdup : (configured_duplex s' = Full <-> advertises_full_duplex usData = true) /\
                 (Z.land (regs s' MCF_FEC_RCR) MCF_FEC_RCR_DRT <> 0
                  <-> configured_duplex s' = Half)).
  { subst usData s'. unfold vInitFEC_negotiated.
    destruct (fec_mii_read configPHY_ADDRESS PHY_ANLPAR dev s) as [[r w] t].
    destruct (negotiated_speed (stored w usData0));
      destruct (advertises_full_duplex (stored w usData0)) eqn:Eadv;
      cbn [fst snd]; rewrite ?Eadv; unfold configured_duplex;
      repeat (rewrite regs_write_same || rewrite regs_write_other by discriminate);
      rewrite !land_u32, ?land_lor_same, ?land_lnot_same by lia.
    all: rewrite ?(proj2 (c_true_spec MCF_FEC_TCR_FDEN)) by lia.
    all: change (c_true 0) with false.
    all: repeat split; try congruence; try lia. }
  destruct Hdup as [Hfull Hdrt].
  split; [apply vInitFEC_negotiated_word|].
  split; [now rewrite Hfull|]. split; [exact Hdrt|].
  split; [|split; [|split]].
  - intros H1. apply Hfull, Hadv. now left.
  - intros H1 H2 H3.
    destruct (configured_duplex s'); [|reflexivity].
    destruct (proj1 (Hadv usData) (proj1 Hfull eq_refl)); contradiction.
  - unfold configured_duplex. now rewrite vInitFEC_installed_TCR.
  - intros dev' usData0' Hq usData' Hsame.
    assert (Hb : advertises_full_duplex usData' = advertises_full_duplex usData).
    { destruct (advertises_full_duplex usData') eqn:E1;
        destruct (advertises_full_duplex usData) eqn:E2; try reflexivity.
      - apply Hadv, Hsame, Hadv in E1. congruence.
      - apply Hadv, Hsame, Hadv in E2. congruence. }
    subst usData usData' s'. revert Hb. unfold vInitFEC_negotiated.
    pose proof (fec_mii_read_state_ext configPHY_ADDRESS PHY_ANLPAR dev dev' s Hq) as Hst.
    destruct (fec_mii_read configPHY_ADDRESS PHY_ANLPAR dev' s) as [[r' w'] t'].
    destruct (fec_mii_read configPHY_ADDRESS PHY_ANLPAR dev s) as [[r w] t].
    cbn [snd] in Hst. subst t'.
    destruct (negotiated_speed (stored w' usData0'));
      destruct (negotiated_speed (stored w usData0));
      destruct (advertises_full_duplex (stored w' usData0')) eqn:E1;
      destruct (advertises_full_duplex (stored w usData0)) eqn:E2;
      cbn [fst snd]; rewrite ?E1, ?E2; intros Hb;
      try reflexivity; discriminate Hb.
Qed.

(** *** The indices stay in range *)

Lemma wf_usGetFECRxData s : wf s -> wf (snd (usGetFECRxData s)).
Proof. unfold usGetFECRxData. now destruct (_ && _). Qed.

Lemma wf_advance_cursor s :
  0 < configNUM_FEC_RX_BUFFERS < 2 ^ 32 -> wf s -> wf (advance_cursor s).
Proof.
  intros HN (Ha & Hc & Ho).
  pose proof (advance_cursor_spec s HN Hc) as Hcur.
  destruct (advance_cursor_rings s) as (A1 & A2 & _ & _ & A5 & _).
  repeat split; rewrite ?A1, ?A2, ?A5, ?Hcur;
    try apply Ha; try apply Ho; apply Z.mod_pos_bound; lia.
Qed.

Lemma wf_vDiscardRxData s :
  0 < configNUM_FEC_RX_BUFFERS < 2 ^ 32 -> wf s -> wf (vDiscardRxData s).
Proof.
  intros HN ([Ht Hr] & Hc & Ho). unfold vDiscardRxData.
  apply wf_advance_cursor; [exact HN|].
  repeat split; st; rewrite ?length_alter; assumption || lia.
Qed.

Lemma wf_prvResetFEC x s :
  0 < configNUM_FEC_RX_BUFFERS < 2 ^ 32 -> wf s -> wf (prvResetFEC x s).
Proof.
  intros HN (Ha & Hc & Ho).
  destruct (prvResetFEC_spec x s Ha) as (_ & _ & Hc' & Ho' & _); [lia|].
  split; [apply prvResetFEC_allocated; [exact Ha|lia]|].
  rewrite Hc', Ho'. split; [lia|exact Ho].
Qed.

Lemma wf_vSendBufferToFEC xTaken s :
  0 < configNUM_FEC_RX_BUFFERS < 2 ^ 32 -> wf s -> wf (vSendBufferToFEC xTaken s).
Proof.
  intros HN Hwf. destruct xTaken; [|now apply wf_vDiscardRxData].
  unfold vSendBufferToFEC.
  destruct (c_true _).
  - assert (Hwf' : wf (set_xTxSemaphore (token_taken (xTxSemaphore s)) s)) by exact Hwf.
    pose proof (wf_prvResetFEC pdFALSE _ HN Hwf') as Hr.
    set (t := prvResetFEC pdFALSE _) in *.
    destruct Hr as ([Ht Hr] & Hc & Ho). repeat split; st; assumption || lia.
  - destruct Hwf as ([Ht Hr] & Hc & Ho).
    match goal with
    | |- wf (write_reg _ _ (advance_cursor ?t)) =>
        assert (Ht1 : wf t)
    end.
    { repeat split; st; rewrite ?length_alter, ?u32_small by lia;
        assumption || lia. }
    apply (wf_advance_cursor _ HN) in Ht1. exact Ht1.
Qed.

Lemma wf_vFEC_ISR eir s :
  0 < configNUM_FEC_RX_BUFFERS < 2 ^ 32 -> wf s -> wf (vFEC_ISR eir s).
Proof.
  intros HN Hwf. unfold vFEC_ISR. cbv zeta.
  set (ulEvent := Z.land (u32 eir) (regs s MCF_FEC_EIMR)).
  set (rxev := c_true (Z.land ulEvent MCF_FEC_EIR_RXB)
               || c_true (Z.land ulEvent MCF_FEC_EIR_RXF)).
  set (txev := c_true (Z.land ulEvent MCF_FEC_EIR_TXF)
               || c_true (Z.land ulEvent MCF_FEC_EIR_TXB)).
  set (fatal := c_true (Z.land ulEvent fatal_events)).
  set (t := if rxev then _ else _).
  assert (Ht : wf t) by (subst t; destruct rxev; exact Hwf).
  set (t2 := if fatal then _ else _).
  assert (Ht2 : wf t2)
    by (subst t2; destruct fatal; [now apply wf_prvResetFEC|exact Ht]).
  destruct txev; [|exact Ht2].
  destruct Ht2 as ([Htx Hrx] & Hc & Ho).
  repeat split; st; rewrite ?length_alter; assumption || lia.
Qed.

(** Every operation of the driver and of its neighbours keeps the rings at
    their size and both indices inside the receive ring. *)
Lemma wf_step s o :
  0 < configNUM_FEC_RX_BUFFERS < 2 ^ 32 -> wf s -> wf (step s o).
Proof.
  intros HN Hwf. destruct o; cbn [step].
  - now apply wf_usGetFECRxData.
  - now apply wf_vDiscardRxData.
  - now apply wf_vSendBufferToFEC.
  - now apply wf_vFEC_ISR.
  - exact Hwf.
  - destruct Hwf as ([Ht Hr] & Hc & Ho).
    repeat split; st; rewrite ?length_alter; assumption || lia.
  - destruct Hwf as ([Ht Hr] & Hc & Ho).
    repeat split; st; rewrite ?length_alter; assumption || lia.
Qed.

Lemma wf_run ops : forall s,
  0 < configNUM_FEC_RX_BUFFERS < 2 ^ 32 -> wf s -> wf (run ops s).
Proof.
  induction ops as [|o ops IH]; intros s HN Hwf; [exact Hwf|].
  apply IH; [exact HN|]. now apply wf_step.
Qed.

(** On the receiving side only [vDiscardRxData] moves the cursor. *)
Lemma rx_side_cursor s o :
  0 < configNUM_FEC_RX_BUFFERS < 2 ^ 32 ->
  0 <= uxNextRxBuffer s < configNUM_FEC_RX_BUFFERS ->
  rx_side o = true ->
  uxNextRxBuffer (step s o)
  = (uxNextRxBuffer s + (if is_release o then 1 else 0)) mod configNUM_FEC_RX_BUFFERS.
Proof.
  intros HN Hc Hside.
  destruct o; try discriminate; cbn [step is_release];
    rewrite ?Z.add_0_r, ?usGetFECRxData_cursor;
    try (now apply vDiscardRxData_cursor);
    symmetry; now apply Z.mod_small.
Qed.

Lemma rx_side_run_cursor ops : forall s,
  0 < configNUM_FEC_RX_BUFFERS < 2 ^ 32 ->
  0 <= uxNextRxBuffer s < configNUM_FEC_RX_BUFFERS ->
  forallb rx_side ops = true ->
  uxNextRxBuffer (run ops s)
  = (uxNextRxBuffer s + Z.of_nat (length (List.filter is_release ops)))
      mod configNUM_FEC_RX_BUFFERS.
Proof.
  induction ops as [|o ops IH]; intros s HN Hc Hall.
  - cbn. rewrite Z.add_0_r. symmetry. now apply Z.mod_small.
  - cbn [forallb] in Hall. apply andb_true_iff in Hall as [Ho Hall].
    cbn [run fold_left]. fold (run ops (step s o)).
    pose proof (rx_side_cursor s o HN Hc Ho) as Hstep.
    rewrite IH; [|exact HN| |exact Hall].
    + rewrite Hstep, Z.add_mod_idemp_l by lia. f_equal.
      cbn [List.filter]. destruct (is_release o); cbn [length]; lia.
    + rewrite Hstep. apply Z.mod_pos_bound. lia.
Qed.

(** C5.  [vDiscardRxData] marks the descriptor under the cursor
    hardware-owned and moves the cursor from [i] to [(i+1) mod N]; over [k]
    receive/release cycles started with the cursor at 0 the cursor visits
    [i mod N] for [i = 0, 1, ..., k], always inside [0 .. N-1].  The same
    holds with uIP and the device at work in between: after any run of the
    receiving side the cursor is the number of releases modulo [N] past
    where it started. *)
Theorem cursor_advances_modulo_ring_depth (s : state) (k : nat) :
  allocated s -> config_ok -> flag16 RX_BD_E ->
  0 <= uxNextRxBuffer s < configNUM_FEC_RX_BUFFERS ->
  rx_hw_owned (rx_at (vDiscardRxData s) (uxNextRxBuffer s)) = true /\
  uxNextRxBuffer (vDiscardRxData s)
    = (uxNextRxBuffer s + 1) mod configNUM_FEC_RX_BUFFERS /\
  (uxNextRxBuffer s = 0 ->
     cursor_trail k s
       = map (fun i => Z.of_nat i mod configNUM_FEC_RX_BUFFERS) (seq 0 (S k)) /\
     Forall (fun c => 0 <= c < configNUM_FEC_RX_BUFFERS) (cursor_trail k s)) /\
  (forall ops, forallb rx_side ops = true ->
     uxNextRxBuffer (run ops s)
     = (uxNextRxBuffer s + Z.of_nat (length (List.filter is_release ops)))
         mod configNUM_FEC_RX_BUFFERS).
Proof.
  intros [_ Hlen] [HN _] HE Hc. split; [|split; [|split]].
  - unfold rx_at. rewrite vDiscardRxData_RxRing.
    rewrite list_lookup_total_alter_eq by lia.
    now apply or_status_owned.
  - now apply vDiscardRxData_cursor.
  - intros H0.
    assert (Htrail : cursor_trail k s
              = map (fun i => Z.of_nat i mod configNUM_FEC_RX_BUFFERS) (seq 0 (S k))).
    { unfold cursor_trail. apply map_ext. intros i.
      rewrite rx_cycles_cursor by assumption. now rewrite H0. }
    split; [exact Htrail|].
    rewrite Htrail. apply List.Forall_map, List.Forall_forall.
    intros i _. apply Z.mod_pos_bound. lia.
  - intros ops Hops. now apply rx_side_run_cursor.
Qed.

(** ** Further properties of the driver *)

(** *** Alignment of the rings and buffers *)

(** X1.  The alignment loop of [prvInitialiseFECBuffers] stops on the first
    16-byte boundary at or above its start, at most 15 bytes further; an
    aligned pointer is left where it is. *)
Theorem alignment_loop_finds_next_boundary (p : Z) :
  align16 p mod 16 = 0 /\
  p <= align16 p < p + 16 /\
  (forall q, p <= q -> q mod 16 = 0 -> align16 p <= q) /\
  (p mod 16 = 0 -> align16 p = p) /\
  align16 (align16 p) = align16 p.
Proof.
  assert (Hmod : forall x, align16 x mod 16 = 0).
  { intros x. destruct (align16_spec x) as [Hal _].
    change 15 with (Z.ones 4) in Hal. rewrite Z.land_ones in Hal by lia. exact Hal. }
  assert (Hleast : forall x q, x <= q -> q mod 16 = 0 -> align16 x <= q).
  { intros x q Hq Hq0. destruct (align16_spec x) as [_ Hr].
    pose proof (Hmod x) as Hm.
    apply Z.mod_divide in Hq0; [|lia]. destruct Hq0 as [a Ha].
    apply Z.mod_divide in Hm; [|lia]. destruct Hm as [c Hc]. lia. }
  assert (Hfix : forall x, x mod 16 = 0 -> align16 x = x).
  { intros x Hx. destruct (align16_spec x) as [_ Hr].
    pose proof (Hleast x x ltac:(lia) Hx). lia. }
  split; [apply Hmod|]. split; [apply align16_spec|].
  split; [apply Hleast|]. split; [apply Hfix|]. apply Hfix, Hmod.
Qed.

(** X2.  After [prvInitialiseFECBuffers] both ring pointers lie on a
    16-byte boundary inside the 16 spare bytes of their arrays, and when the
    buffer size is a multiple of 16 every receive buffer starts on a 16-byte
    boundary. *)
Theorem initialised_pointers_are_aligned (s : state) :
  allocated s -> 0 < configNUM_FEC_RX_BUFFERS ->
  configFEC_BUFFER_SIZE mod 16 = 0 ->
  let s' := prvInitialiseFECBuffers s in
  xFECTxDescriptors s' mod 16 = 0 /\
  xFECTxDescriptors_unaligned <= xFECTxDescriptors s' < xFECTxDescriptors_unaligned + 16 /\
  xFECRxDescriptors s' mod 16 = 0 /\
  xFECRxDescriptors_unaligned <= xFECRxDescriptors s' < xFECRxDescriptors_unaligned + 16 /\
  (forall i, 0 <= i < configNUM_FEC_RX_BUFFERS ->
     FECBD.data (rx_at s' i) mod 16 = 0).
Proof.
  intros Ha HN HB s'.
  assert (Hmod : forall p, align16 p mod 16 = 0).
  { intros p. destruct (align16_spec p) as [Hal _].
    change 15 with (Z.ones 4) in Hal. rewrite Z.land_ones in Hal by lia. exact Hal. }
  subst s'. rewrite init_rings by assumption. cbn [xFECTxDescriptors xFECRxDescriptors].
  split; [apply Hmod|]. split; [apply align16_spec|].
  split; [apply Hmod|]. split; [apply align16_spec|].
  intros i Hi. rewrite <- (init_rings s) by assumption.
  rewrite init_rx_at by assumption. unfold rx_after_init. cbn [FECBD.data].
  rewrite Z.add_mod, Hmod, Z.mul_mod, HB by lia.
  rewrite Z.mul_0_r. reflexivity.
Qed.

(** *** Receive ring *)

(** X3.  [usGetFECRxData] does not consume: a second call returns the same
    length and leaves the same state as the first. *)
Theorem poll_does_not_consume (s : state) :
  usGetFECRxData (snd (usGetFECRxData s)) = usGetFECRxData s.
Proof.
  unfold usGetFECRxData.
  destruct (negb (FECBD.length (rx_at s (uxNextRxBuffer s)) =? 0)
            && (Z.land (FECBD.status (rx_at s (uxNextRxBuffer s))) RX_BD_E =? 0)) eqn:E;
    cbn [snd]; [|now rewrite E].
  unfold rx_at. st. fold (rx_at s (uxNextRxBuffer s)). now rewrite E.
Qed.

Lemma releases_own_visited k : forall s,
  allocated s -> 0 < configNUM_FEC_RX_BUFFERS < 2 ^ 32 -> flag16 RX_BD_E ->
  0 <= uxNextRxBuffer s < configNUM_FEC_RX_BUFFERS ->
  let s' := Nat.iter k vDiscardRxData s in
  allocated s' /\
  uxNextRxBuffer s' = (uxNextRxBuffer s + Z.of_nat k) mod configNUM_FEC_RX_BUFFERS /\
  TxRing s' = TxRing s /\
  (forall j, 0 <= j < Z.of_nat k ->
     rx_hw_owned (rx_at s' ((uxNextRxBuffer s + j) mod configNUM_FEC_RX_BUFFERS)) = true).
Proof.
  induction k as [|k IH]; intros s Ha HN HE Hc s'.
  - subst s'. cbn. repeat split; try apply Ha.
    + rewrite Z.add_0_r. symmetry. now apply Z.mod_small.
    + intros j Hj. lia.
  - subst s'. rewrite Nat.iter_succ.
    destruct (IH s Ha HN HE Hc) as (Hak & Hck & Htk & Hok).
    set (t := Nat.iter k vDiscardRxData s) in *.
    assert (Hct : 0 <= uxNextRxBuffer t < configNUM_FEC_RX_BUFFERS)
      by (rewrite Hck; apply Z.mod_pos_bound; lia).
    assert (Hring := vDiscardRxData_RxRing t).
    split; [|split; [|split]].
    + destruct Hak as [Ht Hr]. split.
      * unfold vDiscardRxData.
        rewrite (proj1 (advance_cursor_rings _)). exact Ht.
      * rewrite Hring, length_alter. exact Hr.
    + rewrite vDiscardRxData_cursor, Hck by assumption.
      rewrite Z.add_mod_idemp_l by lia. f_equal. lia.
    + unfold vDiscardRxData. rewrite (proj1 (advance_cursor_rings _)). exact Htk.
    + intros j Hj. unfold rx_at. rewrite Hring.
      destruct (Z.eq_dec j (Z.of_nat k)) as [->|Hne].
      * rewrite <- Hck. rewrite list_lookup_total_alter_eq by (destruct Hak; lia).
        now apply or_status_owned.
      * apply rx_owned_after_or; [|exact HE]. apply Hok. lia.
Qed.

(** X4.  A full turn: [configNUM_FEC_RX_BUFFERS] calls of [vDiscardRxData]
    in a row bring the cursor back to where it was and leave every receive
    descriptor hardware-owned, whatever the ring held; the transmit ring is
    not touched. *)
Theorem full_turn_of_releases (s : state) :
  allocated s -> config_ok -> flag16 RX_BD_E ->
  0 <= uxNextRxBuffer s < configNUM_FEC_RX_BUFFERS ->
  let s' := Nat.iter (Z.to_nat configNUM_FEC_RX_BUFFERS) vDiscardRxData s in
  uxNextRxBuffer s' = uxNextRxBuffer s /\
  (forall i, 0 <= i < configNUM_FEC_RX_BUFFERS -> rx_hw_owned (rx_at s' i) = true) /\
  TxRing s' = TxRing s /\
  fst (usGetFECRxData s') = 0.
Proof.
  intros Ha [HN _] HE Hc s'.
  destruct (releases_own_visited (Z.to_nat configNUM_FEC_RX_BUFFERS) s Ha HN HE Hc)
    as (_ & Hcur & Htx & Hown).
  fold s' in Hcur, Htx, Hown. rewrite Z2Nat.id in Hcur, Hown by lia.
  assert (Hc' : uxNextRxBuffer s' = uxNextRxBuffer s).
  { rewrite Hcur. rewrite <- Z.add_mod_idemp_r, Z.mod_same, Z.add_0_r by lia.
    now apply Z.mod_small. }
  assert (Hall : forall i, 0 <= i < configNUM_FEC_RX_BUFFERS ->
                   rx_hw_owned (rx_at s' i) = true).
  { intros i Hi.
    specialize (Hown ((i - uxNextRxBuffer s) mod configNUM_FEC_RX_BUFFERS)).
    rewrite Z.add_mod_idemp_r in Hown by lia.
    replace (uxNextRxBuffer s + (i - uxNextRxBuffer s)) with i in Hown by lia.
    rewrite (Z.mod_small i) in Hown by lia.
    apply Hown. apply Z.mod_pos_bound. lia. }
  split; [exact Hc'|]. split; [exact Hall|]. split; [exact Htx|].
  unfold usGetFECRxData.
  specialize (Hall (uxNextRxBuffer s') ltac:(rewrite Hc'; exact Hc)).
  unfold rx_hw_owned in Hall. apply c_true_spec in Hall.
  apply Z.eqb_neq in Hall. rewrite Hall, andb_false_r. reflexivity.
Qed.

(** X5.  Whatever the driver, uIP, the device and the interrupt handler do,
    in any order, the rings keep their sizes and both indices into the
    receive ring stay in range: no operation reads or writes a descriptor
    outside its array. *)
Theorem indices_stay_in_range (ops : list op) (s : state) :
  0 < configNUM_FEC_RX_BUFFERS < 2 ^ 32 -> wf s ->
  wf (run ops s) /\
  (Z.to_nat (uxNextRxBuffer (run ops s)) < length (RxRing (run ops s)))%nat /\
  (Z.to_nat (uxIndexToBufferOwner (run ops s)) < length (RxRing (run ops s)))%nat /\
  (Z.to_nat fecTX_BUFFER_TO_USE < length (TxRing (run ops s)))%nat.
Proof.
  intros HN Hwf. pose proof (wf_run ops s HN Hwf) as Hr.
  split; [exact Hr|]. destruct Hr as ([Ht Hl] & Hc & Ho).
  rewrite Ht, Hl. unfold fecTX_BUFFER_TO_USE, fecNUM_FEC_TX_BUFFERS.
  repeat split; lia.
Qed.

(** *** Reset *)

(** X6.  A reset throws away every frame that waits in the ring: after
    [prvResetFEC], from either context, [usGetFECRxData] finds nothing and
    changes nothing. *)
Theorem poll_after_reset_is_empty (x : Z) (s : state) :
  allocated s -> 0 < configNUM_FEC_RX_BUFFERS -> rx_flags_ok ->
  usGetFECRxData (prvResetFEC x s) = (0, prvResetFEC x s).
Proof.
  intros Ha HN Hrx.
  destruct (prvResetFEC_spec x s Ha HN) as (_ & _ & Hc & _).
  pose proof (reset_rx_at x s 0 Ha ltac:(lia)) as H0.
  pose proof (rx_after_init_owned (Z.to_nat 0) Hrx) as Hown.
  rewrite <- H0 in Hown. unfold rx_hw_owned in Hown.
  apply c_true_spec, Z.eqb_neq in Hown.
  unfold usGetFECRxData. rewrite Hc, Hown, andb_false_r. reflexivity.
Qed.

(** X7.  The two contexts of [prvResetFEC] differ in the critical section
    and in nothing else: the task-context reset emits what the
    interrupt-context reset emits, between the entry to and the exit from
    one critical section, and both leave the same rings, cursor, registers,
    semaphores and donor index; any non-zero argument counts as interrupt
    context. *)
Theorem reset_contexts_differ_in_critical_section (x : Z) (s : state) :
  allocated s -> 0 < configNUM_FEC_RX_BUFFERS -> x <> pdFALSE ->
  let t := prvResetFEC pdFALSE s in
  let i := prvResetFEC x s in
  emitted s t = [EnterCritical] ++ emitted s i ++ [ExitCritical] /\
  Forall (fun e => e <> EnterCritical /\ e <> ExitCritical) (emitted s i) /\
  same_vars i t /\
  (forall r, regs t r = regs i r) /\
  xTxSemaphore i = xTxSemaphore s /\ xFECSemaphore i = xFECSemaphore s /\
  uxIndexToBufferOwner i = uxIndexToBufferOwner s.
Proof.
  intros Ha HN Hx t i.
  destruct (prvResetFEC_spec pdFALSE s Ha HN) as (T1 & T2 & T3 & T4 & T5 & T6 & T7 & _).
  destruct (prvResetFEC_spec x s Ha HN) as (I1 & I2 & I3 & I4 & I5 & I6 & I7 & _).
  fold t in T1, T2, T3, T4, T5, T6, T7. fold i in I1, I2, I3, I4, I5, I6, I7.
  apply Z.eqb_neq in Hx. rewrite Hx in I7.
  change (pdFALSE =? pdFALSE) with true in T7. cbn [app] in T7, I7.
  assert (Hei : emitted s i =
            [RegWrite MCF_FEC_ECR (u32 MCF_FEC_ECR_RESET);
             RegWrite MCF_FEC_ECR (u32 MCF_FEC_ECR_ETHER_EN);
             RegWrite MCF_FEC_RDAR (u32 MCF_FEC_RDAR_R_DES_ACTIVE)]).
  { unfold emitted. rewrite I7. apply drop_app_length. }
  split; [|split; [|split; [|split]]].
  - rewrite Hei. unfold emitted. rewrite T7. apply drop_app_length.
  - rewrite Hei. repeat constructor; discriminate.
  - assert (Hptr : xFECTxDescriptors t = xFECTxDescriptors i /\
                   xFECRxDescriptors t = xFECRxDescriptors i /\
                   uip_buf t = uip_buf i /\ uip_len t = uip_len i).
    { subst t i. unfold prvResetFEC. cbv zeta. rewrite Hx.
      change (pdFALSE =? pdFALSE) with true. cbv iota.
      rewrite (init_rings (taskENTER_CRITICAL s)), (init_rings s) by assumption.
      repeat split. }
    destruct Hptr as (P1 & P2 & P3 & P4).
    unfold same_vars. rewrite T1, T2, T3, T4, T5, T6, I1, I2, I3, I4, I5, I6.
    repeat split; assumption.
  - intros r. subst t i. unfold prvResetFEC. cbv zeta. rewrite Hx.
    change (pdFALSE =? pdFALSE) with true. cbv iota.
    rewrite (init_rings (taskENTER_CRITICAL s)), (init_rings s) by assumption.
    reflexivity.
  - repeat split; assumption.
Qed.

(** *** Interrupt handler: masking and semaphores *)

Lemma pending_idem eir s : pending (pending eir s) s = pending eir s.
Proof.
  unfold pending. apply Z.bits_inj'. intros n Hn.
  rewrite !Z.land_spec. unfold u32.
  destruct (Z.ltb_spec n 32).
  - rewrite (Z.mod_pow2_bits_low (Z.land _ _)), Z.land_spec by lia.
    destruct (Z.testbit (eir mod 2 ^ 32) n), (Z.testbit (regs s MCF_FEC_EIMR) n);
      reflexivity.
  - rewrite !Z.mod_pow2_bits_high by lia. reflexivity.
Qed.

(** X8.  [vFEC_ISR] acts on the unmasked events and on nothing else: two
    contents of the event register that agree on the bits enabled in
    [MCF_FEC_EIMR] lead to the same state, and when no enabled bit is set
    the handler writes 0 to the event register and does nothing more. *)
Theorem handler_acts_on_unmasked_events_only (eir : Z) (s : state) :
  vFEC_ISR eir s = vFEC_ISR (pending eir s) s /\
  (forall eir', pending eir' s = pending eir s -> vFEC_ISR eir' s = vFEC_ISR eir s) /\
  (pending eir s = 0 -> vFEC_ISR eir s = write_reg MCF_FEC_EIR 0 s).
Proof.
  assert (Hdep : forall e1 e2, pending e1 s = pending e2 s ->
                   vFEC_ISR e1 s = vFEC_ISR e2 s).
  { intros e1 e2 H. unfold vFEC_ISR. cbv zeta.
    fold (pending e1 s). fold (pending e2 s). now rewrite H. }
  split; [|split].
  - apply Hdep. symmetry. apply pending_idem.
  - intros eir' H. now apply Hdep.
  - intros H0. unfold vFEC_ISR. cbv zeta. fold (pending eir s).
    rewrite H0, !Z.land_0_l. reflexivity.
Qed.

(** X9.  What [vFEC_ISR] does to the two semaphores: the receive semaphore
    is given exactly on a receive event and the transmit semaphore exactly
    on a transmit-complete event, and otherwise each is left as it was.  In
    particular a fatal event without transmit-complete resets the device
    and reclaims the transmit descriptor, but does not give the transmit
    semaphore.  The donor index is never changed. *)
Theorem handler_semaphore_contract (eir : Z) (s : state) :
  allocated s -> 0 < configNUM_FEC_RX_BUFFERS -> tx_flags_ok ->
  let ev := pending eir s in
  let s' := vFEC_ISR eir s in
  xFECSemaphore s' = (if rx_event ev then true else xFECSemaphore s) /\
  xTxSemaphore s' = (if tx_complete ev then true else xTxSemaphore s) /\
  uxIndexToBufferOwner s' = uxIndexToBufferOwner s /\
  (c_true (Z.land ev fatal_events) = true -> tx_complete ev = false ->
     tx_hw_owned (tx_at s' fecTX_BUFFER_TO_USE) = false /\
     xTxSemaphore s' = xTxSemaphore s).
Proof.
  intros Ha HN Htx ev s'.
  assert (Hmain :
    xFECSemaphore s' = (if rx_event ev then true else xFECSemaphore s) /\
    xTxSemaphore s' = (if tx_complete ev then true else xTxSemaphore s) /\
    uxIndexToBufferOwner s' = uxIndexToBufferOwner s).
  { subst s'. unfold vFEC_ISR. cbv zeta. fold (pending eir s). fold ev.
    fold (rx_event ev). fold (tx_complete ev).
    set (t := if rx_event ev then _ else _).
    assert (Hat : allocated t) by (subst t; destruct (rx_event ev); exact Ha).
    assert (Ht1 : xFECSemaphore t = (if rx_event ev then true else xFECSemaphore s))
      by (subst t; destruct (rx_event ev); reflexivity).
    assert (Ht2 : xTxSemaphore t = xTxSemaphore s)
      by (subst t; destruct (rx_event ev); reflexivity).
    assert (Ht3 : uxIndexToBufferOwner t = uxIndexToBufferOwner s)
      by (subst t; destruct (rx_event ev); reflexivity).
    destruct (prvResetFEC_spec pdTRUE t Hat HN)
      as (_ & _ & _ & Ho & Hx & Hf & _).
    set (u := if c_true (Z.land ev fatal_events) then _ else _).
    assert (Hu : xFECSemaphore u = xFECSemaphore t /\ xTxSemaphore u = xTxSemaphore t /\
                 uxIndexToBufferOwner u = uxIndexToBufferOwner t)
      by (subst u; destruct (c_true (Z.land ev fatal_events)); auto).
    destruct Hu as (U1 & U2 & U3).
    destruct (tx_complete ev); st; rewrite ?U1, ?U2, ?U3, ?Ht1, ?Ht2, ?Ht3;
      repeat split. }
  destruct Hmain as (M1 & M2 & M3).
  split; [exact M1|]. split; [exact M2|]. split; [exact M3|].
  intros Hf Hc. rewrite Hc in M2. split; [|exact M2].
  destruct (vFEC_ISR_fatal eir s Ha HN Hf) as (Ht & _).
  fold s' in Ht. unfold tx_at. rewrite Ht. now apply tx_after_init_sw_owned.
Qed.

(** *** MII management frames: timing and footprint *)

Lemma same_vars_refl s : same_vars s s.
Proof. repeat split. Qed.

Lemma same_vars_trans s t u : same_vars s t -> same_vars t u -> same_vars s u.
Proof.
  unfold same_vars. intros H1 H2.
  destruct H1 as (A1 & A2 & A3 & A4 & A5 & A6 & A7 & A8 & A9 & A10).
  destruct H2 as (B1 & B2 & B3 & B4 & B5 & B6 & B7 & B8 & B9 & B10).
  repeat split; congruence.
Qed.

Lemma same_vars_write_reg r v s : same_vars s (write_reg r v s).
Proof. repeat split. Qed.


Lemma same_vars_log e s : same_vars s (log e s).
Proof. repeat split. Qed.

(** The poll loop leaves at the first poll that sees the flag, or runs out. *)
Lemma mii_poll_exit dev n : forall timeout s k,
  timeout <= k <= timeout + Z.of_nat n ->
  (forall i, timeout <= i < k -> Z.land (eir_at_poll dev i) MCF_FEC_EIR_MII = 0) ->
  (k < timeout + Z.of_nat n -> Z.land (eir_at_poll dev k) MCF_FEC_EIR_MII <> 0) ->
  fst (mii_poll dev n timeout s) = k.
Proof.
  induction n as [|n IH]; intros timeout s k Hk Hq Hflag; cbn [mii_poll]; [cbn; lia|].
  destruct (Z.eq_dec k timeout) as [->|Hne].
  - rewrite (proj2 (c_true_spec _)) by (apply Hflag; lia). reflexivity.
  - rewrite (proj2 (c_true_false _)) by (apply Hq; lia).
    apply IH; [lia| |].
    + intros i Hi. apply Hq. lia.
    + intros Hlt. apply Hflag. lia.
Qed.

(** It delays once for each poll that missed and does nothing else. *)
Lemma mii_poll_trace dev n : forall timeout s,
  trace (snd (mii_poll dev n timeout s))
  = trace s ++ repeat (TaskDelay fecMII_DELAY)
                      (Z.to_nat (fst (mii_poll dev n timeout s) - timeout)) /\
  same_vars s (snd (mii_poll dev n timeout s)).
Proof.
  induction n as [|n IH]; intros timeout s; cbn [mii_poll].
  - cbn [fst snd]. rewrite Z.sub_diag. cbn. rewrite app_nil_r.
    split; [reflexivity|apply same_vars_refl].
  - destruct (c_true _).
    + cbn [fst snd]. rewrite Z.sub_diag. cbn. rewrite app_nil_r.
      split; [reflexivity|apply same_vars_refl].
    + destruct (IH (timeout + 1) (vTaskDelay fecMII_DELAY s)) as [Ht Hv].
      pose proof (mii_poll_range dev n (timeout + 1) (vTaskDelay fecMII_DELAY s)) as Hr.
      split.
      * rewrite Ht.
        replace (Z.to_nat (fst (mii_poll dev n (timeout + 1) (vTaskDelay fecMII_DELAY s))
                           - timeout))
          with (S (Z.to_nat (fst (mii_poll dev n (timeout + 1)
                                    (vTaskDelay fecMII_DELAY s)) - (timeout + 1))))
          by lia.
        cbn [repeat]. unfold vTaskDelay, log. cbn [trace].
        rewrite <- app_assoc. reflexivity.
      * eapply same_vars_trans; [|exact Hv]. apply same_vars_log.
Qed.

Lemma fec_mii_read_footprint phy_addr reg_addr dev s :
  let s' := snd (fec_mii_read phy_addr reg_addr dev s) in
  same_vars s s' /\
  (forall r, r <> MCF_FEC_EIR -> r <> MCF_FEC_MMFR -> r <> MCF_FEC_EIMR ->
     regs s' r = regs s r).
Proof.
  intros s'. subst s'. unfold fec_mii_read.
  match goal with
  | |- context [mii_poll dev ?n 0 ?t] =>
      pose proof (proj2 (mii_poll_trace dev n 0 t)) as Hv;
      pose proof (mii_poll_regs dev n 0 t) as Hr;
      destruct (mii_poll dev n 0 t) as [timeout t']
  end.
  cbn [snd] in Hv, Hr.
  destruct (timeout =? fecMAX_POLLS); cbn [snd]; (split;
    [ eapply same_vars_trans; [|apply same_vars_write_reg];
      eapply same_vars_trans; [|apply same_vars_write_reg];
      eapply same_vars_trans; [|exact Hv];
      eapply same_vars_trans; [|apply same_vars_write_reg];
      eapply same_vars_trans; [|apply same_vars_write_reg];
      apply same_vars_write_reg
    | intros r H1 H2 H3;
      rewrite !regs_write_other by congruence; rewrite Hr;
      rewrite !regs_write_other by congruence; reflexivity ]).
Qed.

Lemma fec_mii_write_footprint phy_addr reg_addr data dev s :
  let s' := snd (fec_mii_write phy_addr reg_addr data dev s) in
  same_vars s s' /\
  (forall r, r <> MCF_FEC_EIR -> r <> MCF_FEC_MMFR -> r <> MCF_FEC_EIMR ->
     regs s' r = regs s r).
Proof.
  intros s'. subst s'. unfold fec_mii_write.
  match goal with
  | |- context [mii_poll dev ?n 0 ?t] =>
      pose proof (proj2 (mii_poll_trace dev n 0 t)) as Hv;
      pose proof (mii_poll_regs dev n 0 t) as Hr;
      destruct (mii_poll dev n 0 t) as [timeout t']
  end.
  cbn [snd] in Hv, Hr. cbn [snd]. split.
  - eapply same_vars_trans; [|apply same_vars_write_reg].
    eapply same_vars_trans; [|apply same_vars_write_reg].
    eapply same_vars_trans; [|exact Hv].
    eapply same_vars_trans; [|apply same_vars_write_reg].
    eapply same_vars_trans; [|apply same_vars_write_reg].
    apply same_vars_write_reg.
  - intros r H1 H2 H3.
    rewrite !regs_write_other by congruence. rewrite Hr.
    rewrite !regs_write_other by congruence. reflexivity.
Qed.

(** X10.  What a management frame costs: when the PHY raises the completion
    flag at poll [k] and not before, [fec_mii_write] and [fec_mii_read]
    delay [k] times for [fecMII_DELAY] ticks between sending the frame and
    acknowledging the flag, and [k] is [fecMAX_POLLS] when the flag never
    comes; [fec_mii_write] returns 0 in that case and 1 otherwise.  The
    frame is sent with the MII interrupt masked, and the mask register is
    written back afterwards. *)
Theorem management_frame_timing (phy_addr reg_addr data : Z) (dev : mii_device)
  (s : state) (k : Z) :
  0 <= k <= fecMAX_POLLS ->
  (forall i, 0 <= i < k -> Z.land (eir_at_poll dev i) MCF_FEC_EIR_MII = 0) ->
  (k < fecMAX_POLLS -> Z.land (eir_at_poll dev k) MCF_FEC_EIR_MII <> 0) ->
  let frame_of op tail :=
    [RegWrite MCF_FEC_EIR (u32 MCF_FEC_EIR_MII);
     RegWrite MCF_FEC_EIMR (u32 (Z.land (regs s MCF_FEC_EIMR) (Z.lnot MCF_FEC_EIMR_MII)));
     RegWrite MCF_FEC_MMFR (u32 (tail (Z.lor (Z.lor (Z.lor (Z.lor
        MCF_FEC_MMFR_ST_01 op) (MCF_FEC_MMFR_PA phy_addr)) (MCF_FEC_MMFR_RA reg_addr))
        MCF_FEC_MMFR_TA_10)))]
    ++ repeat (TaskDelay fecMII_DELAY) (Z.to_nat k)
    ++ [RegWrite MCF_FEC_EIR (u32 MCF_FEC_EIR_MII);
        RegWrite MCF_FEC_EIMR (u32 (regs s MCF_FEC_EIMR))] in
  fst (fec_mii_write phy_addr reg_addr data dev s) = (if k =? fecMAX_POLLS then 0 else 1) /\
  emitted s (snd (fec_mii_write phy_addr reg_addr data dev s))
    = frame_of MCF_FEC_MMFR_OP_WRITE (fun f => Z.lor f (MCF_FEC_MMFR_DATA data)) /\
  fst (fst (fec_mii_read phy_addr reg_addr dev s)) = (if k =? fecMAX_POLLS then 0 else 1) /\
  emitted s (snd (fec_mii_read phy_addr reg_addr dev s))
    = frame_of MCF_FEC_MMFR_OP_READ (fun f => f).
Proof.
  intros Hk Hq Hflag frame_of.
  assert (Hexit : forall t, fst (mii_poll dev (Z.to_nat fecMAX_POLLS) 0 t) = k).
  { intros t. apply mii_poll_exit.
    - change (Z.of_nat (Z.to_nat fecMAX_POLLS)) with fecMAX_POLLS. lia.
    - intros i Hi. apply Hq. lia.
    - change (Z.of_nat (Z.to_nat fecMAX_POLLS)) with fecMAX_POLLS. intros H.
      apply Hflag. lia. }
  subst frame_of. cbv beta.
  unfold fec_mii_write, fec_mii_read, emitted.
  match goal with
  | |- context [mii_poll dev ?n 0 ?t] =>
      pose proof (proj1 (mii_poll_trace dev n 0 t)) as Hw;
      pose proof (Hexit t) as Ew;
      destruct (mii_poll dev n 0 t) as [tw sw]
  end.
  match goal with
  | |- context [mii_poll dev ?n 0 ?t] =>
      pose proof (proj1 (mii_poll_trace dev n 0 t)) as Hr;
      pose proof (Hexit t) as Er;
      destruct (mii_poll dev n 0 t) as [tr sr]
  end.
  cbn [fst snd] in Hw, Ew, Hr, Er. subst tw tr. rewrite Z.sub_0_r in Hw, Hr.
  split; [reflexivity|]. split; [|split].
  - cbn [snd]. st. rewrite Hw. st.
    destruct (reg_eq_dec MCF_FEC_EIR MCF_FEC_EIMR) as [E|_]; [discriminate E|].
    rewrite <- !app_assoc. cbn [app]. apply drop_app_length.
  - destruct (k =? fecMAX_POLLS); reflexivity.
  - destruct (k =? fecMAX_POLLS); cbn [snd]; st; rewrite Hr; st;
      (destruct (reg_eq_dec MCF_FEC_EIR MCF_FEC_EIMR) as [E|_]; [discriminate E|]);
      rewrite <- !app_assoc; cbn [app]; apply drop_app_length.
Qed.

(** X11.  A management frame touches the MII registers only: after
    [fec_mii_read] or [fec_mii_write], whether it completed or timed out,
    the rings, the cursor, the donor index, uIP's buffer and both
    semaphores are as before, the interrupt mask holds its previous value,
    and every register other than the event, frame and mask registers is
    unchanged. *)
Theorem management_frame_footprint (phy_addr reg_addr data : Z) (dev : mii_device)
  (s : state) :
  let r := snd (fec_mii_read phy_addr reg_addr dev s) in
  let w := snd (fec_mii_write phy_addr reg_addr data dev s) in
  same_vars s r /\ same_vars s w /\
  regs r MCF_FEC_EIMR = u32 (regs s MCF_FEC_EIMR) /\
  regs w MCF_FEC_EIMR = u32 (regs s MCF_FEC_EIMR) /\
  (forall x, x <> MCF_FEC_EIR -> x <> MCF_FEC_MMFR -> x <> MCF_FEC_EIMR ->
     regs r x = regs s x /\ regs w x = regs s x).
Proof.
  intros r w.
  destruct (fec_mii_read_footprint phy_addr reg_addr dev s) as [R1 R2].
  destruct (fec_mii_write_footprint phy_addr reg_addr data dev s) as [W1 W2].
  split; [exact R1|]. split; [exact W1|].
  split; [apply fec_mii_read_restores_mask|].
  split; [apply fec_mii_write_restores_mask|].
  intros x H1 H2 H3. split; [now apply R2|now apply W2].
Qed.

(** *** Station address *)

Lemma lor_high_low x lo n :
  0 <= n -> x mod 2 ^ n = 0 -> 0 <= lo < 2 ^ n -> Z.lor x lo = x + lo.
Proof.
  intros Hn Hx Hlo.
  assert (Hd : Z.land x lo = 0).
  { apply Z.bits_inj'. intros i Hi. rewrite Z.land_spec, Z.bits_0.
    destruct (Z.ltb_spec i n).
    - rewrite <- (Z.mod_pow2_bits_low x n i) by lia.
      rewrite Hx, Z.bits_0. reflexivity.
    - destruct (Z.eq_dec lo 0) as [->|Hne];
        [rewrite Z.bits_0; apply andb_false_r|].
      rewrite (Z.bits_above_log2 lo i), andb_false_r; [reflexivity|lia|].
      apply Z.log2_lt_pow2; [lia|].
      eapply Z.lt_le_trans; [apply Hlo|]. apply Z.pow_le_mono_r; lia. }
  rewrite <- Z.lxor_lor by exact Hd. symmetry. apply Z.add_nocarry_lxor. exact Hd.
Qed.

(** X12.  [fec_set_address] packs the six bytes of the station address,
    most significant first, into [MCF_FEC_PALR] (bytes 0 to 3) and the
    upper half of [MCF_FEC_PAUR] (bytes 4 and 5), the lower half being 0:
    each byte can be read back from its field. *)
Theorem station_address_round_trip (pa : list Z) (s : state) :
  let b i := u8 (nth i pa 0) in
  let s' := fec_set_address pa s in
  let palr := regs s' MCF_FEC_PALR in
  let paur := regs s' MCF_FEC_PAUR in
  palr = b 0%nat * 2 ^ 24 + b 1%nat * 2 ^ 16 + b 2%nat * 2 ^ 8 + b 3%nat /\
  paur = b 4%nat * 2 ^ 24 + b 5%nat * 2 ^ 16 /\
  [Z.shiftr palr 24; Z.land (Z.shiftr palr 16) 0xFF; Z.land (Z.shiftr palr 8) 0xFF;
   Z.land palr 0xFF; Z.shiftr paur 24; Z.land (Z.shiftr paur 16) 0xFF]
  = [b 0%nat; b 1%nat; b 2%nat; b 3%nat; b 4%nat; b 5%nat] /\
  Z.land paur 0xFFFF = 0.
Proof.
  intros b s' palr paur.
  pose proof (u8_range (nth 0 pa 0)) as R0. pose proof (u8_range (nth 1 pa 0)) as R1.
  pose proof (u8_range (nth 2 pa 0)) as R2. pose proof (u8_range (nth 3 pa 0)) as R3.
  pose proof (u8_range (nth 4 pa 0)) as R4. pose proof (u8_range (nth 5 pa 0)) as R5.
  fold (b 0%nat) in R0. fold (b 1%nat) in R1. fold (b 2%nat) in R2.
  fold (b 3%nat) in R3. fold (b 4%nat) in R4. fold (b 5%nat) in R5.
  change (2 ^ 8) with 256 in *.
  assert (Hl : palr = b 0%nat * 2 ^ 24 + b 1%nat * 2 ^ 16 + b 2%nat * 2 ^ 8 + b 3%nat).
  { subst palr s'. unfold fec_set_address. cbv zeta. fold (b 0%nat) (b 1%nat) (b 2%nat)
      (b 3%nat) (b 4%nat) (b 5%nat).
    destruct (32 <=? Hash.fec_hash_address pa);
      rewrite !regs_write_other by discriminate; rewrite regs_write_same;
      rewrite !Z.shiftl_mul_pow2, Z.pow_0_r, Z.mul_1_r by lia;
      rewrite (lor_high_low (b 0%nat * 2 ^ 24) (b 1%nat * 2 ^ 16) 24)
        by (try apply Z.mod_mul; lia);
      rewrite (lor_high_low _ (b 2%nat * 2 ^ 8) 16)
        by (try (replace (b 0%nat * 2 ^ 24 + b 1%nat * 2 ^ 16)
                   with ((b 0%nat * 2 ^ 8 + b 1%nat) * 2 ^ 16) by ring;
                 apply Z.mod_mul); lia);
      rewrite (lor_high_low _ (b 3%nat) 8)
        by (try (replace (b 0%nat * 2 ^ 24 + b 1%nat * 2 ^ 16 + b 2%nat * 2 ^ 8)
                   with ((b 0%nat * 2 ^ 16 + b 1%nat * 2 ^ 8 + b 2%nat) * 2 ^ 8) by ring;
                 apply Z.mod_mul); lia);
      apply u32_small; lia. }
  assert (Hu : paur = b 4%nat * 2 ^ 24 + b 5%nat * 2 ^ 16).
  { subst paur s'. unfold fec_set_address. cbv zeta. fold (b 0%nat) (b 1%nat) (b 2%nat)
      (b 3%nat) (b 4%nat) (b 5%nat).
    destruct (32 <=? Hash.fec_hash_address pa);
      rewrite !regs_write_other by discriminate; rewrite regs_write_same;
      rewrite !Z.shiftl_mul_pow2 by lia;
      rewrite (lor_high_low (b 4%nat * 2 ^ 24) (b 5%nat * 2 ^ 16) 24)
        by (try apply Z.mod_mul; lia);
      apply u32_small; lia. }
  split; [exact Hl|]. split; [exact Hu|].
  rewrite Hl, Hu. rewrite !Z.shiftr_div_pow2 by lia.
  change 0xFF with (Z.ones 8). change 0xFFFF with (Z.ones 16).
  rewrite !Z.land_ones by lia.
  change (2 ^ 24) with 16777216. change (2 ^ 16) with 65536. change (2 ^ 8) with 256.
  split.
  - repeat f_equal; Z.div_mod_to_equations; lia.
  - Z.div_mod_to_equations; lia.
Qed.

(** *** Interrupt controller *)





Lemma prvEnableFECInterrupts_keeps_other s r :
  (forall x, MCF_INTC0_ICR x <> r) -> MCF_INTC0_IMRH <> r -> MCF_INTC0_IMRL <> r ->
  MCF_FEC_EIR <> r -> MCF_FEC_EIMR <> r ->
  regs (prvEnableFECInterrupts s) r = regs s r.
Proof.
  intros H1 H2 H3 H4 H5. unfold prvEnableFECInterrupts. cbv zeta.
  rewrite !regs_write_other by assumption.
  now apply icr_loop_keeps.
Qed.




(** *** The receive control register after bring-up *)

(** X14.  The duplex bit that the decoding of the link puts into the
    receive control register does not outlast bring-up: [vInitFEC] assigns
    [MCF_FEC_RCR] anew afterwards, so when it ends
    [MCF_FEC_RCR_DRT] is clear whatever was negotiated, half duplex
    included, while the transmit side keeps the duplex that was decoded. *)
Theorem receive_duplex_bit_is_overwritten (dev : mii_device) (usData : Z) (s : state) :
  flag32 MCF_FEC_RCR_DRT ->
  Z.land (MCF_FEC_RCR_MAX_FL ETH_MAX_FRM) MCF_FEC_RCR_DRT = 0 ->
  Z.land MCF_FEC_RCR_FCE MCF_FEC_RCR_DRT = 0 ->
  Z.land MCF_FEC_RCR_MII_MODE MCF_FEC_RCR_DRT = 0 ->
  Z.land MCF_FEC_RCR_PROM MCF_FEC_RCR_DRT = 0 ->
  let decoded := snd (vInitFEC_negotiated dev usData s) in
  let s' := vInitFEC_installed decoded in
  Z.land (regs s' MCF_FEC_RCR) MCF_FEC_RCR_DRT = 0 /\
  regs s' MCF_FEC_RCR = regs (vInitFEC_installed s) MCF_FEC_RCR /\
  regs s' MCF_FEC_TCR = regs decoded MCF_FEC_TCR.
Proof.
  intros [HD0 HD1] Hfl Hfce Hmii Hprom decoded s'.
  subst s'. rewrite !vInitFEC_installed_RCR, vInitFEC_installed_TCR. cbv zeta.
  split; [|split; reflexivity].
  destruct (configUSE_PROMISCUOUS_MODE =? 1).
  - rewrite land_u32, land_lor_other by (lia || assumption).
    rewrite land_u32, land_lor_other by (lia || assumption).
    rewrite land_u32, land_lor_other by (lia || assumption). exact Hfl.
  - rewrite land_u32, land_lor_other by (lia || assumption).
    rewrite land_u32, land_lor_other by (lia || assumption). exact Hfl.
Qed.

(** *** Bring-up: the waits of [vInitFEC] *)

Lemma fec_mii_read_silent phy_addr reg_addr dev s :
  silent dev -> fst (fec_mii_read phy_addr reg_addr dev s) = (0, None).
Proof.
  intros Hq. unfold fec_mii_read.
  match goal with
  | |- context [mii_poll dev ?n 0 ?t] =>
      pose proof (mii_poll_timeout dev n 0 t) as Hto;
      destruct (mii_poll dev n 0 t) as [timeout t']
  end.
  cbn [fst] in Hto. rewrite Hto; [reflexivity|].
  intros i Hi. apply Hq.
  change (Z.of_nat (Z.to_nat fecMAX_POLLS)) with fecMAX_POLLS in Hi. lia.
Qed.

Lemma fec_mii_read_answers phy_addr reg_addr dev s w :
  answers dev w -> fst (fec_mii_read phy_addr reg_addr dev s) = (1, Some w).
Proof.
  intros [(k & Hk & Hflag) Hw]. unfold fec_mii_read.
  match goal with
  | |- context [mii_poll dev ?n 0 ?t] =>
      pose proof (mii_poll_completed dev n 0 t k) as Hdone;
      destruct (mii_poll dev n 0 t) as [timeout t']
  end.
  cbn [fst] in Hdone.
  change (Z.of_nat (Z.to_nat fecMAX_POLLS)) with fecMAX_POLLS in Hdone.
  destruct (Z.eqb_spec timeout fecMAX_POLLS) as [->|Hne];
    [exfalso; lia|cbn [fst]; now rewrite Hw].
Qed.

Lemma link_read_same_vars reg_addr dev s :
  same_vars s (snd (fec_mii_read configPHY_ADDRESS reg_addr dev
                      (vTaskDelay fecLINK_DELAY s))).
Proof.
  eapply same_vars_trans; [apply (same_vars_log (TaskDelay fecLINK_DELAY))|].
  apply fec_mii_read_footprint.
Qed.

Lemma phy_present_loop_step fuel phy k s :
  phy_present_loop (S fuel) phy k s =
  let r := fec_mii_read configPHY_ADDRESS PHY_PHYIDR1 (phy k)
             (vTaskDelay fecLINK_DELAY s) in
  let usData := stored (snd (fst r)) 0 in
  if usData =? 0xffff
  then phy_present_loop fuel phy (S k) (snd r)
  else Some (usData, S k, snd r).
Proof.
  cbn [phy_present_loop].
  destruct (fec_mii_read configPHY_ADDRESS PHY_PHYIDR1 (phy k) _) as [[i w] t].
  reflexivity.
Qed.

Lemma phy_present_loop_waits phy n : forall fuel k s w,
  (forall j, (j < n)%nat -> answers (phy (k + j)%nat) 0xffff) ->
  (silent (phy (k + n)%nat) /\ w = 0 \/ answers (phy (k + n)%nat) w /\ w <> 0xffff) ->
  (n < fuel)%nat ->
  exists s', phy_present_loop fuel phy k s = Some (w, S (k + n), s') /\ same_vars s s'.
Proof.
  induction n as [|n IH]; intros fuel k s w Habs Hend Hfuel;
    (destruct fuel as [|fuel]; [lia|]); rewrite phy_present_loop_step; cbv zeta.
  - rewrite Nat.add_0_r in *. destruct Hend as [[Hs ->]|[Ha Hw]].
    + rewrite fec_mii_read_silent by exact Hs. cbn [snd stored].
      change (0 =? 0xffff) with false. cbv iota.
      eexists. split; [reflexivity|apply link_read_same_vars].
    + rewrite (fec_mii_read_answers _ _ _ _ w) by exact Ha. cbn [snd stored].
      destruct (Z.eqb_spec w 0xffff); [contradiction|].
      eexists. split; [reflexivity|apply link_read_same_vars].
  - rewrite (fec_mii_read_answers _ _ _ _ 0xffff)
      by (specialize (Habs 0%nat ltac:(lia)); now rewrite Nat.add_0_r in Habs).
    cbn [snd stored]. change (0xffff =? 0xffff) with true. cbv iota.
    destruct (IH fuel (S k) (snd (fec_mii_read configPHY_ADDRESS PHY_PHYIDR1 (phy k)
                                    (vTaskDelay fecLINK_DELAY s))) w)
      as (s' & E & V).
    + intros j Hj. replace (S k + j)%nat with (k + S j)%nat by lia. apply Habs. lia.
    + replace (S k + n)%nat with (k + S n)%nat by lia. exact Hend.
    + lia.
    + exists s'. split.
      * rewrite E. replace (S k + n)%nat with (k + S n)%nat by lia. reflexivity.
      * eapply same_vars_trans; [apply link_read_same_vars|exact V].
Qed.

Lemma phy_present_loop_absent phy fuel : forall k s,
  (forall j, (j < fuel)%nat -> answers (phy (k + j)%nat) 0xffff) ->
  phy_present_loop fuel phy k s = None.
Proof.
  induction fuel as [|fuel IH]; intros k s Habs; [reflexivity|].
  rewrite phy_present_loop_step. cbv zeta.
  rewrite (fec_mii_read_answers _ _ _ _ 0xffff)
    by (specialize (Habs 0%nat ltac:(lia)); now rewrite Nat.add_0_r in Habs).
  cbn [snd stored]. change (0xffff =? 0xffff) with true. cbv iota.
  apply IH. intros j Hj. replace (S k + j)%nat with (k + S j)%nat by lia.
  apply Habs. lia.
Qed.

Lemma an_complete_loop_step fuel phy k u s :
  an_complete_loop (S fuel) phy k u s =
  let r := fec_mii_read configPHY_ADDRESS PHY_BMSR (phy k)
             (vTaskDelay fecLINK_DELAY s) in
  let usData := stored (snd (fst r)) u in
  if negb (c_true (Z.land usData PHY_BMSR_AN_COMPLETE))
  then an_complete_loop fuel phy (S k) usData (snd r)
  else Some (usData, S k, snd r).
Proof.
  cbn [an_complete_loop].
  destruct (fec_mii_read configPHY_ADDRESS PHY_BMSR (phy k) _) as [[i w] t].
  reflexivity.
Qed.

Lemma an_complete_loop_waits phy m : forall fuel k u s w,
  (forall j, (j < m)%nat ->
     exists v, answers (phy (k + j)%nat) v /\ Z.land v PHY_BMSR_AN_COMPLETE = 0) ->
  answers (phy (k + m)%nat) w -> Z.land w PHY_BMSR_AN_COMPLETE <> 0 ->
  (m < fuel)%nat ->
  exists s', an_complete_loop fuel phy k u s = Some (w, S (k + m), s') /\ same_vars s s'.
Proof.
  induction m as [|m IH]; intros fuel k u s w Hbusy Hend Hw Hfuel;
    (destruct fuel as [|fuel]; [lia|]); rewrite an_complete_loop_step; cbv zeta.
  - rewrite Nat.add_0_r in *.
    rewrite (fec_mii_read_answers _ _ _ _ w) by exact Hend. cbn [snd stored].
    rewrite (proj2 (c_true_spec _) Hw). cbn [negb].
    eexists. split; [reflexivity|apply link_read_same_vars].
  - destruct (Hbusy 0%nat ltac:(lia)) as (v & Hv & Hv0).
    rewrite Nat.add_0_r in Hv.
    rewrite (fec_mii_read_answers _ _ _ _ v) by exact Hv. cbn [snd stored].
    rewrite (proj2 (c_true_false _) Hv0). cbn [negb].
    destruct (IH fuel (S k) v (snd (fec_mii_read configPHY_ADDRESS PHY_BMSR (phy k)
                                      (vTaskDelay fecLINK_DELAY s))) w)
      as (s' & E & V).
    + intros j Hj. replace (S k + j)%nat with (k + S j)%nat by lia. apply Hbusy. lia.
    + replace (S k + m)%nat with (k + S m)%nat by lia. exact Hend.
    + exact Hw.
    + lia.
    + exists s'. split.
      * rewrite E. replace (S k + m)%nat with (k + S m)%nat by lia. reflexivity.
      * eapply same_vars_trans; [apply link_read_same_vars|exact V].
Qed.

Lemma an_complete_loop_busy phy fuel : forall k u s,
  (forall j, (j < fuel)%nat ->
     exists v, answers (phy (k + j)%nat) v /\ Z.land v PHY_BMSR_AN_COMPLETE = 0) ->
  an_complete_loop fuel phy k u s = None.
Proof.
  induction fuel as [|fuel IH]; intros k u s Hbusy; [reflexivity|].
  rewrite an_complete_loop_step. cbv zeta.
  destruct (Hbusy 0%nat ltac:(lia)) as (v & Hv & Hv0).
  rewrite Nat.add_0_r in Hv.
  rewrite (fec_mii_read_answers _ _ _ _ v) by exact Hv. cbn [snd stored].
  rewrite (proj2 (c_true_false _) Hv0). cbn [negb].
  apply IH. intros j Hj. replace (S k + j)%nat with (k + S j)%nat by lia.
  apply Hbusy. lia.
Qed.

Lemma an_complete_loop_dead phy fuel : forall k u s,
  (forall j, silent (phy (k + j)%nat)) -> Z.land u PHY_BMSR_AN_COMPLETE = 0 ->
  an_complete_loop fuel phy k u s = None.
Proof.
  induction fuel as [|fuel IH]; intros k u s Hs Hu; [reflexivity|].
  rewrite an_complete_loop_step. cbv zeta.
  rewrite fec_mii_read_silent
    by (specialize (Hs 0%nat); now rewrite Nat.add_0_r in Hs).
  cbn [snd stored]. rewrite (proj2 (c_true_false _) Hu). cbn [negb].
  apply IH; [|exact Hu]. intros j.
  replace (S k + j)%nat with (k + S j)%nat by lia. apply Hs.
Qed.

(** X15.  The wait for the PHY at the start of [vInitFEC]: while the
    identifier reads as 0xffff the loop delays and reads again, and it
    leaves on the first reading that is different.  A read that times out
    counts as such a reading, since the variable was set to 0 before the
    call: a management interface that does not answer is taken for a PHY
    that is there.  The loop changes no variable of the driver. *)
Theorem presence_wait_ends_on_first_other_reading (phy : nat -> mii_device)
  (n fuel : nat) (s : state) (w : Z) :
  (forall j, (j < n)%nat -> answers (phy j) 0xffff) ->
  (silent (phy n) /\ w = 0 \/ answers (phy n) w /\ w <> 0xffff) ->
  (fuel <= n -> phy_present_loop fuel phy 0 s = None)%nat /\
  (n < fuel ->
   exists s', phy_present_loop fuel phy 0 s = Some (w, S n, s') /\ same_vars s s')%nat.
Proof.
  intros Habs Hend. split.
  - intros Hfuel. apply phy_present_loop_absent.
    intros j Hj. apply Habs. lia.
  - intros Hfuel. apply (phy_present_loop_waits phy n fuel 0%nat s w); auto.
Qed.

(** X16.  The wait for the end of autonegotiation: the loop delays and
    reads the status register until a reading has
    [PHY_BMSR_AN_COMPLETE], and yields that reading.  A read that times out
    leaves [usData] as it was, so the test is then made on the word of the
    previous read: with the bit set there the wait ends at once without a
    status having been read, and with the bit clear and the interface
    silent from then on the wait does not end. *)
Theorem autonegotiation_wait (phy : nat -> mii_device) (k m fuel : nat)
  (u : Z) (s : state) (w : Z) :
  (forall j, (j < m)%nat ->
     exists v, answers (phy (k + j)%nat) v /\ Z.land v PHY_BMSR_AN_COMPLETE = 0) ->
  answers (phy (k + m)%nat) w -> Z.land w PHY_BMSR_AN_COMPLETE <> 0 ->
  (fuel <= m -> an_complete_loop fuel phy k u s = None)%nat /\
  (m < fuel ->
   exists s', an_complete_loop fuel phy k u s = Some (w, S (k + m), s') /\
              same_vars s s')%nat /\
  (forall phy' u' fuel', silent (phy' k) -> Z.land u' PHY_BMSR_AN_COMPLETE <> 0 ->
     exists s', an_complete_loop (S fuel') phy' k u' s = Some (u', S k, s') /\
                same_vars s s') /\
  (forall phy' u' fuel', (forall j, silent (phy' (k + j)%nat)) ->
     Z.land u' PHY_BMSR_AN_COMPLETE = 0 ->
     an_complete_loop fuel' phy' k u' s = None).
Proof.
  intros Hbusy Hend Hw. split; [|split; [|split]].
  - intros Hfuel. apply an_complete_loop_busy. intros j Hj. apply Hbusy. lia.
  - intros Hfuel. now apply an_complete_loop_waits.
  - intros phy' u' fuel' Hs Hu. rewrite an_complete_loop_step. cbv zeta.
    rewrite fec_mii_read_silent by exact Hs. cbn [snd stored].
    rewrite (proj2 (c_true_spec _) Hu). cbn [negb].
    eexists. split; [reflexivity|apply link_read_same_vars].
  - intros phy' u' fuel' Hs Hu. now apply an_complete_loop_dead.
Qed.

(** X17.  [vInitFEC] does not return when the management interface never
    completes a frame, and it does not return when the PHY identifier
    keeps reading as 0xffff: in the first case it is the wait for
    autonegotiation that never ends, the wait for the PHY having been left
    after one silent read; in the second the wait for the PHY. *)
Theorem bring_up_does_not_return_without_phy (phy : nat -> mii_device) (b : board) :
  (forall k, silent (phy k)) \/ (forall k, answers (phy k) 0xffff) ->
  forall fuel, vInitFEC fuel phy b = None.
Proof.
  intros [Hs|Ha] fuel; unfold vInitFEC; cbv zeta.
  - destruct fuel as [|fuel]; [reflexivity|].
    destruct (phy_present_loop_waits phy 0 (S fuel) 0%nat
                (fec (vInitFEC_hardware b)) 0) as (s' & E & _);
      [intros j Hj; lia|left; split; [apply Hs|reflexivity]|lia|].
    rewrite E. unfold autonegotiate.
    destruct (fec_mii_write configPHY_ADDRESS PHY_BMCR _ _ s') as [i t].
    rewrite an_complete_loop_dead; [reflexivity| |apply Z.land_0_l].
    intros j. apply Hs.
  - rewrite phy_present_loop_absent; [reflexivity|]. intros j _. apply Ha.
Qed.

(** *** Bring-up as a whole *)



Lemma fec_set_address_same_vars pa s : same_vars s (fec_set_address pa s).
Proof.
  unfold fec_set_address. cbv zeta.
  destruct (32 <=? Hash.fec_hash_address pa); repeat split.
Qed.


Lemma trace_write_reg r v s : trace (write_reg r v s) = trace s ++ [RegWrite r (u32 v)].
Proof. reflexivity. Qed.

Lemma pointers_write_reg r v s :
  xFECRxDescriptors (write_reg r v s) = xFECRxDescriptors s /\
  xFECTxDescriptors (write_reg r v s) = xFECTxDescriptors s.
Proof. split; reflexivity. Qed.

Lemma fec_set_address_keeps_other pa s r :
  r <> MCF_FEC_PALR -> r <> MCF_FEC_PAUR -> r <> MCF_FEC_IAUR -> r <> MCF_FEC_IALR ->
  regs (fec_set_address pa s) r = regs s r.
Proof.
  intros H1 H2 H3 H4. unfold fec_set_address. cbv zeta.
  destruct (32 <=? Hash.fec_hash_address pa);
    rewrite !regs_write_other by congruence; reflexivity.
Qed.

(** The state in which [vInitFEC] calls [prvEnableFECInterrupts]. *)
Lemma vInitFEC_installed_unfold s :
  exists t,
    vInitFEC_installed s
    = write_reg MCF_FEC_RDAR MCF_FEC_RDAR_R_DES_ACTIVE
        (write_reg MCF_FEC_ECR MCF_FEC_ECR_ETHER_EN (prvEnableFECInterrupts t)) /\
    same_vars s t /\
    regs t MCF_FEC_ERDSR = u32 (xFECRxDescriptors s) /\
    regs t MCF_FEC_ETSDR = u32 (xFECTxDescriptors s) /\
    regs t MCF_FEC_EMRBR = u32 (u16 configFEC_BUFFER_SIZE) /\
    regs t MCF_FEC_GALR = 0 /\ regs t MCF_FEC_GAUR = 0.
Proof.
  unfold vInitFEC_installed. cbv zeta.
  set (s4 := write_reg MCF_FEC_GAUR 0 (write_reg MCF_FEC_GALR 0
               (write_reg MCF_FEC_IAUR 0 (write_reg MCF_FEC_IALR 0 s)))).
  set (mac := [u8 configMAC_0; u8 configMAC_1; u8 configMAC_2;
               u8 configMAC_3; u8 configMAC_4; u8 configMAC_5]).
  set (s5 := fec_set_address mac s4).
  assert (V5 : same_vars s s5).
  { subst s5 s4. eapply same_vars_trans; [|apply fec_set_address_same_vars].
    repeat split. }
  assert (G1 : regs s5 MCF_FEC_GALR = 0).
  { subst s5 s4. rewrite fec_set_address_keeps_other by discriminate.
    rewrite regs_write_other by discriminate. apply regs_write_same. }
  assert (G2 : regs s5 MCF_FEC_GAUR = 0).
  { subst s5 s4. rewrite fec_set_address_keeps_other by discriminate.
    apply regs_write_same. }
  clearbody s5. clear s4.
  set (s6 := write_reg MCF_FEC_EMRBR (u16 configFEC_BUFFER_SIZE) s5).
  set (s7 := write_reg MCF_FEC_ERDSR (xFECRxDescriptors s6) s6).
  set (s8 := write_reg MCF_FEC_ETSDR (xFECTxDescriptors s7) s7).
  set (s9 := write_reg MCF_FEC_RCR _
               (write_reg MCF_FEC_RCR _
                  (write_reg MCF_FEC_EIR (-1) (write_reg MCF_FEC_EIMR (-1) s8)))).
  destruct V5 as (A1 & A2 & A3 & A4 & A5 & A6 & A7 & A8 & A9 & A10).
  assert (V9 : same_vars s s9) by (repeat split; assumption).
  assert (R9 : regs s9 MCF_FEC_ERDSR = u32 (xFECRxDescriptors s) /\
               regs s9 MCF_FEC_ETSDR = u32 (xFECTxDescriptors s) /\
               regs s9 MCF_FEC_EMRBR = u32 (u16 configFEC_BUFFER_SIZE) /\
               regs s9 MCF_FEC_GALR = 0 /\ regs s9 MCF_FEC_GAUR = 0).
  { subst s9 s8 s7 s6. split; [|split; [|split; [|split]]].
    - rewrite !regs_write_other by discriminate. rewrite regs_write_same.
      rewrite (proj1 (pointers_write_reg _ _ _)), A4. reflexivity.
    - rewrite !regs_write_other by discriminate. rewrite regs_write_same.
      rewrite !(proj2 (pointers_write_reg _ _ _)), A3. reflexivity.
    - rewrite !regs_write_other by discriminate. apply regs_write_same.
    - rewrite !regs_write_other by discriminate. exact G1.
    - rewrite !regs_write_other by discriminate. exact G2. }
  clearbody s9.
  destruct R9 as (R1 & R2 & R3 & R4 & R5).
  destruct (configUSE_PROMISCUOUS_MODE =? 1).
  - eexists. split; [reflexivity|]. split.
    + eapply same_vars_trans; [exact V9|apply same_vars_write_reg].
    + rewrite !regs_write_other by discriminate. repeat split; assumption.
  - exists s9. split; [reflexivity|]. split; [exact V9|]. repeat split; assumption.
Qed.

(** The registers the rest of bring-up leaves programmed. *)
Lemma vInitFEC_installed_regs s :
  let s' := vInitFEC_installed s in
  regs s' MCF_FEC_ERDSR = u32 (xFECRxDescriptors s) /\
  regs s' MCF_FEC_ETSDR = u32 (xFECTxDescriptors s) /\
  regs s' MCF_FEC_EMRBR = u32 (u16 configFEC_BUFFER_SIZE) /\
  regs s' MCF_FEC_EIMR = u32 MCF_FEC_EIMR_UNMASK_ALL /\
  regs s' MCF_FEC_ECR = u32 MCF_FEC_ECR_ETHER_EN /\
  regs s' MCF_FEC_GALR = 0 /\ regs s' MCF_FEC_GAUR = 0 /\
  List.last (trace s') EnterCritical
  = RegWrite MCF_FEC_RDAR (u32 MCF_FEC_RDAR_R_DES_ACTIVE).
Proof.
  intros s'. subst s'.
  destruct (vInitFEC_installed_unfold s) as (t & -> & _ & R1 & R2 & R3 & R4 & R5).
  split; [|split; [|split; [|split; [|split; [|split; [|split]]]]]].
  - rewrite !regs_write_other by discriminate.
    rewrite prvEnableFECInterrupts_keeps_other by discriminate. exact R1.
  - rewrite !regs_write_other by discriminate.
    rewrite prvEnableFECInterrupts_keeps_other by discriminate. exact R2.
  - rewrite !regs_write_other by discriminate.
    rewrite prvEnableFECInterrupts_keeps_other by discriminate. exact R3.
  - rewrite !regs_write_other by discriminate.
    unfold prvEnableFECInterrupts. cbv zeta. apply regs_write_same.
  - rewrite regs_write_other by discriminate. apply regs_write_same.
  - rewrite !regs_write_other by discriminate.
    rewrite prvEnableFECInterrupts_keeps_other by discriminate. exact R4.
  - rewrite !regs_write_other by discriminate.
    rewrite prvEnableFECInterrupts_keeps_other by discriminate. exact R5.
  - rewrite trace_write_reg. apply last_last.
Qed.









(** *** The on-chip PHY control register during bring-up *)

(** X19.  The four assignments [vInitFEC] makes to [MCF_EPHY_EPHYCTL0]:
    the PHY clocks are disabled by the first, but the second, which keeps
    of the register only the bit [MCF_EPHY_EPHYCTL0_ANDIS], clears both
    disable bits again before the PHY is enabled; the register holds
    exactly [MCF_EPHY_EPHYCTL0_EPHYEN] when the enable is written and when
    bring-up goes on, so that autonegotiation is left enabled. *)
Theorem ephy_control_sequence (b : board) :
  0 <= MCF_EPHY_EPHYCTL0_EPHYEN < 2 ^ 8 ->
  Z.land (Z.lor MCF_EPHY_EPHYCTL0_DIS100 MCF_EPHY_EPHYCTL0_DIS10)
         MCF_EPHY_EPHYCTL0_ANDIS = 0 ->
  Z.land MCF_EPHY_EPHYCTL0_EPHYEN
         (Z.lor MCF_EPHY_EPHYCTL0_DIS100 MCF_EPHY_EPHYCTL0_DIS10) = 0 ->
  let b' := vInitFEC_hardware b in
  List.filter to_EPHYCTL0 (drop (length (periph_trace b)) (periph_trace b'))
  = [(MCF_EPHY_EPHYCTL0, u8 (Z.lor MCF_EPHY_EPHYCTL0_DIS100 MCF_EPHY_EPHYCTL0_DIS10));
     (MCF_EPHY_EPHYCTL0, 0);
     (MCF_EPHY_EPHYCTL0, MCF_EPHY_EPHYCTL0_EPHYEN);
     (MCF_EPHY_EPHYCTL0, MCF_EPHY_EPHYCTL0_EPHYEN)] /\
  periph b' MCF_EPHY_EPHYCTL0 = MCF_EPHY_EPHYCTL0_EPHYEN /\
  Z.land (periph b' MCF_EPHY_EPHYCTL0) MCF_EPHY_EPHYCTL0_ANDIS
  = Z.land MCF_EPHY_EPHYCTL0_EPHYEN MCF_EPHY_EPHYCTL0_ANDIS.
Proof.
  intros Hen Hdis Hend b'.
  set (dis := Z.lor MCF_EPHY_EPHYCTL0_DIS100 MCF_EPHY_EPHYCTL0_DIS10) in *.
  assert (H2 : u8 (Z.land (u8 dis) MCF_EPHY_EPHYCTL0_ANDIS) = 0).
  { assert (Hz : Z.land (u8 dis) MCF_EPHY_EPHYCTL0_ANDIS = 0); [|now rewrite Hz].
    apply Z.bits_inj'. intros i Hi. rewrite Z.land_spec, Z.bits_0. unfold u8.
    assert (Hb : Z.testbit (Z.land dis MCF_EPHY_EPHYCTL0_ANDIS) i = false)
      by (rewrite Hdis; apply Z.bits_0).
    rewrite Z.land_spec in Hb.
    destruct (Z.ltb_spec i 8).
    - rewrite Z.mod_pow2_bits_low by lia. exact Hb.
    - rewrite Z.mod_pow2_bits_high by lia. reflexivity. }
  assert (H3 : u8 (Z.lor MCF_EPHY_EPHYCTL0_EPHYEN 0) = MCF_EPHY_EPHYCTL0_EPHYEN).
  { rewrite Z.lor_0_r. unfold u8. apply Z.mod_small. exact Hen. }
  assert (H4 : u8 (Z.land MCF_EPHY_EPHYCTL0_EPHYEN (Z.lnot dis)) = MCF_EPHY_EPHYCTL0_EPHYEN).
  { assert (Hz : Z.land MCF_EPHY_EPHYCTL0_EPHYEN (Z.lnot dis) = MCF_EPHY_EPHYCTL0_EPHYEN).
    { apply Z.bits_inj'. intros i Hi. rewrite Z.land_spec, Z.lnot_spec by lia.
      assert (Hb : Z.testbit (Z.land MCF_EPHY_EPHYCTL0_EPHYEN dis) i = false)
        by (rewrite Hend; apply Z.bits_0).
      rewrite Z.land_spec in Hb.
      destruct (Z.testbit MCF_EPHY_EPHYCTL0_EPHYEN i), (Z.testbit dis i);
        try reflexivity; discriminate. }
    rewrite Hz. unfold u8. apply Z.mod_small. exact Hen. }
  assert (Hval : periph b' MCF_EPHY_EPHYCTL0 = MCF_EPHY_EPHYCTL0_EPHYEN).
  { subst b'. unfold vInitFEC_hardware. cbv zeta.
    cbn [periph on_fec write_periph8 write_periph32 uip_setethaddr for_loop].
    repeat (destruct (periph_eq_dec MCF_EPHY_EPHYCTL0 MCF_EPHY_EPHYCTL0) as [_|Hne];
            [|congruence]).
    fold dis. rewrite H2, H3. exact H4. }
  split; [|split; [exact Hval|now rewrite Hval]].
  subst b'. unfold vInitFEC_hardware. cbv zeta.
  cbn [periph periph_trace on_fec write_periph8 write_periph32 uip_setethaddr for_loop].
  repeat (destruct (periph_eq_dec MCF_EPHY_EPHYCTL0 MCF_EPHY_EPHYCTL0) as [_|Hne];
          [|congruence]).
  fold dis. rewrite H2, H3, H4.
  rewrite <- !app_assoc. cbn [app]. rewrite drop_app_length.
  reflexivity.
Qed.

(** *** The address filter after bring-up *)

Lemma vInitFEC_installed_hash s r :
  r = MCF_FEC_IAUR \/ r = MCF_FEC_IALR ->
  regs (vInitFEC_installed s) r
  = regs (fec_set_address ucMACAddress
            (write_reg MCF_FEC_GAUR 0 (write_reg MCF_FEC_GALR 0
               (write_reg MCF_FEC_IAUR 0 (write_reg MCF_FEC_IALR 0 s))))) r.
Proof.
  intros Hr. unfold vInitFEC_installed. cbv zeta.
  rewrite !regs_write_other by (destruct Hr; subst r; discriminate).
  rewrite prvEnableFECInterrupts_keeps_other by (destruct Hr; subst r; discriminate).
  destruct (configUSE_PROMISCUOUS_MODE =? 1);
    rewrite !regs_write_other by (destruct Hr; subst r; discriminate); reflexivity.
Qed.

End Driver.

(** ** The address hash *)

Lemma testbit_above_u32 a n : 0 <= a < 2 ^ 32 -> 32 <= n -> Z.testbit a n = false.
Proof.
  intros Ha Hn. rewrite <- (Z.mod_small a (2 ^ 32)) by exact Ha.
  apply Z.mod_pow2_bits_high. lia.
Qed.

Lemma lxor_range32 a b :
  0 <= a < 2 ^ 32 -> 0 <= b < 2 ^ 32 -> 0 <= Z.lxor a b < 2 ^ 32.
Proof.
  intros Ha Hb.
  assert (H : Z.lxor a b = u32 (Z.lxor a b)).
  { apply Z.bits_inj'. intros n Hn. unfold u32.
    destruct (Z.ltb_spec n 32).
    - now rewrite Z.mod_pow2_bits_low by lia.
    - rewrite Z.mod_pow2_bits_high by lia.
      now rewrite Z.lxor_spec, !testbit_above_u32 by (assumption || lia). }
  rewrite H. apply u32_range.
Qed.

Lemma shiftr1_range32 crc : 0 <= crc < 2 ^ 32 -> 0 <= Z.shiftr crc 1 < 2 ^ 31.
Proof.
  intros H. rewrite Z.shiftr_div_pow2 by lia. change (2 ^ 1) with 2.
  split; [apply Z.div_pos; lia|apply Z.div_lt_upper_bound; lia].
Qed.

Lemma crc32_shift_range crc bit :
  0 <= crc < 2 ^ 32 -> 0 <= Hash.crc32_shift crc bit < 2 ^ 32.
Proof.
  intros H. unfold Hash.crc32_shift. pose proof (shiftr1_range32 crc H).
  apply lxor_range32; [lia|].
  destruct (xorb _ _); unfold Hash.crc32_poly; lia.
Qed.

Lemma crc32_fold_range bits : forall crc,
  0 <= crc < 2 ^ 32 -> 0 <= fold_left Hash.crc32_shift bits crc < 2 ^ 32.
Proof.
  induction bits as [|b bits IH]; intros crc H; cbn [fold_left]; [exact H|].
  apply IH. now apply crc32_shift_range.
Qed.

Lemma land_1_bit x : Z.land x 1 = Z.b2z (Z.testbit x 0).
Proof.
  change 1 with (Z.ones 1) at 1. rewrite Z.land_ones by lia.
  symmetry. apply Z.bit0_mod.
Qed.

(** One turn of the inner loop is one shift of the reference register. *)
Lemma bit_step_spec crc byte :
  0 <= crc < 2 ^ 32 ->
  Hash.bit_step (crc, byte)
  = (Hash.crc32_shift crc (Z.testbit byte 0), u8 (Z.shiftr byte 1)).
Proof.
  intros H. unfold Hash.bit_step, Hash.crc32_shift. f_equal.
  pose proof (shiftr1_range32 crc H) as Hs.
  rewrite !land_1_bit. rewrite (u32_small (Z.shiftr crc 1)) by lia.
  destruct (Z.testbit byte 0), (Z.testbit crc 0); cbn [Z.b2z xorb];
    change (c_true (Z.lxor 1 1)) with false; change (c_true (Z.lxor 0 0)) with false;
    change (c_true (Z.lxor 1 0)) with true; change (c_true (Z.lxor 0 1)) with true;
    cbv iota; rewrite ?Z.lxor_0_r; try reflexivity.
  all: apply u32_small, lxor_range32; unfold Hash.crc32_poly; lia.
Qed.

Lemma inner_loop_spec n : forall i0 crc byte,
  0 <= crc < 2 ^ 32 -> 0 <= byte < 2 ^ 8 ->
  fst (for_loop n i0 (fun _ => Hash.bit_step) (crc, byte))
  = fold_left Hash.crc32_shift
      (map (fun k => Z.testbit byte (Z.of_nat k)) (seq 0 n)) crc.
Proof.
  induction n as [|n IH]; intros i0 crc byte Hc Hb; [reflexivity|].
  cbn [for_loop]. rewrite bit_step_spec by exact Hc.
  rewrite IH by (apply crc32_shift_range || apply u8_range; assumption).
  cbn [seq map fold_left]. f_equal.
  rewrite <- seq_shift, map_map. apply map_ext. intros k.
  assert (Hs : 0 <= Z.shiftr byte 1 < 2 ^ 8).
  { rewrite Z.shiftr_div_pow2 by lia. change (2 ^ 1) with 2.
    split; [apply Z.div_pos; lia|apply Z.div_lt_upper_bound; lia]. }
  unfold u8. rewrite Z.mod_small by exact Hs.
  rewrite Z.shiftr_spec by lia. f_equal. lia.
Qed.

Lemma byte_step_spec addr i crc :
  0 <= crc < 2 ^ 32 ->
  Hash.byte_step addr i crc
  = fold_left Hash.crc32_shift (Hash.bits_lsb_first (nth (Z.to_nat i) addr 0)) crc.
Proof.
  intros Hc. unfold Hash.byte_step.
  rewrite inner_loop_spec by (exact Hc || apply u8_range).
  f_equal. unfold Hash.bits_lsb_first. apply map_ext_in. intros k Hk.
  apply in_seq in Hk. unfold u8. apply Z.mod_pow2_bits_low. lia.
Qed.

Lemma outer_loop_spec addr n : forall i0 crc,
  0 <= i0 -> 0 <= crc < 2 ^ 32 ->
  for_loop n i0 (Hash.byte_step addr) crc
  = fold_left Hash.crc32_shift
      (Hash.message_bits (map (fun k => nth k addr 0) (seq (Z.to_nat i0) n))) crc.
Proof.
  induction n as [|n IH]; intros i0 crc Hi Hc; [reflexivity|].
  cbn [for_loop]. rewrite IH; [|lia|].
  - rewrite byte_step_spec by exact Hc.
    unfold Hash.message_bits. cbn [seq map flat_map].
    rewrite fold_left_app.
    replace (Z.to_nat (i0 + 1)) with (S (Z.to_nat i0)) by lia. reflexivity.
  - rewrite byte_step_spec by exact Hc. now apply crc32_fold_range.
Qed.

Lemma crc_of_reference addr :
  Hash.crc_of addr
  = Hash.crc32_reference (map (fun k => nth k addr 0) (seq 0 6)).
Proof.
  unfold Hash.crc_of, Hash.crc32_reference, Hash.crc32_seed.
  now rewrite outer_loop_spec by lia.
Qed.

Lemma top_bits_range crc : 0 <= crc < 2 ^ 32 -> 0 <= Z.shiftr crc 26 < 64.
Proof.
  intros H. rewrite Z.shiftr_div_pow2 by lia.
  split; [apply Z.div_pos; lia|apply Z.div_lt_upper_bound; lia].
Qed.

(** C8.  [fec_hash_address] is a function of the address bytes alone; its
    result lies in 0..63; on a 6-byte address it is bits 31..26 of the
    CRC-32 register obtained by shifting in the message bits, each byte
    least significant bit first, with polynomial 0xEDB88320 from the seed
    0xFFFFFFFF; and the address 00:11:22:33:44:55 hashes to 44. *)
Theorem hash_is_top_six_bits_of_crc32 (addr : list Z) (b0 b1 b2 b3 b4 b5 : Z) :
  0 <= Hash.fec_hash_address addr <= 63 /\
  Hash.crc_of [b0; b1; b2; b3; b4; b5]
    = Hash.crc32_reference [b0; b1; b2; b3; b4; b5] /\
  Hash.fec_hash_address [b0; b1; b2; b3; b4; b5]
    = Hash.computeHash_reference [b0; b1; b2; b3; b4; b5] /\
  Hash.fec_hash_address [0x00; 0x11; 0x22; 0x33; 0x44; 0x55] = 44.
Proof.
  assert (Hrange : forall a, 0 <= Hash.crc_of a < 2 ^ 32).
  { intros a. rewrite crc_of_reference.
    apply crc32_fold_range. unfold Hash.crc32_seed. lia. }
  assert (Hcrc : Hash.crc_of [b0; b1; b2; b3; b4; b5]
                 = Hash.crc32_reference [b0; b1; b2; b3; b4; b5])
    by apply crc_of_reference.
  split; [|split; [exact Hcrc|split; [|vm_compute; reflexivity]]].
  - unfold Hash.fec_hash_address.
    pose proof (top_bits_range _ (Hrange addr)) as Ht.
    unfold u8. rewrite Z.mod_small by lia. lia.
  - unfold Hash.fec_hash_address, Hash.computeHash_reference, Hash.bits_31_26.
    rewrite <- Hcrc.
    pose proof (top_bits_range _ (Hrange [b0; b1; b2; b3; b4; b5])) as Ht.
    unfold u8. rewrite Z.mod_small by lia.
    change 63 with (Z.ones 6). rewrite Z.land_ones by lia.
    symmetry. apply Z.mod_small. change (2 ^ 6) with 64. lia.
Qed.

(** [fec_set_address] sets, in the 64-bit individual hash table held by
    [MCF_FEC_IAUR] and [MCF_FEC_IALR], the bit the address hashes to. *)
Lemma fec_set_address_sets_hash_bit {C : Constants} (pa : list Z) (s : state) :
  let h := Hash.fec_hash_address pa in
  let s' := fec_set_address pa s in
  if 32 <=? h
  then Z.testbit (regs s' MCF_FEC_IAUR) (h - 32) = true
  else Z.testbit (regs s' MCF_FEC_IALR) h = true.
Proof.
  intros h s'.
  assert (Hh : 0 <= h <= 63).
  { subst h. unfold Hash.fec_hash_address.
    assert (Hr : 0 <= Hash.crc_of pa < 2 ^ 32).
    { rewrite crc_of_reference. apply crc32_fold_range.
      unfold Hash.crc32_seed. lia. }
    pose proof (top_bits_range _ Hr). unfold u8. rewrite Z.mod_small; lia. }
  subst s'. unfold fec_set_address. cbv zeta. fold h.
  destruct (Z.leb_spec 32 h).
  - rewrite regs_write_same. unfold u32.
    rewrite Z.mod_pow2_bits_low, Z.lor_spec, Z.mod_pow2_bits_low, Z.shiftl_spec by lia.
    replace (h - 32 - (h - 32)) with 0 by lia. apply orb_true_r.
  - rewrite regs_write_same. unfold u32.
    rewrite Z.mod_pow2_bits_low, Z.lor_spec, Z.mod_pow2_bits_low, Z.shiftl_spec by lia.
    replace (h - h) with 0 by lia. apply orb_true_r.
Qed.

Lemma fec_hash_address_range (pa : list Z) : 0 <= Hash.fec_hash_address pa <= 63.
Proof.
  unfold Hash.fec_hash_address.
  assert (Hr : 0 <= Hash.crc_of pa < 2 ^ 32).
  { rewrite crc_of_reference. apply crc32_fold_range.
    unfold Hash.crc32_seed. lia. }
  pose proof (top_bits_range _ Hr). unfold u8. rewrite Z.mod_small; lia.
Qed.

(** X20.  When [vInitFEC] has programmed the address filter, the 64-bit
    individual hash table held by [MCF_FEC_IAUR] (upper half) and
    [MCF_FEC_IALR] (lower half) has the bit the station address hashes to
    and no other, and the group hash table is empty, whatever the four
    registers held before. *)
Theorem hash_table_after_bring_up {C : Constants} (s : state) :
  let h := Hash.fec_hash_address ucMACAddress in
  let s' := vInitFEC_installed s in
  regs s' MCF_FEC_IAUR * 2 ^ 32 + regs s' MCF_FEC_IALR = 2 ^ h /\
  regs s' MCF_FEC_IAUR = (if 32 <=? h then 2 ^ (h - 32) else 0) /\
  regs s' MCF_FEC_IALR = (if 32 <=? h then 0 else 2 ^ h) /\
  regs s' MCF_FEC_GALR = 0 /\ regs s' MCF_FEC_GAUR = 0.
Proof.
  intros h s'.
  pose proof (fec_hash_address_range ucMACAddress) as Hh. fold h in Hh.
  assert (Hu : regs s' MCF_FEC_IAUR = (if 32 <=? h then 2 ^ (h - 32) else 0)).
  { subst s'. rewrite vInitFEC_installed_hash by auto.
    unfold fec_set_address. cbv zeta. fold h.
    destruct (Z.leb_spec 32 h).
    - rewrite regs_write_same. rewrite !regs_write_other by discriminate.
      rewrite regs_write_same. change (u32 0) with 0.
      rewrite Z.lor_0_l, Z.shiftl_1_l.
      assert (Hp : 0 < 2 ^ (h - 32) <= 2 ^ 31)
        by (split; [apply Z.pow_pos_nonneg; lia|apply Z.pow_le_mono_r; lia]).
      rewrite !u32_small; [reflexivity|lia|rewrite u32_small; lia].
    - rewrite !regs_write_other by discriminate. apply regs_write_same. }
  assert (Hl : regs s' MCF_FEC_IALR = (if 32 <=? h then 0 else 2 ^ h)).
  { subst s'. rewrite vInitFEC_installed_hash by auto.
    unfold fec_set_address. cbv zeta. fold h.
    destruct (Z.leb_spec 32 h).
    - rewrite !regs_write_other by discriminate. apply regs_write_same.
    - rewrite regs_write_same. rewrite !regs_write_other by discriminate.
      rewrite regs_write_same. change (u32 0) with 0.
      rewrite Z.lor_0_l, Z.shiftl_1_l.
      assert (Hp : 0 < 2 ^ h <= 2 ^ 31)
        by (split; [apply Z.pow_pos_nonneg; lia|apply Z.pow_le_mono_r; lia]).
      rewrite !u32_small; [reflexivity|lia|rewrite u32_small; lia]. }
  destruct (vInitFEC_installed_regs s) as (_ & _ & _ & _ & _ & G1 & G2 & _).
  fold s' in G1, G2.
  split; [|split; [exact Hu|split; [exact Hl|split; [exact G1|exact G2]]]].
  rewrite Hu, Hl. destruct (Z.leb_spec 32 h).
  - rewrite Z.add_0_r, <- Z.pow_add_r by lia. f_equal. lia.
  - lia.
Qed.

(** ** The theorems at work on the MCF52233 instance *)

Ltac concrete :=
  repeat split; vm_compute; try reflexivity; try discriminate;
  try (intros; discriminate).

Lemma initialise_rings_witness :
  prvInitialiseFECBuffers (C := MCF52233)
    (prvInitialiseFECBuffers (C := MCF52233) power_on)
  = prvInitialiseFECBuffers (C := MCF52233) power_on /\
  (forall i, 0 <= i < 5 ->
     (rx_wrap (C := MCF52233)
        (rx_at (prvInitialiseFECBuffers (C := MCF52233) power_on) i) = true
      <-> i = 4)).
Proof.
  pose proof (initialise_rings_postcondition (C := MCF52233) power_on
                ltac:(concrete) ltac:(concrete) ltac:(concrete) ltac:(concrete)) as H.
  cbv zeta in H. destruct H as (Hw & _ & _ & _ & _ & _ & _ & Hidem & _).
  split; [exact Hidem|exact Hw].
Defined.

Lemma cursor_advances_witness :
  cursor_trail (C := MCF52233) 7 (prvInitialiseFECBuffers (C := MCF52233) power_on)
  = [0; 1; 2; 3; 4; 0; 1; 2].
Proof.
  pose proof (cursor_advances_modulo_ring_depth (C := MCF52233)
                (prvInitialiseFECBuffers (C := MCF52233) power_on) 7
                ltac:(concrete) ltac:(concrete) ltac:(concrete) ltac:(concrete))
    as (_ & _ & H & _).
  destruct (H eq_refl) as [Ht _]. exact Ht.
Defined.

Lemma busy_transmit_descriptor_witness :
  tx_hw_owned (C := MCF52233) (tx_at transmit_in_flight 0) = true /\
  tx_hw_owned (C := MCF52233)
    (tx_at (vSendBufferToFEC (C := MCF52233) true transmit_in_flight) 0) = false /\
  FECBD.data (tx_at (vSendBufferToFEC (C := MCF52233) true transmit_in_flight) 0) = NULL /\
  xTxSemaphore (vSendBufferToFEC (C := MCF52233) true transmit_in_flight) = true.
Proof.
  assert (Hb : tx_hw_owned (C := MCF52233) (tx_at transmit_in_flight 0) = true)
    by reflexivity.
  pose proof (busy_transmit_descriptor_resets (C := MCF52233) transmit_in_flight
                ltac:(concrete) ltac:(concrete) ltac:(concrete) ltac:(concrete) Hb) as H.
  cbv zeta in H. destruct H as (_ & _ & _ & Hd & _ & Ho & _ & _ & Hs).
  repeat split; assumption.
Defined.

Lemma transmit_timeout_witness :
  vSendBufferToFEC (C := MCF52233) false frame_received
  = vDiscardRxData (C := MCF52233) frame_received /\
  uxNextRxBuffer (vSendBufferToFEC (C := MCF52233) false frame_received) = 2 /\
  rx_hw_owned (C := MCF52233)
    (rx_at (vSendBufferToFEC (C := MCF52233) false frame_received) 1) = true.
Proof.
  pose proof (transmit_timeout_drops_frame (C := MCF52233) frame_received
                ltac:(concrete) ltac:(concrete) ltac:(concrete) ltac:(concrete)) as H.
  cbv zeta in H. destruct H as (He & _ & _ & Ho & _ & Hc & _).
  split; [exact He|]. split; [exact Hc|exact Ho].
Defined.

Lemma zero_copy_handoff_witness :
  FECBD.data
    (tx_at (vSendBufferToFEC (C := MCF52233) true
              (snd (usGetFECRxData (C := MCF52233) frame_received))) 0)
  = 0x20000650 /\
  rx_hw_owned (C := MCF52233)
    (rx_at (vFEC_ISR (C := MCF52233) 0x08000000
              (vSendBufferToFEC (C := MCF52233) true
                 (snd (usGetFECRxData (C := MCF52233) frame_received)))) 1)
  = true.
Proof.
  pose proof (zero_copy_handoff (C := MCF52233) frame_received 0x08000000
                ltac:(concrete) ltac:(concrete) ltac:(concrete) ltac:(concrete)
                ltac:(concrete) ltac:(concrete) ltac:(concrete) ltac:(concrete)) as H.
  cbv zeta in H. destruct H as (_ & Hd & _ & _ & _ & _ & _ & _ & _ & _ & Ho & _).
  split; [exact Hd|exact Ho].
Defined.

Lemma fatal_event_witness :
  uxNextRxBuffer (vFEC_ISR (C := MCF52233) 0x00080000 frame_received) = 0 /\
  regs (vFEC_ISR (C := MCF52233) 0x00080000 frame_received) MCF_FEC_TCR
  = regs frame_received MCF_FEC_TCR.
Proof.
  pose proof (fatal_event_resets_device (C := MCF52233) frame_received
                0x00080000 0x00080000
                ltac:(concrete) ltac:(concrete) ltac:(concrete) ltac:(concrete)
                ltac:(left; reflexivity) ltac:(concrete)) as H.
  cbv zeta in H. destruct H as (_ & _ & Hc & _ & _ & _ & Ht & _).
  split; [exact Hc|exact Ht].
Defined.

Lemma link_decoding_witness :
  configured_duplex (C := MCF52233)
    (snd (vInitFEC_negotiated (C := MCF52233) (phy_answers 0x45e1) 0x782d power_on))
  = Full /\
  snd (vInitFEC_negotiated (C := MCF52233) (phy_answers 0x0040) 0 power_on)
  = snd (vInitFEC_negotiated (C := MCF52233) (phy_answers 0x45e1) 0x782d power_on).
Proof.
  pose proof (link_decoding (C := MCF52233) (phy_answers 0x45e1) 0x782d power_on
                ltac:(concrete) ltac:(concrete)) as H.
  cbv zeta in H. destruct H as (_ & _ & _ & H100 & _ & _ & Hsame).
  split; [apply H100; concrete|].
  apply Hsame; [intros i Hi; reflexivity|].
  split; intros _; [left|right]; vm_compute; discriminate.
Defined.

(** C7 as the specification words it fails: it has a speed configured
    that is 100 exactly when the link partner advertises 100BASE-TX, so
    that some observation of the driver after the decoding would tell the
    two speeds apart.  On the MCF52233 values the word 0x0100 advertises
    100BASE-TX full duplex and the word 0x0040 advertises 10BASE-T full
    duplex and no 100BASE-TX ability, and the decoding of either leaves the
    same state, as does the rest of bring-up: no observation tells them
    apart. *)
Lemma link_speed_is_not_configured :
  fst (vInitFEC_negotiated (C := MCF52233) (phy_answers 0x0100) 0 power_on) = 0x0100 /\
  fst (vInitFEC_negotiated (C := MCF52233) (phy_answers 0x0040) 0 power_on) = 0x0040 /\
  Z.land 0x0100 (PHY_ANLPAR_100BTX_FDX (Constants := MCF52233)) <> 0 /\
  Z.land 0x0040 (PHY_ANLPAR_100BTX_FDX (Constants := MCF52233)) = 0 /\
  Z.land 0x0040 (PHY_ANLPAR_100BTX (Constants := MCF52233)) = 0 /\
  snd (vInitFEC_negotiated (C := MCF52233) (phy_answers 0x0100) 0 power_on)
  = snd (vInitFEC_negotiated (C := MCF52233) (phy_answers 0x0040) 0 power_on) /\
  vInitFEC (C := MCF52233) (K := MCF52233_bringup) 3
    (fun k => match k with 6%nat => phy_answers 0x0100 | _ => phy_script k end) cold_board
  = vInitFEC (C := MCF52233) (K := MCF52233_bringup) 3
      (fun k => match k with 6%nat => phy_answers 0x0040 | _ => phy_script k end) cold_board /\
  ~ (exists configured_speed : state -> link_speed,
       forall dev usData0 s,
         configured_speed (snd (vInitFEC_negotiated (C := MCF52233) dev usData0 s))
         = Speed100 <->
         Z.land (fst (vInitFEC_negotiated (C := MCF52233) dev usData0 s))
                (PHY_ANLPAR_100BTX (Constants := MCF52233)) <> 0 \/
         Z.land (fst (vInitFEC_negotiated (C := MCF52233) dev usData0 s))
                (PHY_ANLPAR_100BTX_FDX (Constants := MCF52233)) <> 0).
Proof.
  assert (Hst : snd (vInitFEC_negotiated (C := MCF52233) (phy_answers 0x0100) 0 power_on)
                = snd (vInitFEC_negotiated (C := MCF52233) (phy_answers 0x0040) 0 power_on))
    by (vm_compute; reflexivity).
  split; [vm_compute; reflexivity|]. split; [vm_compute; reflexivity|].
  split; [vm_compute; discriminate|]. split; [vm_compute; reflexivity|].
  split; [vm_compute; reflexivity|]. split; [exact Hst|].
  split; [vm_compute; reflexivity|].
  intros [configured_speed H].
  pose proof (H (phy_answers 0x0100) 0 power_on) as Hfast.
  pose proof (H (phy_answers 0x0040) 0 power_on) as Hslow.
  rewrite Hst in Hfast.
  assert (E : configured_speed
                (snd (vInitFEC_negotiated (C := MCF52233) (phy_answers 0x0040) 0 power_on))
              = Speed100)
    by (apply Hfast; right; vm_compute; discriminate).
  apply Hslow in E. destruct E as [E|E]; apply E; vm_compute; reflexivity.
Qed.

Lemma mii_read_timeout_witness :
  fst (fec_mii_read (C := MCF52233) 1 0x05 phy_silent power_on) = (0, None) /\
  stored (snd (fst (fec_mii_read (C := MCF52233) 1 0x05 phy_silent power_on))) 0x782d
  = 0x782d.
Proof.
  pose proof (mii_read_timeout_keeps_output (C := MCF52233) 1 0x05 phy_silent
                power_on 0x782d ltac:(intros; reflexivity)) as (H0 & Hn & Hs & _).
  split; [|exact Hs].
  destruct (fec_mii_read (C := MCF52233) 1 5 phy_silent power_on) as [[r w] t].
  cbn [fst snd] in *. now subst.
Defined.

(** *** The further properties on the same instance *)

Lemma initialised_pointers_witness :
  xFECTxDescriptors (prvInitialiseFECBuffers (C := MCF52233) power_on) mod 16 = 0 /\
  FECBD.data (rx_at (prvInitialiseFECBuffers (C := MCF52233) power_on) 3) mod 16 = 0.
Proof.
  pose proof (initialised_pointers_are_aligned (C := MCF52233) power_on
                ltac:(concrete) ltac:(concrete) ltac:(concrete)) as H.
  cbv zeta in H. destruct H as (H1 & _ & _ & _ & H5).
  split; [exact H1|apply H5; concrete].
Defined.

Lemma full_turn_witness :
  uxNextRxBuffer (Nat.iter 5 (vDiscardRxData (C := MCF52233)) frame_received) = 1 /\
  fst (usGetFECRxData (C := MCF52233)
         (Nat.iter 5 (vDiscardRxData (C := MCF52233)) frame_received)) = 0.
Proof.
  pose proof (full_turn_of_releases (C := MCF52233) frame_received
                ltac:(concrete) ltac:(concrete) ltac:(concrete) ltac:(concrete)) as H.
  cbv zeta in H. destruct H as (Hc & _ & _ & Hp).
  split; [exact Hc|exact Hp].
Defined.

Lemma indices_stay_in_range_witness :
  wf (C := MCF52233)
     (run (C := MCF52233)
        [Poll; Send true; Interrupt 0x08000000; Release; Interrupt 0x00080000;
         DeviceRx 2 stale; Send false]
        frame_received).
Proof.
  exact (proj1 (indices_stay_in_range (C := MCF52233)
                  [Poll; Send true; Interrupt 0x08000000; Release; Interrupt 0x00080000;
                   DeviceRx 2 stale; Send false]
                  frame_received ltac:(concrete) ltac:(concrete))).
Defined.

Lemma poll_after_reset_witness :
  fst (usGetFECRxData (C := MCF52233) (prvResetFEC (C := MCF52233) pdTRUE frame_received))
  = 0.
Proof.
  exact (f_equal fst (poll_after_reset_is_empty (C := MCF52233) pdTRUE frame_received
                        ltac:(concrete) ltac:(concrete) ltac:(concrete))).
Defined.

Lemma reset_contexts_witness :
  emitted frame_received (prvResetFEC (C := MCF52233) pdFALSE frame_received)
  = [EnterCritical]
    ++ emitted frame_received (prvResetFEC (C := MCF52233) pdTRUE frame_received)
    ++ [ExitCritical].
Proof.
  pose proof (reset_contexts_differ_in_critical_section (C := MCF52233) pdTRUE
                frame_received ltac:(concrete) ltac:(concrete) ltac:(concrete)) as H.
  cbv zeta in H. destruct H as (He & _). exact He.
Defined.

Lemma handler_semaphore_witness :
  xTxSemaphore (vFEC_ISR (C := MCF52233) 0x00080000
                  (set_xTxSemaphore false transmit_in_flight)) = false /\
  tx_hw_owned (C := MCF52233)
    (tx_at (vFEC_ISR (C := MCF52233) 0x00080000
              (set_xTxSemaphore false transmit_in_flight)) fecTX_BUFFER_TO_USE) = false.
Proof.
  pose proof (handler_semaphore_contract (C := MCF52233) 0x00080000
                (set_xTxSemaphore false transmit_in_flight)
                ltac:(concrete) ltac:(concrete) ltac:(concrete)) as H.
  cbv zeta in H. destruct H as (_ & _ & _ & Hf).
  destruct (Hf ltac:(vm_compute; reflexivity) ltac:(vm_compute; reflexivity)) as [Ho Hs].
  split; [exact Hs|exact Ho].
Defined.

Lemma management_frame_timing_witness :
  fst (fec_mii_write (C := MCF52233) 1 0 0x1200 (phy_answers 0x782d) power_on) = 1 /\
  fst (fst (fec_mii_read (C := MCF52233) 1 1 (phy_answers 0x782d) power_on)) = 1.
Proof.
  pose proof (management_frame_timing (C := MCF52233) 1 0 0x1200 (phy_answers 0x782d)
                power_on 2 ltac:(concrete)
                ltac:(intros i Hi; cbn; destruct (Z.eqb_spec i 2); [lia|reflexivity])
                ltac:(intros _; vm_compute; discriminate)) as H.
  cbv zeta in H. destruct H as (Hw & _ & _ & _).
  pose proof (management_frame_timing (C := MCF52233) 1 1 0 (phy_answers 0x782d)
                power_on 2 ltac:(concrete)
                ltac:(intros i Hi; cbn; destruct (Z.eqb_spec i 2); [lia|reflexivity])
                ltac:(intros _; vm_compute; discriminate)) as H'.
  cbv zeta in H'. destruct H' as (_ & _ & Hr & _).
  split; [exact Hw|exact Hr].
Defined.

Lemma receive_duplex_bit_witness :
  Z.land (regs (vInitFEC_installed (C := MCF52233)
                  (snd (vInitFEC_negotiated (C := MCF52233) (phy_answers 0) 0 power_on)))
               MCF_FEC_RCR) 0x2 = 0 /\
  configured_duplex (C := MCF52233)
    (snd (vInitFEC_negotiated (C := MCF52233) (phy_answers 0) 0 power_on)) = Half.
Proof.
  pose proof (receive_duplex_bit_is_overwritten (C := MCF52233) (phy_answers 0) 0 power_on
                ltac:(concrete) ltac:(vm_compute; reflexivity)
                ltac:(vm_compute; reflexivity) ltac:(vm_compute; reflexivity)
                ltac:(vm_compute; reflexivity)) as H.
  cbv zeta in H. destruct H as (Hd & _).
  split; [exact Hd|vm_compute; reflexivity].
Defined.

Lemma presence_wait_witness :
  exists s',
    phy_present_loop (C := MCF52233) (K := MCF52233_bringup) 3 phy_script 0 power_on
    = Some (0x0243, 3%nat, s').
Proof.
  pose proof (presence_wait_ends_on_first_other_reading
                (C := MCF52233) (K := MCF52233_bringup) phy_script 2 3 power_on 0x0243
                ltac:(intros j Hj; destruct j as [|[|j]]; [| |lia];
                      (split; [exists 2; concrete|reflexivity]))
                ltac:(right; split; [split; [exists 2; concrete|reflexivity]
                                    |vm_compute; discriminate])) as H.
  destruct H as (_ & H). destruct (H ltac:(lia)) as (s' & E & _).
  exists s'. exact E.
Defined.

Lemma autonegotiation_wait_witness :
  exists s',
    an_complete_loop (C := MCF52233) (K := MCF52233_bringup) 2 phy_script 4 0x0243 power_on
    = Some (0x782d, 6%nat, s').
Proof.
  pose proof (autonegotiation_wait
                (C := MCF52233) (K := MCF52233_bringup) phy_script 4 1 2 0x0243 power_on
                0x782d
                ltac:(intros j Hj; destruct j as [|j]; [|lia]; exists 0x7809;
                      split; [split; [exists 2; concrete|reflexivity]|reflexivity])
                ltac:(split; [exists 2; concrete|reflexivity])
                ltac:(vm_compute; discriminate)) as H.
  destruct H as (_ & H & _). destruct (H ltac:(lia)) as (s' & E & _).
  exists s'. exact E.
Defined.

Lemma bring_up_without_phy_witness :
  vInitFEC (C := MCF52233) (K := MCF52233_bringup) 7 (fun _ => phy_silent) cold_board
  = None.
Proof.
  exact (bring_up_does_not_return_without_phy
           (C := MCF52233) (K := MCF52233_bringup) (fun _ => phy_silent) cold_board
           ltac:(left; intros k i Hi; reflexivity) 7%nat).
Defined.


Lemma ephy_control_witness :
  periph (vInitFEC_hardware (C := MCF52233) (K := MCF52233_bringup) cold_board)
         MCF_EPHY_EPHYCTL0 = 0x80.
Proof.
  pose proof (ephy_control_sequence (C := MCF52233) (K := MCF52233_bringup) cold_board
                ltac:(concrete) ltac:(vm_compute; reflexivity)
                ltac:(vm_compute; reflexivity)) as H.
  cbv zeta in H. destruct H as (_ & Hv & _). exact Hv.
Defined.

